(** * Sentiment-classification experiments: a verified model of [main.py] and [rf.py]

    The development embeds the experiment scripts of the repository:
    - [rf.py]   : the single-model pipeline builder [create_text_pipeline];
    - [main.py] : [train_model], [compute_metrics], [evaluate_model] and the
                  driver [run_experiments].

    Python floats are IEEE binary64 numbers and are modelled by Rocq's
    primitive floats; numpy integer counts are modelled by [Z]; Python
    dictionaries by insertion-ordered association lists; exceptions by
    [option]; the wall clock by a counter threaded through a small
    state-and-error monad.  The scikit-learn functions the scripts call are
    modelled after the library's documented behaviour in [Module Sklearn]. *)

From Stdlib Require Import ZArith List String Ascii Bool Floats Lia.
From Stdlib Require Import DecimalString Permutation Sorted.
Import ListNotations.

Set Warnings "-inexact-float".

Local Open Scope Z_scope.

(* ================================================================== *)
(** ** Python values, strings and dictionaries *)

Module Py.

(** [str.lower] and [str.upper] on ASCII text (the configuration names of
    the scripts are ASCII; bytes outside [A-Za-z] are left unchanged). *)
Definition lower_char (c : ascii) : ascii :=
  let n := nat_of_ascii c in
  if ((65 <=? n) && (n <=? 90))%nat then ascii_of_nat (n + 32) else c.

Definition upper_char (c : ascii) : ascii :=
  let n := nat_of_ascii c in
  if ((97 <=? n) && (n <=? 122))%nat then ascii_of_nat (n - 32) else c.

Fixpoint lower (s : string) : string :=
  match s with
  | EmptyString => EmptyString
  | String c s' => String (lower_char c) (lower s')
  end.

Fixpoint upper (s : string) : string :=
  match s with
  | EmptyString => EmptyString
  | String c s' => String (upper_char c) (upper s')
  end.

(** The values stored in the metric and result dictionaries. *)
Inductive value : Type :=
| VNone
| VInt (z : Z)
| VFloat (f : float)
| VStr (s : string).

(** A [dict] keeps its keys in insertion order; assigning to a key that is
    already present replaces the value in place, a new key goes last. *)
Definition dict : Type := list (string * value).

Fixpoint dict_get (k : string) (d : dict) : option value :=
  match d with
  | [] => None
  | (k', v) :: d' => if String.eqb k k' then Some v else dict_get k d'
  end.

Fixpoint dict_set (k : string) (v : value) (d : dict) : dict :=
  match d with
  | [] => [(k, v)]
  | (k', v') :: d' =>
      if String.eqb k k' then (k', v) :: d' else (k', v') :: dict_set k v d'
  end.

(** [d.update(items)], also the meaning of a dict display [{k: v, ...}]
    and of the unpacking [**items] inside one. *)
Definition dict_update (d : dict) (items : list (string * value)) : dict :=
  fold_left (fun acc kv => dict_set (fst kv) (snd kv) acc) items d.

Definition dict_of (items : list (string * value)) : dict :=
  dict_update [] items.

Definition keys (d : dict) : list string := map fst d.

Definition get_int (k : string) (d : dict) : option Z :=
  match dict_get k d with Some (VInt z) => Some z | _ => None end.

Definition get_float (k : string) (d : dict) : option float :=
  match dict_get k d with Some (VFloat f) => Some f | _ => None end.

Definition get_str (k : string) (d : dict) : option string :=
  match dict_get k d with Some (VStr s) => Some s | _ => None end.

(** The option monad renders "a raised exception aborts the call". *)
Definition obind {A B : Type} (x : option A) (f : A -> option B) : option B :=
  match x with Some a => f a | None => None end.

End Py.
Import Py.

Notation "x <-? c ;; k" := (obind c (fun x => k))
  (at level 61, c at next level, right associativity).

(* ================================================================== *)
(** ** Binary labels and numpy conversions *)

(** A sentiment label of the SST-2 data: [false] is class 0 (negative),
    [true] is class 1 (positive). *)
Definition label : Type := bool.

(** Conversion of an integer count to binary64, rounding to nearest even.
    Counts are 64-bit integers: the conversion is that of the machine for
    [0 <= n < 2^63] and wraps beyond. *)
Definition float_of_count (n : Z) : float := of_uint63 (Uint63.of_Z n).

(* ================================================================== *)
(** ** The scikit-learn functions used by the scripts *)

Module Sklearn.

(** Number of samples whose true label is [t] and predicted label is [p]. *)
Definition count_pairs (t p : label) (y_true y_pred : list label) : Z :=
  Z.of_nat
    (List.length
       (filter (fun tp => Bool.eqb (fst tp) t && Bool.eqb (snd tp) p)
               (combine y_true y_pred))).

Definition count_label (l : label) (y : list label) : Z :=
  Z.of_nat (List.length (filter (Bool.eqb l) y)).

(** [unique_labels]: the labels occurring in either sequence, sorted. *)
Definition unique_labels (y_true y_pred : list label) : list label :=
  (if existsb negb (y_true ++ y_pred) then [false] else []) ++
  (if existsb (fun b => b) (y_true ++ y_pred) then [true] else []).

Definition same_length (y_true y_pred : list label) : bool :=
  Nat.eqb (List.length y_true) (List.length y_pred).

(** [confusion_matrix(y_true, y_pred)] with [labels=None]: rows are true
    labels, columns predicted labels, both indexed by [unique_labels];
    sequences of different lengths raise. *)
Definition confusion_matrix (y_true y_pred : list label)
  : option (list (list Z)) :=
  if same_length y_true y_pred then
    let labels := unique_labels y_true y_pred in
    Some (map (fun t => map (fun p => count_pairs t p y_true y_pred) labels)
              labels)
  else None.

(** [ndarray.ravel]: the rows one after the other. *)
Definition ravel (c : list (list Z)) : list Z := List.concat c.

(** [accuracy_score]: the mean of the indicator [y_true == y_pred], that
    is the number of matches divided by the number of samples in binary64
    (0/0, the mean of no sample, is NaN). *)
Definition n_correct (y_true y_pred : list label) : Z :=
  Z.of_nat
    (List.length
       (filter (fun tp => Bool.eqb (fst tp) (snd tp)) (combine y_true y_pred))).

Definition accuracy_score (y_true y_pred : list label) : option float :=
  if same_length y_true y_pred then
    Some (float_of_count (n_correct y_true y_pred)
          / float_of_count (Z.of_nat (List.length y_true)))%float
  else None.

(** [_prf_divide]: the quotient, replaced by [zero_division] where the
    denominator is 0. *)
Definition prf_divide (numerator denominator : Z) (zero_division : float)
  : float :=
  if denominator =? 0 then zero_division
  else (float_of_count numerator / float_of_count denominator)%float.

(** The binary-average scores for the positive class 1:
    [tp_sum] true positives, [pred_sum] predicted positives, [true_sum]
    actual positives. *)
Definition tp_sum := count_pairs true true.
Definition pred_sum (y_true y_pred : list label) := count_label true y_pred.
Definition true_sum (y_true y_pred : list label) := count_label true y_true.

Definition precision_score (y_true y_pred : list label)
           (zero_division : float) : option float :=
  if same_length y_true y_pred then
    Some (prf_divide (tp_sum y_true y_pred) (pred_sum y_true y_pred)
                     zero_division)
  else None.

Definition recall_score (y_true y_pred : list label)
           (zero_division : float) : option float :=
  if same_length y_true y_pred then
    Some (prf_divide (tp_sum y_true y_pred) (true_sum y_true y_pred)
                     zero_division)
  else None.

(** F-beta with beta = 1 in terms of the confusion-matrix entries:
    (1 + beta^2) tp / (beta^2 true_sum + pred_sum). *)
Definition f1_score (y_true y_pred : list label)
           (zero_division : float) : option float :=
  if same_length y_true y_pred then
    Some (prf_divide (2 * tp_sum y_true y_pred)
                     (true_sum y_true y_pred + pred_sum y_true y_pred)
                     zero_division)
  else None.

(** [matthews_corrcoef], computed in binary64 from the confusion matrix. *)
Definition fsum (l : list float) : float :=
  match l with
  | [] => 0%float
  | x :: l' => fold_left PrimFloat.add l' x
  end.

Definition dot (a b : list float) : float :=
  fsum (map (fun xy => (fst xy * snd xy)%float) (combine a b)).

Definition row_sums (c : list (list Z)) : list float :=
  map (fun row => fsum (map float_of_count row)) c.

Definition col_sums (c : list (list Z)) : list float :=
  map (fun j => fsum (map (fun row => float_of_count (nth j row 0)) c))
      (seq 0 (List.length c)).

Definition trace (c : list (list Z)) : float :=
  fsum (map (fun i => float_of_count (nth i (nth i c []) 0))
            (seq 0 (List.length c))).

Definition matthews_corrcoef (y_true y_pred : list label) : option float :=
  match confusion_matrix y_true y_pred with
  | None => None
  | Some c =>
      let t_sum := row_sums c in
      let p_sum := col_sums c in
      let n_correct := trace c in
      let n_samples := fsum p_sum in
      let cov_ytyp := (n_correct * n_samples - dot t_sum p_sum)%float in
      let cov_ypyp := (n_samples * n_samples - dot p_sum p_sum)%float in
      let cov_ytyt := (n_samples * n_samples - dot t_sum t_sum)%float in
      if (cov_ypyp * cov_ytyt =? 0)%float then Some 0%float
      else Some (cov_ytyp / sqrt (cov_ytyt * cov_ypyp))%float
  end.

(** *** Estimators and pipelines *)

(** An estimator is recorded by its class and its keyword arguments. *)
Inductive estimator : Type :=
| TfidfVectorizer (kwargs : dict)
| CountVectorizer (kwargs : dict)
| LinearSVC (kwargs : dict)
| RandomForestClassifier (kwargs : dict).

(** [Pipeline(steps)]: the named stages, in order. *)
Definition Pipeline : Type := list (string * estimator).

Definition is_vectorizer (e : estimator) : bool :=
  match e with
  | TfidfVectorizer _ | CountVectorizer _ => true
  | _ => false
  end.

Definition is_random_forest (e : estimator) : bool :=
  match e with
  | RandomForestClassifier _ => true
  | _ => false
  end.

Definition kwargs_of (e : estimator) : dict :=
  match e with
  | TfidfVectorizer k | CountVectorizer k
  | LinearSVC k | RandomForestClassifier k => k
  end.

(** *** [ParameterGrid] and [GridSearchCV] *)

Definition param_grid_t : Type := list (string * list value).

Fixpoint insert_item (kv : string * list value) (l : param_grid_t)
  : param_grid_t :=
  match l with
  | [] => [kv]
  | kv' :: l' =>
      if String.leb (fst kv) (fst kv') then kv :: l
      else kv' :: insert_item kv l'
  end.

(** [sorted(param_grid.items())] *)
Definition sorted_items (g : param_grid_t) : param_grid_t :=
  fold_right insert_item [] g.

(** [itertools.product] of the value lists, the last key varying fastest. *)
Fixpoint product (items : param_grid_t) : list dict :=
  match items with
  | [] => [[]]
  | (k, vs) :: rest =>
      flat_map (fun v => map (fun d => (k, v) :: d) (product rest)) vs
  end.

Definition ParameterGrid (g : param_grid_t) : list dict :=
  product (sorted_items g).

Record GridSearchCV : Type := {
  gs_estimator : Pipeline;
  gs_param_grid : param_grid_t;
  gs_cv : nat;
  gs_n_jobs : Z;
  gs_verbose : Z;
  gs_scoring : string
}.

Section GridSearch.
(** The numerical work of fitting and scoring is left to the library:
    [cv_score est params scoring n k X y] is the [scoring] value on fold
    [k] of [n] of the estimator [est] configured with [params] and
    fitted on the other folds; [refit est params X y] fits on all of
    [X], [y] and may raise. *)
Variable FittedModel : Type.
Variable cv_score :
  Pipeline -> dict -> string -> nat -> nat ->
  list string -> list label -> float.
Variable refit :
  Pipeline -> dict -> list string -> list label -> option FittedModel.

Definition mean_test_score (gs : GridSearchCV)
           (X : list string) (y : list label) (params : dict) : float :=
  (fsum (map (fun k => cv_score (gs_estimator gs) params (gs_scoring gs)
                                (gs_cv gs) k X y)
             (seq 0 (gs_cv gs)))
   / float_of_count (Z.of_nat (gs_cv gs)))%float.

(** Rank 1 goes to the highest mean score; [argmin] of the ranks takes
    the first candidate of rank 1. *)
Fixpoint argmax_first (score : dict -> float) (best : dict)
         (rest : list dict) : dict :=
  match rest with
  | [] => best
  | p :: rest' =>
      argmax_first score (if (score best <? score p)%float then p else best)
                   rest'
  end.

Record fitted_search : Type := {
  best_estimator_ : FittedModel;
  best_params_ : dict;
  best_score_ : float
}.

(** [GridSearchCV.fit] with the default [refit=True]. *)
Definition fit (gs : GridSearchCV) (X : list string) (y : list label)
  : option fitted_search :=
  match ParameterGrid (gs_param_grid gs) with
  | [] => None
  | p :: ps =>
      let best := argmax_first (mean_test_score gs X y) p ps in
      m <-? refit (gs_estimator gs) best X y ;;
      Some {| best_estimator_ := m;
              best_params_ := best;
              best_score_ := mean_test_score gs X y best |}
  end.
End GridSearch.

End Sklearn.


(* ================================================================== *)
(** ** [rf.py]: the random-forest pipeline builder *)

Module Rf.
Import Sklearn.
Local Open Scope string_scope.

(** Common vectorizer parameters. *)
Definition vectorizer_params : dict :=
  dict_of [ ("min_df", VInt 5); ("max_df", VFloat 0.8) ].

Definition create_text_pipeline (vectorizer_type : string)
  : Pipeline * string :=
  let '(vectorizer, model_suffix) :=
    if String.eqb (lower vectorizer_type) "tfidf"
    then (TfidfVectorizer vectorizer_params, "tfidf")
    else (CountVectorizer vectorizer_params, "bow") in
  let pipeline :=
    [ ("vectorizer", vectorizer);
      ("classifier",
       RandomForestClassifier (dict_of [ ("class_weight", VStr "balanced") ])) ]
  in
  (pipeline, model_suffix).

End Rf.

(* ================================================================== *)
(** ** [main.py] *)

Module Main.
Import Sklearn.

(** [tn, fp, fn, tp = confusion_matrix(y_true, y_pred).ravel()]:
    unpacking raises unless the raveled matrix has exactly four cells. *)
Definition unpack4 (l : list Z) : option (Z * Z * Z * Z) :=
  match l with
  | [a; b; c; d] => Some (a, b, c, d)
  | _ => None
  end.

Definition compute_metrics (y_true y_pred : list label) : option dict :=
  cm <-? confusion_matrix y_true y_pred ;;
  cells <-? unpack4 (ravel cm) ;;
  let '(tn, fp, fn, tp) := cells in
  acc <-? accuracy_score y_true y_pred ;;
  acc' <-? accuracy_score y_true y_pred ;;
  prec <-? precision_score y_true y_pred 0 ;;
  rec <-? recall_score y_true y_pred 0 ;;
  f1 <-? f1_score y_true y_pred 0 ;;
  mcc <-? matthews_corrcoef y_true y_pred ;;
  Some (dict_of
          [ ("TP", VInt tp);
            ("TN", VInt tn);
            ("FP", VInt fp);
            ("FN", VInt fn);
            ("Accuracy", VFloat acc);
            ("Error Rate", VFloat (1 - acc'));
            ("Precision", VFloat prec);
            ("Recall", VFloat rec);
            ("F1 Score", VFloat f1);
            ("MCC", VFloat mcc) ]%string).


(** *** Training, evaluation and the experiment driver *)

(** Computations that read the wall clock and may raise: the state is the
    number of clock readings made so far. *)
Definition M (A : Type) : Type := nat -> option (A * nat).

Definition ret {A : Type} (a : A) : M A := fun s => Some (a, s).

Definition bind {A B : Type} (c : M A) (f : A -> M B) : M B :=
  fun s => match c s with
           | Some (a, s') => f a s'
           | None => None
           end.

Definition lift {A : Type} (x : option A) : M A :=
  fun s => match x with Some a => Some (a, s) | None => None end.

Notation "x <- c ;; k" := (bind c (fun x => k))
  (at level 61, c at next level, right associativity).
Notation "' pat <- c ;; k" :=
  (bind c (fun x => match x with pat => k end))
  (at level 61, pat pattern, c at next level, right associativity).

(** An experiment configuration, one entry of [experiments]. *)
Record experiment : Type := {
  classifier : string;
  vectorizer : string;
  stop_words : bool
}.

Local Open Scope string_scope.

Definition experiments : list experiment :=
  [ (* SVM experiments *)
    {| classifier := "svm"; vectorizer := "tfidf"; stop_words := true |};
    {| classifier := "svm"; vectorizer := "tfidf"; stop_words := false |};
    {| classifier := "svm"; vectorizer := "bow"; stop_words := true |};
    {| classifier := "svm"; vectorizer := "bow"; stop_words := false |};
    (* RF experiments *)
    {| classifier := "rf"; vectorizer := "tfidf"; stop_words := true |};
    {| classifier := "rf"; vectorizer := "tfidf"; stop_words := false |};
    {| classifier := "rf"; vectorizer := "bow"; stop_words := true |};
    {| classifier := "rf"; vectorizer := "bow"; stop_words := false |} ].

(** The parameter grid of [train_model], by classifier type. *)
Definition svm_param_grid : param_grid_t :=
  [ ("classifier__C", [VFloat 0.1; VFloat 1.0; VFloat 10.0]);
    ("classifier__max_iter", [VInt 1000; VInt 2000]) ].

Definition rf_param_grid : param_grid_t :=
  [ ("classifier__n_estimators", [VInt 100; VInt 200]);
    ("classifier__max_depth", [VNone; VInt 10; VInt 20]);
    ("classifier__min_samples_split", [VInt 2; VInt 5]) ].

Section World.
(** What the scripts take from outside: the fitted-model type and the
    numerical routines of the library, the helpers imported from
    [preproc] (whose source is not part of the repository snapshot),
    and the clock. *)
Variable FittedModel : Type.
Variable cv_score :
  Pipeline -> dict -> string -> nat -> nat ->
  list string -> list label -> float.
Variable refit :
  Pipeline -> dict -> list string -> list label -> option FittedModel.
Variable predict : FittedModel -> list string -> option (list label).
Variable create_text_pipeline :
  string -> string -> bool -> option (Pipeline * string).
Variable load_data :
  option (list string * list label * list string * list label).
Variable clock : nat -> float.

(** [time()] *)
Definition time : M float := fun s => Some (clock s, S s).

Definition train_param_grid (classifier_type : string) : param_grid_t :=
  if String.eqb (lower classifier_type) "svm" then svm_param_grid
  else (* Random Forest *) rf_param_grid.

Definition train_grid_search (pipeline : Pipeline)
           (classifier_type : string) : GridSearchCV :=
  {| gs_estimator := pipeline;
     gs_param_grid := train_param_grid classifier_type;
     gs_cv := 3;
     gs_n_jobs := -1;
     gs_verbose := 1;
     gs_scoring := "accuracy" |}.

Definition train_model (X_train : list string) (y_train : list label)
           (classifier_type vectorizer_type : string)
           (use_stop_words : bool)
  : M (FittedModel * string * float) :=
  '(pipeline, model_suffix) <-
     lift (create_text_pipeline classifier_type vectorizer_type
                                use_stop_words) ;;
  let grid_search := train_grid_search pipeline classifier_type in
  start_time <- time ;;
  fitted <- lift (fit FittedModel cv_score refit grid_search
                      X_train y_train) ;;
  now <- time ;;
  let train_time := (now - start_time)%float in
  let best_model := best_estimator_ FittedModel fitted in
  ret (best_model, model_suffix, train_time).

Definition evaluate_model (model : FittedModel) (X_val : list string)
           (y_val : list label) (model_suffix : string) : M dict :=
  start_time <- time ;;
  y_val_pred <- lift (predict model X_val) ;;
  now <- time ;;
  let pred_time := (now - start_time)%float in
  metrics <- lift (compute_metrics y_val y_val_pred) ;;
  let metrics := dict_set "Prediction Time" (VFloat pred_time) metrics in
  conf_matrix <- lift (confusion_matrix y_val y_val_pred) ;;
  ret metrics.

(** One turn of the loop of [run_experiments]. *)
Definition run_one (X_train : list string) (y_train : list label)
           (X_val : list string) (y_val : list label) (exp : experiment)
  : M dict :=
  '(model, model_suffix, train_time) <-
     train_model X_train y_train (classifier exp) (vectorizer exp)
                 (stop_words exp) ;;
  metrics <- evaluate_model model X_val y_val model_suffix ;;
  let result :=
    dict_update
      (dict_of
         [ ("Classifier", VStr (upper (classifier exp)));
           ("Vectorizer", VStr (upper (vectorizer exp)));
           ("Stop Words", VStr (if stop_words exp then "No" else "Yes"));
           ("Training Time", VFloat train_time) ])
      metrics in
  ret result.

Fixpoint run_loop (X_train : list string) (y_train : list label)
         (X_val : list string) (y_val : list label)
         (exps : list experiment) (results : list dict)
  : M (list dict) :=
  match exps with
  | [] => ret results
  | exp :: rest =>
      result <- run_one X_train y_train X_val y_val exp ;;
      run_loop X_train y_train X_val y_val rest (results ++ [result])
  end.

Definition run_experiments : M (list dict) :=
  '(X_train, y_train, X_val, y_val) <- lift load_data ;;
  run_loop X_train y_train X_val y_val experiments [].

End World.

End Main.

(* ================================================================== *)
(** ** [main.py]: the report *)

Module Report.
Import Main.
Local Open Scope string_scope.

(** [r[k]]: a missing key raises [KeyError]. *)
Definition getitem (r : dict) (k : string) : option value := dict_get k r.

(** Conversion of a Python integer to binary64, rounding to nearest even. *)
Definition float_of_int (z : Z) : float :=
  SF2Prim (binary_normalize prec emax z 0 false).

Fixpoint mapM {A B : Type} (f : A -> option B) (l : list A)
  : option (list B) :=
  match l with
  | [] => Some []
  | x :: l' =>
      y <-? f x ;;
      ys <-? mapM f l' ;;
      Some (y :: ys)
  end.

Section Format.
(** The decimal renderings of a float are left to the runtime:
    [str_float x] is [str(x)] and [fixed n x] is [format(x, ".nf")]. *)
Variable str_float : float -> string.
Variable fixed : nat -> float -> string.

(** [f"{v}"] *)
Definition format_plain (v : value) : string :=
  match v with
  | VNone => "None"
  | VInt z => NilZero.string_of_int (Z.to_int z)
  | VFloat x => str_float x
  | VStr s => s
  end.

(** [f"{v:.nf}"]: numbers only; a string raises [ValueError], [None]
    raises [TypeError]. *)
Definition format_fixed (n : nat) (v : value) : option string :=
  match v with
  | VFloat x => Some (fixed n x)
  | VInt z => Some (fixed n (float_of_int z))
  | VStr _ | VNone => None
  end.

(** The label of a configuration in the two tables. *)
Definition model_label (r : dict) : option string :=
  c <-? getitem r "Classifier" ;;
  v <-? getitem r "Vectorizer" ;;
  sw <-? getitem r "Stop Words" ;;
  Some (format_plain c ++ " (" ++ format_plain v ++ ", Stop Words: "
        ++ format_plain sw ++ ")").

(** The label of a configuration under the bars of the charts. *)
Definition chart_label (c v sw : value) : string :=
  format_plain c ++ " (" ++ format_plain v ++ ", SW:" ++ format_plain sw ++ ")".

(** One row of the confusion-matrix table. *)
Definition conf_matrix_row (r : dict) : option dict :=
  label <-? model_label r ;;
  tp <-? getitem r "TP" ;;
  fn <-? getitem r "FN" ;;
  fp <-? getitem r "FP" ;;
  tn <-? getitem r "TN" ;;
  Some (dict_of [ ("Model", VStr label); ("TP", tp); ("FN", fn);
                  ("FP", fp); ("TN", tn) ]).

Definition formatted (r : dict) (k : string) (n : nat) (unit : string)
  : option value :=
  v <-? getitem r k ;;
  s <-? format_fixed n v ;;
  Some (VStr (s ++ unit)).

(** One row of the metrics table. *)
Definition metrics_row (r : dict) : option dict :=
  label <-? model_label r ;;
  acc <-? formatted r "Accuracy" 4 "" ;;
  err <-? formatted r "Error Rate" 4 "" ;;
  prec <-? formatted r "Precision" 4 "" ;;
  rec <-? formatted r "Recall" 4 "" ;;
  f1 <-? formatted r "F1 Score" 4 "" ;;
  mcc <-? formatted r "MCC" 4 "" ;;
  tt <-? formatted r "Training Time" 2 "s" ;;
  pt <-? formatted r "Prediction Time" 4 "s" ;;
  Some (dict_of [ ("Model", VStr label); ("Accuracy", acc);
                  ("Error Rate", err); ("Precision", prec); ("Recall", rec);
                  ("F1 Score", f1); ("MCC", mcc); ("Training Time", tt);
                  ("Prediction Time", pt) ]).

(** One bar of a comparison chart: the label and the plotted value. *)
Definition chart_point (k : string) (r : dict) : option (string * value) :=
  c <-? getitem r "Classifier" ;;
  v <-? getitem r "Vectorizer" ;;
  sw <-? getitem r "Stop Words" ;;
  y <-? getitem r k ;;
  Some (chart_label c v sw, y).

(** What [display_results] assembles: the rows of the two tables written
    to CSV and printed, and the four series of the comparison figure.
    Writing the files and drawing the figure are not modelled. *)
Record report : Type := {
  df_conf : list dict;
  df_metrics : list dict;
  acc_df : list (string * value);
  mcc_df : list (string * value);
  f1_df : list (string * value);
  time_df : list (string * value)
}.

Definition display_results (results : list dict) : option report :=
  conf_matrix_data <-? mapM conf_matrix_row results ;;
  metrics_data <-? mapM metrics_row results ;;
  acc_data <-? mapM (chart_point "Accuracy") results ;;
  mcc_data <-? mapM (chart_point "MCC") results ;;
  f1_data <-? mapM (chart_point "F1 Score") results ;;
  time_data <-? mapM (chart_point "Training Time") results ;;
  Some {| df_conf := conf_matrix_data;
          df_metrics := metrics_data;
          acc_df := acc_data;
          mcc_df := mcc_data;
          f1_df := f1_data;
          time_df := time_data |}.

End Format.

End Report.

(* ================================================================== *)
(** ** [rf.py]: training and evaluation of the single model *)

Module RfScript.
Import Sklearn Main.
Local Open Scope string_scope.

(** Parameter grid for GridSearchCV, specific to RandomForest. *)
Definition param_grid : param_grid_t :=
  [ ("classifier__n_estimators", [VInt 100; VInt 200]);
    ("classifier__max_depth", [VNone; VInt 10; VInt 20]);
    ("classifier__min_samples_split", [VInt 2; VInt 5]) ].

Definition grid_search (pipeline : Pipeline) : GridSearchCV :=
  {| gs_estimator := pipeline;
     gs_param_grid := param_grid;
     gs_cv := 3;
     gs_n_jobs := -1;
     gs_verbose := 2;
     gs_scoring := "accuracy" |}.

(** [a[-n:]]: the last [n] items, all of them when there are fewer. *)
Definition last_items {A : Type} (n : nat) (a : list A) : list A :=
  skipn (List.length a - n) a.

Section World.
Variable FittedModel : Type.
Variable cv_score :
  Pipeline -> dict -> string -> nat -> nat ->
  list string -> list label -> float.
Variable refit :
  Pipeline -> dict -> list string -> list label -> option FittedModel.
Variable predict : FittedModel -> list string -> option (list label).
Variable clock : nat -> float.
(** [np.argsort]: the indices that sort the values in ascending order. *)
Variable argsort : list float -> list nat.
(** Drawing and saving the confusion-matrix heatmap; it may raise. *)
Variable plot_confusion_matrix : list (list Z) -> option unit.

(** The indices of the features listed as most important:
    [np.argsort(importances)[-15:]]. *)
Definition top_indices (importances : list float) : list nat :=
  last_items 15 (argsort importances).

Definition train_model (X_train : list string) (y_train : list label)
           (X_val : list string) (y_val : list label)
           (vectorizer_type : string) : M (FittedModel * string) :=
  let '(pipeline, model_suffix) := Rf.create_text_pipeline vectorizer_type in
  start_time <- time clock ;;
  fitted <- lift (fit FittedModel cv_score refit (grid_search pipeline)
                      X_train y_train) ;;
  now <- time clock ;;
  let train_time := (now - start_time)%float in
  let best_model := best_estimator_ FittedModel fitted in
  ret (best_model, model_suffix).

Definition evaluate_model (model : FittedModel) (X_val : list string)
           (y_val : list label) : M (float * float * float) :=
  start_time <- time clock ;;
  y_val_pred <- lift (predict model X_val) ;;
  now <- time clock ;;
  let pred_time := (now - start_time)%float in
  val_accuracy <- lift (accuracy_score y_val y_val_pred) ;;
  let error_rate := (1 - val_accuracy)%float in
  mcc <- lift (matthews_corrcoef y_val y_val_pred) ;;
  conf_matrix <- lift (confusion_matrix y_val y_val_pred) ;;
  _ <- lift (plot_confusion_matrix conf_matrix) ;;
  ret (val_accuracy, error_rate, mcc).

End World.

End RfScript.
Import Sklearn Main.

(* ================================================================== *)
(** ** Specification vocabulary *)

(** The zero-division guard of [compute_metrics]: whenever a denominator
    is zero the call returns, and the metric is 0.  The denominators are
    TP + FP for precision, TP + FN for recall, and the sum of precision and
    recall for F1. *)
Definition zero_division_guarded (y_true y_pred : list label) : Prop :=
  let tp := count_pairs true true y_true y_pred in
  let fp := count_pairs false true y_true y_pred in
  let fn := count_pairs true false y_true y_pred in
  (tp + fp = 0 ->
   exists m, compute_metrics y_true y_pred = Some m /\
             get_float "Precision" m = Some 0%float) /\
  (tp + fn = 0 ->
   exists m, compute_metrics y_true y_pred = Some m /\
             get_float "Recall" m = Some 0%float) /\
  (forall p r,
      precision_score y_true y_pred 0 = Some p ->
      recall_score y_true y_pred 0 = Some r ->
      (p + r =? 0)%float = true ->
      exists m, compute_metrics y_true y_pred = Some m /\
                get_float "F1 Score" m = Some 0%float).

(** A small closed instance of the outside world, used to run the driver:
    the fitted model is trivial, every fold scores 0.5, a sentence is
    predicted positive when it is "good", and the clock counts ticks. *)
Module ToyWorld.
Definition FittedModel : Type := unit.
Definition cv_score (_ : Pipeline) (_ : dict) (_ : string) (_ _ : nat)
           (_ : list string) (_ : list label) : float := 0.5%float.
Definition refit (_ : Pipeline) (_ : dict) (_ : list string)
           (_ : list label) : option FittedModel := Some tt.
Definition predict (_ : FittedModel) (X : list string)
  : option (list label) :=
  Some (map (fun x => String.eqb x "good") X).
Definition create_text_pipeline (_ : string) (vectorizer_type : string)
           (_ : bool) : option (Pipeline * string) :=
  Some (Rf.create_text_pipeline vectorizer_type).
Definition load_data
  : option (list string * list label * list string * list label) :=
  Some (["good"; "bad"], [true; false],
        ["good"; "bad"; "fine"], [true; false; true])%string.
Definition clock (n : nat) : float := float_of_count (Z.of_nat n).
End ToyWorld.



(** The classifier stage built by [rf.py]. *)
Definition balanced_random_forest : estimator :=
  RandomForestClassifier [ ("class_weight", VStr "balanced") ]%string.

(** The configuration labels carried by a result record, and the labels a
    configuration is reported under. *)
Definition record_labels (r : dict)
  : option string * option string * option string :=
  (get_str "Classifier" r, get_str "Vectorizer" r, get_str "Stop Words" r).

Definition config_labels (e : experiment)
  : option string * option string * option string :=
  (Some (upper (classifier e)), Some (upper (vectorizer e)),
   Some (if stop_words e then "No" else "Yes")%string).

(** The cross-product of classifier families, vectorizers and stop-word
    settings, the last varying fastest. *)
Definition cross_product : list experiment :=
  flat_map
    (fun c =>
       flat_map
         (fun v =>
            map (fun sw => {| classifier := c; vectorizer := v;
                              stop_words := sw |})
                [true; false])
         ["tfidf"; "bow"]%string)
    ["svm"; "rf"]%string.

(** Rounding to nearest, ties to even, of [M / 2^t]: the mantissa kept when
    [t] low bits are shifted out. *)
Definition round_shift (M t : Z) : Z :=
  let q := M / 2 ^ t in
  let r := M mod 2 ^ t in
  if 2 * r <? 2 ^ t then q
  else if 2 * r =? 2 ^ t then (if Z.even q then q else q + 1)
  else q + 1.

(** The binary64 number nearest to a positive integer: its 53-bit mantissa
    and its exponent. *)
Definition normal_form (n : Z) : Z * Z :=
  let d := Zdigits2 n in
  if d <=? 53 then (n * 2 ^ (53 - d), d - 53)
  else
    let q := round_shift n (d - 53) in
    if q =? 2 ^ 53 then (2 ^ 52, d - 52) else (q, d - 53).

(** The number 1.0 as mantissa and exponent. *)
Definition SF_one : spec_float := S754_finite false (Z.to_pos (2 ^ 52)) (-52).

(** Both classes occur among the true and predicted labels. *)
Definition both_classes (y_true y_pred : list label) : Prop :=
  In false (y_true ++ y_pred) /\ In true (y_true ++ y_pred).

(** The record [compute_metrics] builds when the confusion matrix is 2x2,
    as a function of the Matthews coefficient. *)
Definition metrics_record (y_true y_pred : list label) (mcc : float) : dict :=
  let acc := (float_of_count (n_correct y_true y_pred)
              / float_of_count (Z.of_nat (List.length y_true)))%float in
  [ ("TP", VInt (count_pairs true true y_true y_pred));
    ("TN", VInt (count_pairs false false y_true y_pred));
    ("FP", VInt (count_pairs false true y_true y_pred));
    ("FN", VInt (count_pairs true false y_true y_pred));
    ("Accuracy", VFloat acc);
    ("Error Rate", VFloat (1 - acc));
    ("Precision",
     VFloat (prf_divide (tp_sum y_true y_pred) (pred_sum y_true y_pred) 0));
    ("Recall",
     VFloat (prf_divide (tp_sum y_true y_pred) (true_sum y_true y_pred) 0));
    ("F1 Score",
     VFloat (prf_divide (2 * tp_sum y_true y_pred)
                        (true_sum y_true y_pred + pred_sum y_true y_pred) 0));
    ("MCC", VFloat mcc) ]%string.

(** A score between 0 and 1 in the order of binary64. *)
Definition in_unit_interval (x : float) : Prop :=
  (0 <=? x)%float = true /\ (x <=? 1)%float = true.

(** The shape of a result record of [run_experiments] for a configuration:
    the four configuration entries, then the ten metrics, then the
    prediction time. *)
Definition is_result_record (y_val : list label) (exp : experiment)
           (r : dict) : Prop :=
  exists train_time y_val_pred mcc pred_time,
    compute_metrics y_val y_val_pred
    = Some (metrics_record y_val y_val_pred mcc) /\
    r = [ ("Classifier", VStr (upper (classifier exp)));
          ("Vectorizer", VStr (upper (vectorizer exp)));
          ("Stop Words", VStr (if stop_words exp then "No" else "Yes"));
          ("Training Time", VFloat train_time) ]%string
        ++ metrics_record y_val y_val_pred mcc
        ++ [ ("Prediction Time", VFloat pred_time) ]%string.

Definition result_keys : list string :=
  [ "Classifier"; "Vectorizer"; "Stop Words"; "Training Time";
    "TP"; "TN"; "FP"; "FN"; "Accuracy"; "Error Rate"; "Precision";
    "Recall"; "F1 Score"; "MCC"; "Prediction Time" ]%string.

(** The label of a configuration in the tables and under the chart bars. *)
Definition table_label (exp : experiment) : string :=
  (upper (classifier exp) ++ " (" ++ upper (vectorizer exp)
   ++ ", Stop Words: " ++ (if stop_words exp then "No" else "Yes") ++ ")")%string.

Definition bar_label (exp : experiment) : string :=
  (upper (classifier exp) ++ " (" ++ upper (vectorizer exp)
   ++ ", SW:" ++ (if stop_words exp then "No" else "Yes") ++ ")")%string.

(** Closed renderings of floats and one result record, used to run the
    report. *)
Module ToyFormat.
Definition str_float (_ : float) : string := "0.5"%string.
Definition fixed (n : nat) (_ : float) : string :=
  ("0." ++ String.concat "" (repeat "5" n))%string.
Definition results : list dict :=
  [ [ ("Classifier", VStr "SVM"); ("Vectorizer", VStr "BOW");
      ("Stop Words", VStr "Yes"); ("Training Time", VFloat 0.5);
      ("TP", VInt 1); ("TN", VInt 0); ("FP", VInt 1); ("FN", VInt 1);
      ("Accuracy", VFloat 0.5); ("Error Rate", VFloat 0.5);
      ("Precision", VFloat 0.5); ("Recall", VFloat 0.5);
      ("F1 Score", VFloat 0.5); ("MCC", VFloat 0.5);
      ("Prediction Time", VFloat 0.5) ] ]%string.
(** Sixteen feature importances in ascending order. *)
Definition importances : list float :=
  map (fun n => float_of_count (Z.of_nat n)) (seq 0 16).
End ToyFormat.

(** A binary64 number that is +0 or a positive normal number with exponent
    at least [lo] and magnitude below [2^hi]. *)
Definition nonneg_upto (lo hi : Z) (x : float) : Prop :=
  Prim2SF x = S754_zero false \/
  exists m e, Prim2SF x = S754_finite false m e /\ lo <= e /\ e + 53 <= hi.

(** A binary64 number that is neither NaN nor infinite. *)
Definition finite_or_zero (x : float) : Prop :=
  (exists s, Prim2SF x = S754_zero s) \/
  (exists s m e, Prim2SF x = S754_finite s m e).

(* ================================================================== *)
(** ** Dictionaries *)

Lemma dict_get_set (k k' : string) (v : value) (d : dict) :
  dict_get k (dict_set k' v d) =
  if String.eqb k k' then Some v else dict_get k d.
Proof.
  induction d as [|[k0 v0] d IH]; simpl.
  - destruct (String.eqb k k'); reflexivity.
  - destruct (String.eqb k' k0) eqn:E0; simpl.
    + apply String.eqb_eq in E0; subst k0.
      destruct (String.eqb k k'); reflexivity.
    + rewrite IH. destruct (String.eqb k k') eqn:E1; [|reflexivity].
      apply String.eqb_eq in E1; subst k'. rewrite E0. reflexivity.
Qed.

Lemma dict_get_update_other (k : string) (items : list (string * value)) :
  forall d, ~ In k (map fst items) ->
            dict_get k (dict_update d items) = dict_get k d.
Proof.
  unfold dict_update.
  induction items as [|[k0 v0] items IH]; intros d Hk; simpl in *.
  - reflexivity.
  - rewrite IH by tauto. rewrite dict_get_set.
    destruct (String.eqb k k0) eqn:E; [|reflexivity].
    apply String.eqb_eq in E. subst. tauto.
Qed.

(* ================================================================== *)
(** ** Counting label pairs *)

Lemma same_length_true (y_true y_pred : list label) :
  same_length y_true y_pred = true <-> List.length y_true = List.length y_pred.
Proof. unfold same_length. apply Nat.eqb_eq. Qed.

Lemma existsb_In (f : label -> bool) (b : label) (l : list label) :
  f b = true -> In b l -> existsb f l = true.
Proof. intros Hf Hin. apply existsb_exists. exists b. split; assumption. Qed.

Lemma unique_labels_both (y_true y_pred : list label) :
  both_classes y_true y_pred -> unique_labels y_true y_pred = [false; true].
Proof.
  intros [Hf Ht]. unfold unique_labels.
  rewrite (existsb_In negb false), (existsb_In (fun b => b) true) by auto.
  reflexivity.
Qed.

Lemma unique_labels_cases (y_true y_pred : list label) :
  unique_labels y_true y_pred = [false; true] \/
  (List.length (unique_labels y_true y_pred) <= 1)%nat.
Proof.
  unfold unique_labels.
  destruct (existsb negb _), (existsb (fun b => b) _); simpl; auto.
Qed.

Lemma unique_labels_both_inv (y_true y_pred : list label) :
  unique_labels y_true y_pred = [false; true] -> both_classes y_true y_pred.
Proof.
  unfold unique_labels, both_classes.
  destruct (existsb negb _) eqn:E1, (existsb (fun b => b) _) eqn:E2;
    simpl; try discriminate.
  intros _. apply existsb_exists in E1, E2.
  destruct E1 as [[|] [H1 H1']], E2 as [[|] [H2 H2']];
    simpl in *; try discriminate; auto.
Qed.

(** Every pair of labels falls in exactly one cell of the 2x2 matrix. *)
Lemma cells_partition (l : list (label * label)) :
  let cell t p :=
    List.length (filter (fun tp => Bool.eqb (fst tp) t && Bool.eqb (snd tp) p) l)
  in (cell true true + cell false false + cell false true + cell true false
      = List.length l)%nat.
Proof.
  induction l as [|[[|] [|]] l IH]; simpl in *; lia.
Qed.

Lemma correct_cells (l : list (label * label)) :
  let cell t p :=
    List.length (filter (fun tp => Bool.eqb (fst tp) t && Bool.eqb (snd tp) p) l)
  in (List.length (filter (fun tp => Bool.eqb (fst tp) (snd tp)) l)
      = cell true true + cell false false)%nat.
Proof.
  induction l as [|[[|] [|]] l IH]; simpl in *; lia.
Qed.

Lemma combine_same_length (y_true y_pred : list label) :
  List.length y_true = List.length y_pred ->
  List.length (combine y_true y_pred) = List.length y_true.
Proof. intros H. rewrite length_combine. lia. Qed.

Lemma counts_total (y_true y_pred : list label) :
  List.length y_true = List.length y_pred ->
  count_pairs true true y_true y_pred + count_pairs false false y_true y_pred
  + count_pairs false true y_true y_pred + count_pairs true false y_true y_pred
  = Z.of_nat (List.length y_true).
Proof.
  intros H. unfold count_pairs.
  rewrite <- (combine_same_length _ _ H).
  rewrite <- (cells_partition (combine y_true y_pred)). lia.
Qed.

Lemma n_correct_counts (y_true y_pred : list label) :
  n_correct y_true y_pred
  = count_pairs true true y_true y_pred + count_pairs false false y_true y_pred.
Proof.
  unfold n_correct, count_pairs.
  rewrite (correct_cells (combine y_true y_pred)). lia.
Qed.

Lemma count_pairs_nonneg (t p : label) (y_true y_pred : list label) :
  0 <= count_pairs t p y_true y_pred.
Proof. unfold count_pairs. lia. Qed.

Lemma pred_sum_cells (y_true y_pred : list label) :
  List.length y_true = List.length y_pred ->
  pred_sum y_true y_pred
  = count_pairs true true y_true y_pred + count_pairs false true y_true y_pred.
Proof.
  unfold pred_sum, count_label, count_pairs.
  rewrite <- Nat2Z.inj_add. intros H. f_equal.
  revert y_pred H.
  induction y_true as [|a y IH]; intros [|b y'] H; simpl in *;
    try discriminate; [reflexivity|].
  injection H as H. specialize (IH _ H).
  destruct a, b; simpl; lia.
Qed.

Lemma true_sum_cells (y_true y_pred : list label) :
  List.length y_true = List.length y_pred ->
  true_sum y_true y_pred
  = count_pairs true true y_true y_pred + count_pairs true false y_true y_pred.
Proof.
  unfold true_sum, count_label, count_pairs.
  rewrite <- Nat2Z.inj_add. intros H. f_equal.
  revert y_pred H.
  induction y_true as [|a y IH]; intros [|b y'] H; simpl in *;
    try discriminate; [reflexivity|].
  injection H as H. specialize (IH _ H).
  destruct a, b; simpl; lia.
Qed.

Lemma both_classes_nonempty (y_true y_pred : list label) :
  List.length y_true = List.length y_pred ->
  both_classes y_true y_pred -> 0 < Z.of_nat (List.length y_true).
Proof.
  intros Hlen [Hf _]. destruct y_true as [|a y]; [|simpl; lia].
  destruct y_pred; [destruct Hf|discriminate].
Qed.

(* ================================================================== *)
(** ** [compute_metrics]: when it returns, and what *)

Lemma matthews_corrcoef_some (y_true y_pred : list label) :
  same_length y_true y_pred = true ->
  exists mcc, matthews_corrcoef y_true y_pred = Some mcc.
Proof.
  intros H. unfold matthews_corrcoef, confusion_matrix. rewrite H.
  match goal with |- context [if ?c then _ else _] => destruct c end;
    eexists; reflexivity.
Qed.

Lemma compute_metrics_both (y_true y_pred : list label) :
  List.length y_true = List.length y_pred ->
  both_classes y_true y_pred ->
  exists mcc, matthews_corrcoef y_true y_pred = Some mcc /\
              compute_metrics y_true y_pred
              = Some (metrics_record y_true y_pred mcc).
Proof.
  intros Hlen Hboth. apply same_length_true in Hlen.
  destruct (matthews_corrcoef_some _ _ Hlen) as [mcc Hmcc].
  exists mcc. split; [exact Hmcc|].
  unfold compute_metrics, confusion_matrix, accuracy_score, precision_score,
    recall_score, f1_score.
  rewrite Hlen, (unique_labels_both _ _ Hboth), Hmcc. reflexivity.
Qed.

Lemma compute_metrics_inv (y_true y_pred : list label) (m : dict) :
  compute_metrics y_true y_pred = Some m ->
  List.length y_true = List.length y_pred /\
  both_classes y_true y_pred /\
  exists mcc, m = metrics_record y_true y_pred mcc.
Proof.
  intros H.
  destruct (same_length y_true y_pred) eqn:Hlen.
  - pose proof (proj1 (same_length_true _ _) Hlen) as Hlen'.
    destruct (unique_labels_cases y_true y_pred) as [Hu|Hu].
    + apply unique_labels_both_inv in Hu.
      destruct (compute_metrics_both _ _ Hlen' Hu) as [mcc [_ Hm]].
      rewrite Hm in H. injection H as <-. eauto.
    + exfalso. unfold compute_metrics, confusion_matrix in H.
      rewrite Hlen in H. simpl in H.
      destruct (unique_labels y_true y_pred) as [|a [|b u]];
        simpl in *; try discriminate; lia.
  - unfold compute_metrics, confusion_matrix in H. rewrite Hlen in H.
    discriminate.
Qed.

(** A sequence pair with a single class (or none) makes the unpacking of
    the raveled confusion matrix raise. *)
Lemma compute_metrics_single_class (y_true y_pred : list label) :
  ~ both_classes y_true y_pred -> compute_metrics y_true y_pred = None.
Proof.
  intros Hn. destruct (compute_metrics y_true y_pred) eqn:E; [|reflexivity].
  apply compute_metrics_inv in E. tauto.
Qed.

(* ================================================================== *)
(** ** Binary64 arithmetic

    Facts about the specification of the primitive floats that the
    properties of the metrics need: the order on numbers, rounding to 53
    bits, the conversion of counts, quotients of counts, and sums near 1. *)

(** *** The order on binary64 numbers *)






(** *** Rounding to 53 bits *)

Lemma digits2_pos_bounds (p : positive) :
  2 ^ (Zpos (digits2_pos p) - 1) <= Zpos p < 2 ^ Zpos (digits2_pos p).
Proof.
  induction p as [p IH|p IH|]; cbn [digits2_pos].
  - rewrite Pos2Z.inj_succ, Z.pow_succ_r by lia.
    replace (Z.succ (Zpos (digits2_pos p)) - 1)
      with (Z.succ (Zpos (digits2_pos p) - 1)) by lia.
    rewrite Z.pow_succ_r by lia. lia.
  - rewrite Pos2Z.inj_succ, Z.pow_succ_r by lia.
    replace (Z.succ (Zpos (digits2_pos p)) - 1)
      with (Z.succ (Zpos (digits2_pos p) - 1)) by lia.
    rewrite Z.pow_succ_r by lia. lia.
  - simpl. lia.
Qed.

Lemma pow2_lt_mono (a b : Z) : 0 <= a -> 2 ^ a < 2 ^ b -> a < b.
Proof.
  intros Ha H. destruct (Z_lt_le_dec a b) as [|Hle]; [assumption|].
  destruct (Z_lt_le_dec b 0) as [Hb|Hb].
  - rewrite (Z.pow_neg_r 2 b) in H by lia.
     pose proof (Z.pow_pos_nonneg 2 a). lia.
  - pose proof (Z.pow_le_mono_r 2 b a). lia.
Qed.

Lemma digits2_pos_unique (p : positive) (d : Z) :
  2 ^ (d - 1) <= Zpos p < 2 ^ d -> Zpos (digits2_pos p) = d.
Proof.
  intros [H1 H2]. pose proof (digits2_pos_bounds p) as [H3 H4].
  assert (0 < d).
  { destruct (Z_lt_le_dec 0 d); [assumption|].
    destruct (Z.eq_dec d 0) as [->|]; [simpl in H2; lia|].
    rewrite (Z.pow_neg_r 2 d) in H2 by lia. lia. }
  assert (Zpos (digits2_pos p) - 1 < d) by (apply pow2_lt_mono; lia).
  assert (d - 1 < Zpos (digits2_pos p)) by (apply pow2_lt_mono; lia).
  lia.
Qed.

Lemma iter_pos_nat {A : Type} (f : A -> A) (p : positive) :
  forall x, iter_pos f p x = Nat.iter (Pos.to_nat p) f x.
Proof.
  induction p as [p IH|p IH|]; intros x; cbn [iter_pos].
  - rewrite !IH, Pos2Nat.inj_xI. 
    replace (S (2 * Pos.to_nat p))%nat with (Pos.to_nat p + (Pos.to_nat p + 1))%nat by lia.
    rewrite !Nat.iter_add. reflexivity.
  - rewrite !IH, Pos2Nat.inj_xO.
    replace (2 * Pos.to_nat p)%nat with (Pos.to_nat p + Pos.to_nat p)%nat by lia.
    rewrite Nat.iter_add. reflexivity.
  - reflexivity.
Qed.

Lemma shr_1_nonneg (m : Z) (r s : bool) :
  0 <= m ->
  shr_1 (Build_shr_record m r s) = Build_shr_record (m / 2) (Z.odd m) (r || s).
Proof.
  intros Hm. destruct m as [|[p|p|]|]; try lia; cbn [shr_1].
  - reflexivity.
  - replace (Z.pos p~1 / 2) with (Z.pos p); [reflexivity|].
    rewrite Pos2Z.inj_xI. apply Z.div_unique with 1; lia.
  - replace (Z.pos p~0 / 2) with (Z.pos p); [reflexivity|].
    rewrite Pos2Z.inj_xO. apply Z.div_unique with 0; lia.
  - reflexivity.
Qed.

Lemma testbit_mod_pow2 (m : Z) (n : Z) :
  0 <= m -> 0 <= n ->
  m mod 2 ^ (n + 1) = (if Z.testbit m n then 2 ^ n else 0) + m mod 2 ^ n.
Proof.
  intros Hm Hn.
  replace (2 ^ (n + 1)) with (2 ^ n * 2)
    by (rewrite Z.pow_add_r by lia; reflexivity).
  rewrite Z.rem_mul_r by (try apply Z.pow_nonzero; lia).
  assert (Hb : Z.b2z (Z.testbit m n) = (m / 2 ^ n) mod 2)
    by (apply Z.testbit_spec'; lia).
  rewrite <- Hb. destruct (Z.testbit m n); simpl Z.b2z; lia.
Qed.

Lemma shr_iter (n : nat) :
  forall m r s,
    0 <= m ->
    Nat.iter (S n) shr_1 (Build_shr_record m r s)
    = Build_shr_record (m / 2 ^ (Z.of_nat n + 1)) (Z.testbit m (Z.of_nat n))
                       (r || s || negb (m mod 2 ^ Z.of_nat n =? 0)).
Proof.
  induction n as [|n IH]; intros m r s Hm.
  - cbn [Nat.iter]. rewrite shr_1_nonneg by assumption.
    change (Z.of_nat 0) with 0. rewrite Z.mod_1_r. simpl (0 + 1).
    change (2 ^ 1) with 2. rewrite Z.bit0_odd, orb_false_r. reflexivity.
  - change (Nat.iter (S (S n)) shr_1 ?x) with (shr_1 (Nat.iter (S n) shr_1 x)).
    rewrite IH by assumption.
    rewrite shr_1_nonneg by (apply Z.div_pos; [lia|apply Z.pow_pos_nonneg; lia]).
    rewrite Nat2Z.inj_succ.
    replace (Z.succ (Z.of_nat n) + 1) with ((Z.of_nat n + 1) + 1) by lia.
    rewrite (Z.pow_add_r 2 (Z.of_nat n + 1) 1) by lia. change (2 ^ 1) with 2.
    rewrite Z.div_div by (try apply Z.pow_pos_nonneg; lia).
    f_equal.
    + rewrite <- Z.bit0_odd, <- Z.shiftr_div_pow2, Z.shiftr_spec by lia.
      f_equal; lia.
    + replace (Z.succ (Z.of_nat n)) with (Z.of_nat n + 1) by lia.
      rewrite (testbit_mod_pow2 m (Z.of_nat n)) by lia.
      pose proof (Z.mod_pos_bound m (2 ^ Z.of_nat n)
                    ltac:(apply Z.pow_pos_nonneg; lia)).
      pose proof (Z.pow_pos_nonneg 2 (Z.of_nat n) ltac:(lia) ltac:(lia)).
      destruct (Z.testbit m (Z.of_nat n)), r, s; simpl;
        repeat match goal with
               | |- context [?a =? ?b] => destruct (Z.eqb_spec a b)
               end; simpl; try reflexivity; lia.
Qed.

Lemma fexp_normal (x : Z) : -1074 <= x - 53 -> fexp prec emax x = x - 53.
Proof. unfold fexp, SpecFloat.emin, prec, emax. lia. Qed.

Lemma Zdigits2_bounds (m : Z) :
  0 < m -> 2 ^ (Zdigits2 m - 1) <= m < 2 ^ Zdigits2 m.
Proof.
  destruct m as [|p|p]; try lia. intros _. apply digits2_pos_bounds.
Qed.

Lemma Zdigits2_unique (m d : Z) :
  0 < m -> 2 ^ (d - 1) <= m < 2 ^ d -> Zdigits2 m = d.
Proof.
  destruct m as [|p|p]; try lia. intros _. apply digits2_pos_unique.
Qed.

Lemma Zdigits2_pos (m : Z) : 0 < m -> 0 < Zdigits2 m.
Proof. destruct m; simpl; lia. Qed.

Lemma shr_spec (m t e : Z) :
  0 <= m -> 0 < t ->
  shr (Build_shr_record m false false) e t
  = (Build_shr_record (m / 2 ^ t) (Z.testbit m (t - 1))
                      (negb (m mod 2 ^ (t - 1) =? 0)), e + t).
Proof.
  intros Hm Ht. destruct t as [|p|p]; try lia. cbn [shr].
  rewrite iter_pos_nat.
  destruct (Pos.to_nat p) as [|n] eqn:En; [lia|].
  rewrite shr_iter by assumption.
  replace (Z.of_nat n + 1) with (Z.pos p) by lia.
  replace (Z.of_nat n) with (Z.pos p - 1) by lia.
  reflexivity.
Qed.

Lemma round_loc (m t : Z) :
  0 <= m -> 0 < t ->
  round_nearest_even
    (m / 2 ^ t)
    (loc_of_shr_record
       (Build_shr_record (m / 2 ^ t) (Z.testbit m (t - 1))
                         (negb (m mod 2 ^ (t - 1) =? 0))))
  = round_shift m t.
Proof.
  intros Hm Ht. unfold round_shift.
  pose proof (testbit_mod_pow2 m (t - 1) Hm ltac:(lia)) as Hb.
  replace (t - 1 + 1) with t in Hb by lia.
  assert (Hp : 2 ^ t = 2 * 2 ^ (t - 1)).
  { rewrite <- Z.pow_succ_r by lia. f_equal. lia. }
  pose proof (Z.mod_pos_bound m (2 ^ (t - 1))
                ltac:(apply Z.pow_pos_nonneg; lia)) as Hlow.
  rewrite Hb. clear Hb.
  destruct (Z.testbit m (t - 1)); cbn [loc_of_shr_record];
    destruct (Z.eqb_spec (m mod 2 ^ (t - 1)) 0) as [E|E];
    cbn [negb round_nearest_even];
    repeat match goal with
           | |- context [?a <? ?b] => destruct (Z.ltb_spec a b)
           | |- context [?a =? ?b] => destruct (Z.eqb_spec a b)
           end; try reflexivity; try lia.
Qed.

Lemma round_shift_error (m t : Z) :
  0 <= m -> 0 < t ->
  m / 2 ^ t <= round_shift m t <= m / 2 ^ t + 1 /\
  2 * Z.abs (round_shift m t * 2 ^ t - m) <= 2 ^ t.
Proof.
  intros Hm Ht. unfold round_shift.
  assert (Hp : 0 < 2 ^ t) by (apply Z.pow_pos_nonneg; lia).
  pose proof (Z.div_mod m (2 ^ t) ltac:(lia)) as Hdm.
  pose proof (Z.mod_pos_bound m (2 ^ t) Hp) as Hr.
  set (q := m / 2 ^ t) in *. set (r := m mod 2 ^ t) in *.
  set (P := 2 ^ t) in *.
  repeat match goal with
         | |- context [?a <? ?b] => destruct (Z.ltb_spec a b)
         | |- context [?a =? ?b] => destruct (Z.eqb_spec a b)
         | |- context [Z.even ?a] => destruct (Z.even a)
         end; split; try lia.
Qed.

Lemma shr_zero (mrs : shr_record) (e : Z) : shr mrs e 0 = (mrs, e).
Proof. reflexivity. Qed.

Lemma binary_round_aux_no_shift (sx : bool) (m e : Z) :
  0 < m -> Zdigits2 m = 53 -> -1074 <= e <= 971 ->
  binary_round_aux prec emax sx m e loc_Exact = S754_finite sx (Z.to_pos m) e.
Proof.
  intros Hm Hd He. unfold binary_round_aux, shr_fexp.
  rewrite Hd, fexp_normal by lia.
  replace (53 + e - 53 - e) with 0 by lia.
  cbn [shr_record_of_loc]. rewrite shr_zero.
  cbn [shr_m loc_of_shr_record round_nearest_even].
  rewrite Hd, fexp_normal by lia.
  replace (53 + e - 53 - e) with 0 by lia.
  cbn [shr_record_of_loc]. rewrite shr_zero. cbn [shr_m].
  destruct m as [|p|p]; try lia.
  replace (e <=? emax - prec) with true
    by (symmetry; apply Z.leb_le; unfold emax, prec; lia).
  reflexivity.
Qed.

Lemma binary_round_aux_shift (m e d : Z) :
  0 < m -> Zdigits2 m = d -> 53 < d ->
  -1074 <= e + d - 53 -> e + d - 52 <= 971 ->
  binary_round_aux prec emax false m e loc_Exact
  = if round_shift m (d - 53) =? 2 ^ 53
    then S754_finite false (Z.to_pos (2 ^ 52)) (e + d - 52)
    else S754_finite false (Z.to_pos (round_shift m (d - 53))) (e + d - 53).
Proof.
  intros Hm Hd Hd53 Hlo Hhi.
  pose proof (Zdigits2_bounds m Hm) as Hb. rewrite Hd in Hb.
  set (t := d - 53) in *.
  assert (Ht : 0 < t) by (unfold t; lia).
  assert (Hq : 2 ^ 52 <= m / 2 ^ t < 2 ^ 53).
  { assert (Hp : 0 < 2 ^ t) by (apply Z.pow_pos_nonneg; lia).
    assert (E1 : 2 ^ (d - 1) = 2 ^ 52 * 2 ^ t).
    { rewrite <- Z.pow_add_r by lia. f_equal. unfold t. lia. }
    assert (E2 : 2 ^ d = 2 ^ 53 * 2 ^ t).
    { rewrite <- Z.pow_add_r by lia. f_equal. unfold t. lia. }
    split.
    - apply Z.div_le_lower_bound; lia.
    - apply Z.div_lt_upper_bound; lia. }
  destruct (round_shift_error m t ltac:(lia) Ht) as [Hrs _].
  unfold binary_round_aux, shr_fexp.
  rewrite Hd, fexp_normal by lia.
  replace (d + e - 53 - e) with t by (unfold t; lia).
  cbn [shr_record_of_loc]. rewrite shr_spec by lia.
  cbn [shr_m]. rewrite round_loc by lia.
  set (q := round_shift m t) in *.
  destruct (Z.eqb_spec q (2 ^ 53)) as [Eq|Eq].
  - rewrite Eq.
    change (Zdigits2 (2 ^ 53)) with 54.
    rewrite fexp_normal by lia.
    replace (54 + (e + t) - 53 - (e + t)) with 1 by lia.
    cbn [shr_record_of_loc shr iter_pos]. 
    change (shr_1 {| shr_m := 2 ^ 53; shr_r := false; shr_s := false |})
      with {| shr_m := 2 ^ 52; shr_r := false; shr_s := false |}.
    cbn [shr_m]. change (2 ^ 52) with (Z.pos (Z.to_pos (2 ^ 52))).
    cbv iota beta.
    replace (e + t + 1 <=? emax - prec) with true
      by (symmetry; apply Z.leb_le; unfold emax, prec, t; lia).
    f_equal. unfold t. lia.
  - assert (Hq53 : Zdigits2 q = 53).
    { apply Zdigits2_unique; [lia|]. change (53 - 1) with 52. lia. }
    rewrite Hq53, fexp_normal by lia.
    replace (53 + (e + t) - 53 - (e + t)) with 0 by lia.
    cbn [shr_record_of_loc]. rewrite shr_zero. cbn [shr_m].
    destruct q as [|p|p]; try lia.
    replace (e + t <=? emax - prec) with true
      by (symmetry; apply Z.leb_le; unfold emax, prec, t; lia).
    f_equal. unfold t. lia.
Qed.

Lemma pos_iter_xO (p k : positive) :
  Z.pos (Pos.iter xO p k) = Z.pos p * 2 ^ Z.pos k.
Proof.
  induction k as [|k IH] using Pos.peano_ind.
  - simpl. lia.
  - rewrite Pos.iter_succ, Pos2Z.inj_xO, IH, Pos2Z.inj_succ, Z.pow_succ_r by lia.
    lia.
Qed.

Lemma binary_normalize_exact (M e d : Z) :
  0 < M -> Zdigits2 M = d -> d <= 53 ->
  -1074 <= e + d - 53 -> e + d - 53 <= 971 ->
  binary_normalize prec emax M e false
  = S754_finite false (Z.to_pos (M * 2 ^ (53 - d))) (e + d - 53).
Proof.
  intros HM Hd Hd53 Hlo Hhi.
  pose proof (Zdigits2_bounds M HM) as Hb. rewrite Hd in Hb.
  pose proof (Zdigits2_pos M HM) as Hdpos. rewrite Hd in Hdpos.
  destruct M as [|p|p]; try lia.
  cbn [binary_normalize]. unfold binary_round.
  change (Z.pos (digits2_pos p)) with (Zdigits2 (Z.pos p)).
  rewrite Hd, fexp_normal by lia.
  unfold shl_align.
  destruct (Z.eq_dec d 53) as [->|Hne].
  - replace (53 + e - 53 - e) with 0 by lia. cbv iota beta.
    rewrite binary_round_aux_no_shift by (try assumption; lia).
    f_equal; [|lia]. change (2 ^ (53 - 53)) with 1. f_equal. lia.
  - destruct (d + e - 53 - e) as [|k|k] eqn:Ek; try lia.
    cbv iota beta. cbn [fst snd].
    assert (Hk : Z.pos k = 53 - d) by lia.
    assert (Hmz : Z.pos (Pos.iter xO p k) = Z.pos p * 2 ^ (53 - d))
      by (rewrite pos_iter_xO, Hk; reflexivity).
    assert (Hpow : 0 < 2 ^ (53 - d)) by (apply Z.pow_pos_nonneg; lia).
    rewrite binary_round_aux_no_shift.
    + f_equal; [|lia]. rewrite Hmz. reflexivity.
    + lia.
    + apply Zdigits2_unique; [lia|]. rewrite Hmz.
      replace (2 ^ (53 - 1)) with (2 ^ (d - 1) * 2 ^ (53 - d))
        by (rewrite <- Z.pow_add_r by lia; f_equal; lia).
      replace (2 ^ 53) with (2 ^ d * 2 ^ (53 - d))
        by (rewrite <- Z.pow_add_r by lia; f_equal; lia).
      split; [apply Z.mul_le_mono_nonneg_r|apply Z.mul_lt_mono_pos_r]; lia.
    + lia.
Qed.

Lemma binary_normalize_round (M e d : Z) :
  0 < M -> Zdigits2 M = d -> 53 < d ->
  -1074 <= e + d - 53 -> e + d - 52 <= 971 ->
  binary_normalize prec emax M e false
  = if round_shift M (d - 53) =? 2 ^ 53
    then S754_finite false (Z.to_pos (2 ^ 52)) (e + d - 52)
    else S754_finite false (Z.to_pos (round_shift M (d - 53))) (e + d - 53).
Proof.
  intros HM Hd Hd53 Hlo Hhi.
  rewrite <- (binary_round_aux_shift M e d) by assumption.
  destruct M as [|p|p]; try lia.
  cbn [binary_normalize]. unfold binary_round.
  change (Z.pos (digits2_pos p)) with (Zdigits2 (Z.pos p)).
  rewrite Hd, fexp_normal by lia.
  unfold shl_align.
  destruct (d + e - 53 - e) as [|k|k] eqn:Ek; try lia; reflexivity.
Qed.

Lemma round_shift_eq (M t Q R : Z) :
  M = 2 ^ t * Q + R -> 0 <= R < 2 ^ t ->
  round_shift M t
  = if 2 * R <? 2 ^ t then Q
    else if 2 * R =? 2 ^ t then (if Z.even Q then Q else Q + 1)
    else Q + 1.
Proof.
  intros HM HR. unfold round_shift.
  rewrite <- (Z.div_unique M (2 ^ t) Q R) by (try assumption; lia).
  rewrite <- (Z.mod_unique M (2 ^ t) Q R) by (try assumption; lia).
  reflexivity.
Qed.


Lemma Prim2SF_one : Prim2SF 1%float = SF_one.
Proof. reflexivity. Qed.

(** A positive dyadic within 2^-54 of 1 rounds to 1. *)
Lemma binary_normalize_near_one (S u : Z) :
  53 <= u <= 1074 -> 0 < S ->
  2 ^ 54 * Z.abs (S - 2 ^ u) <= 2 ^ u ->
  binary_normalize prec emax S (- u) false = SF_one.
Proof.
  intros Hu HS Hnear.
  assert (Hu52 : 2 ^ u = 2 ^ 52 * 2 ^ (u - 52))
    by (rewrite <- Z.pow_add_r by lia; f_equal; lia).
  assert (Hp52 : 0 < 2 ^ (u - 52)) by (apply Z.pow_pos_nonneg; lia).
  destruct (Z_lt_le_dec S (2 ^ u)) as [Hlt|Hge].
  - (* just below 1: the mantissa 2^53 - 1 is rounded up *)
    assert (Hu54 : 54 <= u).
    { destruct (Z.eq_dec u 53) as [->|]; [|lia]. exfalso.
      change (2 ^ 53) with 9007199254740992 in *.
      change (2 ^ 54) with 18014398509481984 in *. lia. }
    set (t := u - 53).
    assert (Ht : 0 < t) by (unfold t; lia).
    assert (Hpt : 0 < 2 ^ t) by (apply Z.pow_pos_nonneg; lia).
    assert (Hut : 2 ^ u = 2 ^ 53 * 2 ^ t)
      by (rewrite <- Z.pow_add_r by lia; f_equal; unfold t; lia).
    assert (Hu1 : 2 ^ u = 2 * 2 ^ (u - 1))
      by (rewrite <- Z.pow_succ_r by lia; f_equal; lia).
    change (2 ^ 54) with (2 * 2 ^ 53) in Hnear.
    change (2 ^ 53) with 9007199254740992 in *.
    rewrite (binary_normalize_round S (- u) u); try lia.
    + fold t.
      rewrite (round_shift_eq S t (9007199254740992 - 1) (S - 2 ^ u + 2 ^ t))
        by lia.
      change (Z.even (9007199254740992 - 1)) with false. cbv iota.
      replace (9007199254740992 - 1 + 1) with 9007199254740992 by lia.
      assert (E : (2 * (S - 2 ^ u + 2 ^ t) <? 2 ^ t) = false)
        by (apply Z.ltb_ge; lia).
      rewrite E. replace (- u + u - 52) with (-52) by lia.
      destruct (2 * (S - 2 ^ u + 2 ^ t) =? 2 ^ t); reflexivity.
    + apply Zdigits2_unique; lia.
  - (* 1 or just above: the mantissa 2^52 is kept *)
    set (t := u - 52) in *.
    assert (Ht : 0 < t) by (unfold t; lia).
    assert (Hu1 : 2 ^ (u + 1) = 2 * 2 ^ u)
      by (rewrite <- Z.pow_succ_r by lia; f_equal; lia).
    change (2 ^ 54) with (4 * 2 ^ 52) in Hnear.
    change (2 ^ 52) with 4503599627370496 in *.
    rewrite (binary_normalize_round S (- u) (u + 1)); try lia.
    + replace (u + 1 - 53) with t by (unfold t; lia).
      rewrite (round_shift_eq S t 4503599627370496 (S - 2 ^ u)) by lia.
      assert (E : (2 * (S - 2 ^ u) <? 2 ^ t) = true)
        by (apply Z.ltb_lt; lia).
      rewrite E. replace (- u + (u + 1) - 53) with (-52) by lia.
      reflexivity.
    + apply Zdigits2_unique; [lia|]. replace (u + 1 - 1) with u by lia. lia.
Qed.

Lemma shl_align_spec (m : positive) (e e' : Z) :
  e' <= e -> Z.pos (fst (shl_align m e e')) = Z.pos m * 2 ^ (e - e').
Proof.
  intros H. unfold shl_align.
  destruct (e' - e) as [|k|k] eqn:Ek; try lia; cbn [fst].
  - replace (e - e') with 0 by lia. lia.
  - rewrite pos_iter_xO. f_equal. f_equal. lia.
Qed.

Lemma valid_finite_bounds (s : bool) (m : positive) (e : Z) :
  valid_binary (S754_finite s m e) = true ->
  -1074 <= e <= 971 /\ Z.pos m < 2 ^ 53.
Proof.
  cbn [SpecFloat.valid_binary]. unfold bounded, canonical_mantissa.
  intros H. apply andb_true_iff in H. destruct H as [H1 H2].
  apply Z.eqb_eq in H1. apply Z.leb_le in H2.
  unfold fexp, SpecFloat.emin, prec, emax in *.
  split; [lia|].
  pose proof (digits2_pos_bounds m) as [_ Hb].
  assert (Hd : Z.pos (digits2_pos m) <= 53) by lia.
  pose proof (Z.pow_le_mono_r 2 _ _ ltac:(lia) Hd). lia.
Qed.

Lemma SFadd_to_one (m mb : positive) (e eb : Z) :
  -1074 <= e -> -1074 <= eb ->
  e <= -53 \/ eb <= -53 ->
  2 ^ 54 * Z.abs (Z.pos m * 2 ^ (e - Z.min e eb)
                  + Z.pos mb * 2 ^ (eb - Z.min e eb) - 2 ^ (- Z.min e eb))
  <= 2 ^ (- Z.min e eb) ->
  SF64add (S754_finite false m e) (S754_finite false mb eb) = SF_one.
Proof.
  intros He Heb Hmin Hnear. unfold SF64add, SFadd. cbn [cond_Zopp].
  rewrite !shl_align_spec by lia.
  set (ez := Z.min e eb) in *.
  replace ez with (- (- ez)) at 3 by lia.
  apply binary_normalize_near_one.
  - lia.
  - assert (0 < 2 ^ (e - ez)) by (apply Z.pow_pos_nonneg; lia).
    assert (0 < 2 ^ (eb - ez)) by (apply Z.pow_pos_nonneg; lia).
    nia.
  - exact Hnear.
Qed.

Lemma pow2_split (a b : Z) : 0 <= a -> 0 <= b -> 2 ^ (a + b) = 2 ^ a * 2 ^ b.
Proof. intros. apply Z.pow_add_r; assumption. Qed.

Lemma SFsub_from_one (m : positive) (e : Z) :
  -1074 <= e <= -53 -> Z.pos m < 2 ^ 53 ->
  exists mb eb,
    SF64sub SF_one (S754_finite false m e) = S754_finite false mb eb /\
    -1074 <= eb /\
    2 ^ 54 * Z.abs (Z.pos m * 2 ^ (e - Z.min e eb)
                    + Z.pos mb * 2 ^ (eb - Z.min e eb) - 2 ^ (- Z.min e eb))
    <= 2 ^ (- Z.min e eb).
Proof.
  intros He Hm. unfold SF64sub, SFsub, SF_one. cbn [cond_Zopp].
  replace (Z.min (-52) e) with e by lia.
  rewrite !shl_align_spec by lia.
  replace (e - e) with 0 by lia. change (2 ^ 0) with 1. rewrite Z.mul_1_r.
  change (Z.pos (Z.to_pos (2 ^ 52))) with (2 ^ 52).
  rewrite <- pow2_split by lia.
  replace (52 + (-52 - e)) with (- e) by lia.
  set (u := - e) in *.
  set (M := 2 ^ u - Z.pos m).
  assert (Hu53 : 2 ^ 53 <= 2 ^ u) by (apply Z.pow_le_mono_r; lia).
  assert (HM : 0 < M) by (unfold M; lia).
  destruct (Z.eq_dec u 53) as [Eu|Eu].
  - (* 1/2 <= a < 1: the difference is exact *)
    set (d := Zdigits2 M).
    pose proof (Zdigits2_bounds M HM) as Hb. fold d in Hb.
    pose proof (Zdigits2_pos M HM) as Hd0. fold d in Hd0.
    assert (Hd : d <= 53).
    { assert (d - 1 < 53); [|lia]. apply pow2_lt_mono; [lia|].
      unfold M in Hb. rewrite Eu in Hb. lia. }
    rewrite (binary_normalize_exact M e d) by (try reflexivity; lia).
    assert (Hpd : 0 < 2 ^ (53 - d)) by (apply Z.pow_pos_nonneg; lia).
    exists (Z.to_pos (M * 2 ^ (53 - d))), (e + d - 53).
    split; [reflexivity|]. split; [lia|].
    replace (Z.min e (e + d - 53)) with (e + d - 53) by lia.
    rewrite Z2Pos.id by nia.
    replace (e - (e + d - 53)) with (53 - d) by lia.
    replace (e + d - 53 - (e + d - 53)) with 0 by lia.
    change (2 ^ 0) with 1. rewrite Z.mul_1_r.
    replace (- (e + d - 53)) with (u + (53 - d)) by (unfold u; lia).
    rewrite pow2_split by lia.
    replace (Z.pos m * 2 ^ (53 - d) + M * 2 ^ (53 - d) - 2 ^ u * 2 ^ (53 - d))
      with 0 by (unfold M; ring).
    simpl Z.abs. nia.
  - (* a < 1/2: the difference is rounded to 53 bits *)
    set (t := u - 53).
    assert (Ht : 0 < t) by (unfold t, u in *; lia).
    assert (Hpt : 0 < 2 ^ t) by (apply Z.pow_pos_nonneg; lia).
    assert (Hut : 2 ^ u = 2 ^ 53 * 2 ^ t)
      by (rewrite <- pow2_split by lia; f_equal; unfold t; lia).
    assert (Hu1 : 2 ^ u = 2 * 2 ^ (u - 1))
      by (rewrite <- Z.pow_succ_r by (unfold u in *; lia); f_equal; lia).
    assert (Hu54 : 2 * 2 ^ 53 <= 2 ^ u).
    { change (2 * 2 ^ 53) with (2 ^ 54). apply Z.pow_le_mono_r; unfold u in *; lia. }
    assert (HdM : Zdigits2 M = u)
      by (apply Zdigits2_unique; unfold M; lia).
    rewrite (binary_normalize_round M e u) by (try assumption; unfold u in *; lia).
    fold t.
    destruct (round_shift_error M t ltac:(lia) Ht) as [Hq Herr].
    assert (Hq52 : 2 ^ 52 <= M / 2 ^ t).
    { apply Z.div_le_lower_bound; [lia|].
      change (2 ^ 53) with (2 * 2 ^ 52) in *. unfold M. nia. }
    set (q := round_shift M t) in *.
    change (2 ^ 54) with (2 * 2 ^ 53).
    destruct (Z.eqb_spec q (2 ^ 53)) as [Eq|Eq].
    + exists (Z.to_pos (2 ^ 52)), (e + u - 52).
      split; [reflexivity|]. split; [unfold u; lia|].
      replace (Z.min e (e + u - 52)) with e by (unfold u; lia).
      replace (e - e) with 0 by lia. change (2 ^ 0) with 1. rewrite Z.mul_1_r.
      replace (e + u - 52 - e) with (1 + t) by (unfold t; lia).
      rewrite pow2_split by lia. change (2 ^ 1) with 2.
      change (Z.pos (Z.to_pos (2 ^ 52))) with (2 ^ 52).
      fold u.
      replace (Z.pos m + 2 ^ 52 * (2 * 2 ^ t) - 2 ^ u)
        with (q * 2 ^ t - M)
        by (unfold M; rewrite Eq; change (2 ^ 53) with (2 * 2 ^ 52); ring).
      nia.
    + exists (Z.to_pos q), (e + u - 53).
      split; [reflexivity|]. split; [unfold u; lia|].
      replace (Z.min e (e + u - 53)) with e by (unfold u; lia).
      replace (e - e) with 0 by lia. change (2 ^ 0) with 1. rewrite Z.mul_1_r.
      replace (e + u - 53 - e) with t by (unfold t; lia).
      rewrite Z2Pos.id by (change (2 ^ 52) with 4503599627370496 in Hq52; lia).
      fold u.
      replace (Z.pos m + q * 2 ^ t - 2 ^ u) with (q * 2 ^ t - M)
        by (unfold M; ring).
      nia.
Qed.

Theorem add_one_minus (a : float) (m : positive) (e : Z) :
  Prim2SF a = S754_finite false m e ->
  e <= -53 \/ (Z.pos m = 2 ^ 52 /\ e = -52) ->
  (a + (1 - a))%float = 1%float.
Proof.
  intros Ha Hle. apply Prim2SF_inj.
  rewrite add_spec, sub_spec, Ha, Prim2SF_one.
  pose proof (Prim2SF_valid a) as Hv. rewrite Ha in Hv.
  apply valid_finite_bounds in Hv. destruct Hv as [He Hm].
  destruct Hle as [Hle|[Hm52 ->]].
  - destruct (SFsub_from_one m e ltac:(lia) Hm) as [mb [eb [-> [Heb Hnear]]]].
    apply SFadd_to_one; solve [exact Hnear | lia].
  - assert (m = Z.to_pos (2 ^ 52)) as -> by lia. reflexivity.
Qed.

Theorem add_one_minus_zero (a : float) (s : bool) :
  Prim2SF a = S754_zero s -> (a + (1 - a))%float = 1%float.
Proof.
  intros Ha. apply Prim2SF_inj.
  rewrite add_spec, sub_spec, Ha, Prim2SF_one. reflexivity.
Qed.

(** *** Conversion of counts and correctly rounded quotients *)


Lemma float_of_count_zero : Prim2SF (float_of_count 0) = S754_zero false.
Proof. reflexivity. Qed.


Lemma round_shift_normal (n d : Z) :
  0 < n -> Zdigits2 n = d -> 53 < d ->
  2 ^ 52 <= round_shift n (d - 53) <= 2 ^ 53.
Proof.
  intros Hn Hd Hd53.
  pose proof (Zdigits2_bounds n Hn) as Hb. rewrite Hd in Hb.
  set (t := d - 53) in *.
  assert (Ht : 0 < t) by (unfold t; lia).
  assert (Hp : 0 < 2 ^ t) by (apply Z.pow_pos_nonneg; lia).
  assert (E1 : 2 ^ (d - 1) = 2 ^ 52 * 2 ^ t)
    by (rewrite <- pow2_split by lia; f_equal; unfold t; lia).
  assert (E2 : 2 ^ d = 2 ^ 53 * 2 ^ t)
    by (rewrite <- pow2_split by lia; f_equal; unfold t; lia).
  assert (Hq : 2 ^ 52 <= n / 2 ^ t < 2 ^ 53).
  { split; [apply Z.div_le_lower_bound|apply Z.div_lt_upper_bound]; lia. }
  destruct (round_shift_error n t ltac:(lia) Ht) as [Hrs _]. lia.
Qed.

Lemma normal_form_bounds (n : Z) :
  0 < n ->
  2 ^ 52 <= fst (normal_form n) < 2 ^ 53 /\
  Zdigits2 n - 53 <= snd (normal_form n) <= Zdigits2 n - 52.
Proof.
  intros Hn. unfold normal_form.
  pose proof (Zdigits2_bounds n Hn) as Hb.
  pose proof (Zdigits2_pos n Hn) as Hd0.
  set (d := Zdigits2 n) in *.
  destruct (Z.leb_spec d 53) as [Hd|Hd]; cbn [fst snd].
  - assert (Hp : 0 < 2 ^ (53 - d)) by (apply Z.pow_pos_nonneg; lia).
    assert (E1 : 2 ^ 52 = 2 ^ (d - 1) * 2 ^ (53 - d))
      by (rewrite <- pow2_split by lia; f_equal; lia).
    assert (E2 : 2 ^ 53 = 2 ^ d * 2 ^ (53 - d))
      by (rewrite <- pow2_split by lia; f_equal; lia).
    split; [|lia]. rewrite E1, E2.
    split; [apply Z.mul_le_mono_nonneg_r|apply Z.mul_lt_mono_pos_r]; lia.
  - pose proof (round_shift_normal n d Hn eq_refl Hd) as Hq.
    destruct (Z.eqb_spec (round_shift n (d - 53)) (2 ^ 53)); cbn [fst snd].
    + split; [|lia]. split; [lia|reflexivity].
    + lia.
Qed.

Lemma digits_lt_pow2 (n k : Z) : 0 < n < 2 ^ k -> 0 <= k -> Zdigits2 n <= k.
Proof.
  intros Hn Hk. pose proof (Zdigits2_bounds n ltac:(lia)) as Hb.
  pose proof (Zdigits2_pos n ltac:(lia)).
  assert (Zdigits2 n - 1 < k); [|lia]. apply pow2_lt_mono; lia.
Qed.

Lemma float_of_count_pos (n : Z) :
  0 < n < 2 ^ 63 ->
  Prim2SF (float_of_count n)
  = S754_finite false (Z.to_pos (fst (normal_form n))) (snd (normal_form n)).
Proof.
  intros Hn. unfold float_of_count. rewrite of_uint63_spec.
  assert (E : Uint63.to_Z (Uint63.of_Z n) = n).
  { rewrite Uint63.of_Z_spec. apply Z.mod_small.
    change Uint63.wB with (2 ^ 63). lia. }
  rewrite E.
  pose proof (Zdigits2_pos n ltac:(lia)) as Hd0.
  pose proof (digits_lt_pow2 n 63 Hn ltac:(lia)) as Hd63.
  unfold normal_form.
  destruct (Z.leb_spec (Zdigits2 n) 53) as [Hd|Hd]; cbn [fst snd].
  - rewrite (binary_normalize_exact n 0 (Zdigits2 n))
      by (try reflexivity; lia).
    reflexivity.
  - rewrite (binary_normalize_round n 0 (Zdigits2 n))
      by (try reflexivity; lia).
    destruct (round_shift n (Zdigits2 n - 53) =? 2 ^ 53); reflexivity.
Qed.

Lemma round_shift_mono (c n t : Z) :
  0 <= c <= n -> 0 < t -> round_shift c t <= round_shift n t.
Proof.
  intros Hcn Ht. unfold round_shift.
  assert (Hp : 0 < 2 ^ t) by (apply Z.pow_pos_nonneg; lia).
  pose proof (Z.div_mod c (2 ^ t) ltac:(lia)) as Hc.
  pose proof (Z.div_mod n (2 ^ t) ltac:(lia)) as Hn.
  pose proof (Z.mod_pos_bound c (2 ^ t) Hp) as Hrc.
  pose proof (Z.mod_pos_bound n (2 ^ t) Hp) as Hrn.
  pose proof (Z.div_le_mono c n (2 ^ t) Hp ltac:(lia)) as Hq.
  set (qc := c / 2 ^ t) in *. set (rc := c mod 2 ^ t) in *.
  set (qn := n / 2 ^ t) in *. set (rn := n mod 2 ^ t) in *.
  set (P := 2 ^ t) in *.
  destruct (Z.eq_dec qc qn) as [E|E].
  - rewrite E in *.
    repeat match goal with
           | |- context [?a <? ?b] => destruct (Z.ltb_spec a b)
           | |- context [?a =? ?b] => destruct (Z.eqb_spec a b)
           | |- context [Z.even ?a] => destruct (Z.even a)
           end; nia.
  - assert (qc + 1 <= qn) by lia.
    repeat match goal with
           | |- context [?a <? ?b] => destruct (Z.ltb_spec a b)
           | |- context [?a =? ?b] => destruct (Z.eqb_spec a b)
           | |- context [Z.even ?a] => destruct (Z.even a)
           end; lia.
Qed.

Lemma Zdigits2_mono (c n : Z) : 0 < c <= n -> Zdigits2 c <= Zdigits2 n.
Proof.
  intros H.
  pose proof (Zdigits2_bounds c ltac:(lia)).
  pose proof (Zdigits2_bounds n ltac:(lia)).
  pose proof (Zdigits2_pos c ltac:(lia)).
  assert (Zdigits2 c - 1 < Zdigits2 n); [|lia]. apply pow2_lt_mono; lia.
Qed.

(** Conversion to binary64 is monotone. *)
Lemma normal_form_mono (c n : Z) :
  0 < c <= n ->
  snd (normal_form c) < snd (normal_form n) \/
  (snd (normal_form c) = snd (normal_form n) /\
   fst (normal_form c) <= fst (normal_form n)).
Proof.
  intros Hcn.
  pose proof (Zdigits2_mono c n Hcn) as Hdd.
  pose proof (normal_form_bounds c ltac:(lia)) as [Hmc Hec].
  pose proof (normal_form_bounds n ltac:(lia)) as [Hmn Hen].
  destruct (Z_lt_le_dec (Zdigits2 c) (Zdigits2 n)) as [Hlt|Hge].
  - (* fewer digits: a smaller exponent, or a carry to the least mantissa *)
    destruct (Z_lt_le_dec (snd (normal_form c)) (snd (normal_form n)))
      as [|Hs]; [left; assumption|right].
    assert (Es : snd (normal_form c) = Zdigits2 c - 52) by lia.
    split; [lia|].
    revert Es. unfold normal_form at 1 2.
    destruct (Zdigits2 c <=? 53); cbn [fst snd]; [lia|].
    destruct (round_shift c (Zdigits2 c - 53) =? 2 ^ 53); cbn [fst snd];
      [intros _; lia|lia].
  - assert (Ed : Zdigits2 c = Zdigits2 n) by lia.
    pose proof (Zdigits2_pos c ltac:(lia)) as Hd0.
    unfold normal_form in *. rewrite Ed in *.
    set (d := Zdigits2 n) in *.
    destruct (Z.leb_spec d 53) as [Hd|Hd]; cbn [fst snd] in *.
    + right. split; [reflexivity|].
      apply Z.mul_le_mono_nonneg_r; [apply Z.pow_nonneg|]; lia.
    + pose proof (round_shift_mono c n (d - 53) ltac:(lia) ltac:(lia)) as Hm.
      pose proof (round_shift_normal n d ltac:(lia) eq_refl Hd) as Hqn.
      destruct (Z.eqb_spec (round_shift c (d - 53)) (2 ^ 53)) as [Ec|Ec];
        destruct (Z.eqb_spec (round_shift n (d - 53)) (2 ^ 53)) as [En|En];
        cbn [fst snd] in *; lia.
Qed.

Lemma loc_of_shr_record_of_loc (m : Z) (l : location) :
  loc_of_shr_record (shr_record_of_loc m l) = l.
Proof. destruct l as [|[| |]]; reflexivity. Qed.

Lemma shr_m_record_of_loc (m : Z) (l : location) :
  shr_m (shr_record_of_loc m l) = m.
Proof. destruct l as [|[| |]]; reflexivity. Qed.

Lemma round_nearest_even_cases (m : Z) (l : location) :
  round_nearest_even m l = m \/ round_nearest_even m l = m + 1.
Proof.
  destruct l as [|[| |]]; cbn [round_nearest_even]; auto.
  destruct (Z.even m); auto.
Qed.

(** The second normalisation step of [binary_round_aux]: a carry into bit
    53 is shifted out. *)
Lemma renormalize (m e : Z) :
  2 ^ 52 <= m <= 2 ^ 53 -> -1074 <= e ->
  shr_fexp prec emax m e loc_Exact
  = if m =? 2 ^ 53
    then (Build_shr_record (2 ^ 52) false false, e + 1)
    else (Build_shr_record m false false, e).
Proof.
  intros Hm He. unfold shr_fexp.
  destruct (Z.eqb_spec m (2 ^ 53)) as [->|Hne].
  - change (Zdigits2 (2 ^ 53)) with 54. rewrite fexp_normal by lia.
    replace (54 + e - 53 - e) with 1 by lia. reflexivity.
  - assert (Hd : Zdigits2 m = 53).
    { apply Zdigits2_unique; [|change (53 - 1) with 52];
        change (2 ^ 52) with 4503599627370496 in *; lia. }
    rewrite Hd, fexp_normal by lia.
    replace (53 + e - 53 - e) with 0 by lia. reflexivity.
Qed.

Lemma binary_round_aux_loc (q e : Z) (l : location) :
  2 ^ 52 <= q < 2 ^ 54 -> -1074 <= e -> e + 2 <= 971 ->
  exists m' e',
    binary_round_aux prec emax false q e l = S754_finite false m' e' /\
    ((q < 2 ^ 53 /\ (e' = e \/ (e' = e + 1 /\ Z.pos m' = 2 ^ 52))) \/
     (2 ^ 53 <= q /\ (e' = e + 1 \/ (e' = e + 2 /\ Z.pos m' = 2 ^ 52)))).
Proof.
  intros Hq He Hhi.
  assert (Hfin : forall m1 e1,
             2 ^ 52 <= m1 <= 2 ^ 53 -> -1074 <= e1 -> e1 + 1 <= 971 ->
             exists m' e',
               (let '(mrs, e2) := shr_fexp prec emax m1 e1 loc_Exact in
                match shr_m mrs with
                | 0 => S754_zero false
                | Z.pos m => if e2 <=? emax - prec then S754_finite false m e2
                             else S754_infinity false
                | Z.neg _ => S754_nan
                end) = S754_finite false m' e' /\
               (e' = e1 \/ (e' = e1 + 1 /\ Z.pos m' = 2 ^ 52))).
  { intros m1 e1 Hm1 He1 Hhi1. rewrite renormalize by assumption.
    destruct (Z.eqb_spec m1 (2 ^ 53)) as [->|Hne]; cbn [shr_m].
    - exists (Z.to_pos (2 ^ 52)), (e1 + 1).
      change (2 ^ 52) with (Z.pos (Z.to_pos (2 ^ 52))) at 1. cbv iota.
      replace (e1 + 1 <=? emax - prec) with true
        by (symmetry; apply Z.leb_le; unfold emax, prec; lia).
      split; [reflexivity|]. right. split; reflexivity.
    - destruct m1 as [|p|p];
        try (change (2 ^ 52) with 4503599627370496 in *; lia).
      exists p, e1.
      replace (e1 <=? emax - prec) with true
        by (symmetry; apply Z.leb_le; unfold emax, prec; lia).
      split; [reflexivity|]. left. reflexivity. }
  unfold binary_round_aux.
  destruct (Z_lt_le_dec q (2 ^ 53)) as [Hlt|Hge].
  - assert (Hd : Zdigits2 q = 53).
    { apply Zdigits2_unique; [|change (53 - 1) with 52];
        change (2 ^ 52) with 4503599627370496 in *; lia. }
    unfold shr_fexp at 1. rewrite Hd, fexp_normal by lia.
    replace (53 + e - 53 - e) with 0 by lia. rewrite shr_zero.
    rewrite loc_of_shr_record_of_loc, shr_m_record_of_loc.
    destruct (Hfin (round_nearest_even q l) e) as [m' [e' [E Hc]]];
      try lia.
    { destruct (round_nearest_even_cases q l) as [-> | ->]; lia. }
    exists m', e'. split; [exact E|]. left. split; assumption.
  - assert (Hd : Zdigits2 q = 54).
    { apply Zdigits2_unique; [|change (54 - 1) with 53];
        change (2 ^ 53) with 9007199254740992 in *; lia. }
    unfold shr_fexp at 1. rewrite Hd, fexp_normal by lia.
    replace (54 + e - 53 - e) with 1 by lia. cbn [shr iter_pos].
    assert (Hrec : exists r s,
               shr_1 (shr_record_of_loc q l)
               = Build_shr_record (q / 2) r s).
    { destruct l as [|[| |]]; cbn [shr_record_of_loc];
        rewrite shr_1_nonneg by lia; eauto. }
    destruct Hrec as [r [s ->]]. cbn [shr_m].
    assert (Hq2 : 2 ^ 52 <= q / 2 < 2 ^ 53).
    { change (2 ^ 54) with (2 * 2 ^ 53) in Hq.
      change (2 ^ 53) with (2 * 2 ^ 52) in Hge.
      split; [apply Z.div_le_lower_bound|apply Z.div_lt_upper_bound]; lia. }
    destruct (Hfin (round_nearest_even (q / 2)
                      (loc_of_shr_record (Build_shr_record (q / 2) r s)))
                   (e + 1)) as [m' [e' [E Hc]]]; try lia.
    { destruct (round_nearest_even_cases (q / 2)
                  (loc_of_shr_record (Build_shr_record (q / 2) r s)))
        as [-> | ->]; lia. }
    exists m', e'. split; [exact E|]. right. split; [assumption|].
    destruct Hc as [->|[-> Hm']]; [left; reflexivity|right; split; [lia|assumption]].
Qed.

Lemma new_location_zero (n : Z) : new_location n 0 = loc_Exact.
Proof.
  unfold new_location, new_location_even, new_location_odd.
  destruct (Z.even n); reflexivity.
Qed.

Lemma SFdiv_core_normal (mc ec mn en : Z) :
  2 ^ 52 <= mc < 2 ^ 53 -> 2 ^ 52 <= mn < 2 ^ 53 ->
  -1021 <= ec - en ->
  SFdiv_core_binary prec emax mc ec mn en
  = (mc * 2 ^ 53 / mn, ec - en - 53, new_location mn ((mc * 2 ^ 53) mod mn)).
Proof.
  intros Hc Hn He.
  assert (Hdc : Zdigits2 mc = 53).
  { apply Zdigits2_unique; [|change (53 - 1) with 52];
      change (2 ^ 52) with 4503599627370496 in *; lia. }
  assert (Hdn : Zdigits2 mn = 53).
  { apply Zdigits2_unique; [|change (53 - 1) with 52];
      change (2 ^ 52) with 4503599627370496 in *; lia. }
  unfold SFdiv_core_binary. rewrite Hdc, Hdn.
  replace (53 + ec - (53 + en)) with (ec - en) by lia.
  rewrite fexp_normal by lia.
  replace (Z.min (ec - en - 53) (ec - en)) with (ec - en - 53) by lia.
  replace (ec - en - (ec - en - 53)) with 53 by lia.
  cbv iota beta. rewrite Z.shiftl_mul_pow2 by lia.
  unfold Z.div, Z.modulo.
  destruct (Z.div_eucl (mc * 2 ^ 53) mn) as [q r]. reflexivity.
Qed.

(** The quotient of two positive normal numbers [x <= y] is a positive
    normal number not above 1. *)
Lemma SFdiv_in_unit (mc ec mn en : Z) :
  2 ^ 52 <= mc < 2 ^ 53 -> 2 ^ 52 <= mn < 2 ^ 53 ->
  -900 <= ec - en ->
  ec < en \/ (ec = en /\ mc <= mn) ->
  exists m e,
    SF64div (S754_finite false (Z.to_pos mc) ec)
            (S754_finite false (Z.to_pos mn) en)
    = S754_finite false m e /\
    ec - en - 53 <= e /\ (e <= -53 \/ (Z.pos m = 2 ^ 52 /\ e = -52)).
Proof.
  intros Hmc Hmn Hlo Hle.
  unfold SF64div, SFdiv.
  rewrite !Z2Pos.id by (change (2 ^ 52) with 4503599627370496 in *; lia).
  rewrite SFdiv_core_normal by (try assumption; lia).
  cbn [xorb].
  set (q := mc * 2 ^ 53 / mn).
  assert (Hq : 2 ^ 52 <= q < 2 ^ 54).
  { unfold q. change (2 ^ 54) with (2 * 2 ^ 53).
    change (2 ^ 53) with (2 * 2 ^ 52) in *.
    change (2 ^ 52) with 4503599627370496 in *.
    split; [apply Z.div_le_lower_bound|apply Z.div_lt_upper_bound]; nia. }
  destruct Hle as [Hlt|[Eee Hmm]].
  - destruct (binary_round_aux_loc q (ec - en - 53)
                (new_location mn ((mc * 2 ^ 53) mod mn)) Hq
                ltac:(lia) ltac:(lia)) as [m' [e' [E Hcases]]].
    exists m', e'. split; [exact E|]. split; [lia|].
    destruct Hcases as [[_ [->|[-> Hm']]]|[_ [->|[-> Hm']]]]; try (left; lia).
    destruct (Z_le_gt_dec (ec - en - 53 + 2) (-53));
      [left; lia|right; split; [assumption|lia]].
  - replace (ec - en - 53) with (-53) by lia.
    assert (Hq53 : q <= 2 ^ 53).
    { unfold q. apply Z.div_le_upper_bound; nia. }
    destruct (Z.eq_dec q (2 ^ 53)) as [Eq|Hne].
    + assert (Emm : mc = mn).
      { pose proof (Z.mul_div_le (mc * 2 ^ 53) mn ltac:(lia)) as Hle.
        fold q in Hle. rewrite Eq in Hle.
        change (2 ^ 53) with 9007199254740992 in *. nia. }
      rewrite Eq. rewrite Emm, (Z.mul_comm mn), Z.mod_mul by lia.
      rewrite new_location_zero.
      exists (Z.to_pos (2 ^ 52)), (-52).
      split; [reflexivity|]. split; [lia|]. right. split; reflexivity.
    + destruct (binary_round_aux_loc q (-53)
                  (new_location mn ((mc * 2 ^ 53) mod mn)) Hq
                  ltac:(lia) ltac:(lia)) as [m' [e' [E Hcases]]].
      exists m', e'. split; [exact E|]. split; [lia|].
      destruct Hcases as [[_ [->|[-> Hm']]]|[Hge53 _]];
        [left; lia|right; split; [assumption|lia]|lia].
Qed.

(** The binary64 quotient of two counts [0 < c <= n < 2^63] is a positive
    normal number not above 1. *)
Lemma quotient_in_unit (c n : Z) :
  0 < c <= n -> n < 2 ^ 63 ->
  exists m e,
    Prim2SF (float_of_count c / float_of_count n) = S754_finite false m e /\
    -116 <= e /\ (e <= -53 \/ (Z.pos m = 2 ^ 52 /\ e = -52)).
Proof.
  intros Hc Hn.
  rewrite div_spec, !float_of_count_pos by lia.
  pose proof (normal_form_bounds c ltac:(lia)) as [Hmc Hec].
  pose proof (normal_form_bounds n ltac:(lia)) as [Hmn Hen].
  pose proof (Zdigits2_pos c ltac:(lia)).
  pose proof (digits_lt_pow2 n 63 ltac:(lia) ltac:(lia)).
  destruct (SFdiv_in_unit (fst (normal_form c)) (snd (normal_form c))
                          (fst (normal_form n)) (snd (normal_form n))
                          Hmc Hmn ltac:(lia) (normal_form_mono c n Hc))
    as [m [e [E [Hlo Hle]]]].
  exists m, e. split; [exact E|]. split; [lia|exact Hle].
Qed.

Lemma binary_normalize_pos (M e : Z) :
  0 < M ->
  -1074 <= e + Zdigits2 M - 53 -> e + Zdigits2 M - 52 <= 971 ->
  exists m' e', binary_normalize prec emax M e false = S754_finite false m' e'.
Proof.
  intros HM Hlo Hhi.
  destruct (Z_le_gt_dec (Zdigits2 M) 53) as [Hd|Hd].
  - rewrite (binary_normalize_exact M e (Zdigits2 M))
      by (try reflexivity; lia).
    eauto.
  - rewrite (binary_normalize_round M e (Zdigits2 M))
      by (try reflexivity; lia).
    destruct (round_shift M (Zdigits2 M - 53) =? 2 ^ 53); eauto.
Qed.

(** The sum of two positive normal numbers not above 1 is not zero. *)
Lemma positive_sum_nonzero (p r : float) (mp mr : positive) (ep er : Z) :
  Prim2SF p = S754_finite false mp ep ->
  Prim2SF r = S754_finite false mr er ->
  -116 <= ep <= -52 -> -116 <= er <= -52 ->
  (p + r =? 0)%float = false.
Proof.
  intros Hp Hr Hep Her.
  pose proof (Prim2SF_valid p) as Hvp. rewrite Hp in Hvp.
  pose proof (Prim2SF_valid r) as Hvr. rewrite Hr in Hvr.
  apply valid_finite_bounds in Hvp, Hvr.
  rewrite eqb_spec, add_spec, Hp, Hr.
  unfold SF64add, SFadd. cbn [cond_Zopp].
  rewrite !shl_align_spec by lia.
  set (ez := Z.min ep er).
  set (S := Z.pos mp * 2 ^ (ep - ez) + Z.pos mr * 2 ^ (er - ez)).
  assert (H1 : 0 < 2 ^ (ep - ez) <= 2 ^ 64).
  { split; [apply Z.pow_pos_nonneg|apply Z.pow_le_mono_r]; unfold ez; lia. }
  assert (H2 : 0 < 2 ^ (er - ez) <= 2 ^ 64).
  { split; [apply Z.pow_pos_nonneg|apply Z.pow_le_mono_r]; unfold ez; lia. }
  assert (HS : 0 < S < 2 ^ 118).
  { change (2 ^ 118) with (2 * (2 ^ 53 * 2 ^ 64)). unfold S. nia. }
  pose proof (digits_lt_pow2 S 118 HS ltac:(lia)) as Hd.
  pose proof (Zdigits2_pos S ltac:(lia)) as Hd0.
  destruct (binary_normalize_pos S ez ltac:(lia)) as [m' [e' ->]];
    try (unfold ez; lia).
  reflexivity.
Qed.

Lemma zero_numerator (n : Z) :
  0 < n < 2 ^ 63 -> (float_of_count 0 / float_of_count n)%float = 0%float.
Proof.
  intros Hn. apply Prim2SF_inj.
  rewrite div_spec, float_of_count_zero, float_of_count_pos by assumption.
  reflexivity.
Qed.

(* ================================================================== *)
(** ** Properties of the metrics record *)

(** C2: for equal-length binary label sequences in which both classes
    occur, [compute_metrics] returns a record whose four confusion-matrix
    counts add up to the number of validation examples. *)
Theorem confusion_counts_sum_to_examples (y_true y_pred : list label) :
  List.length y_true = List.length y_pred ->
  both_classes y_true y_pred ->
  exists m tp tn fp fn,
    compute_metrics y_true y_pred = Some m /\
    get_int "TP" m = Some tp /\ get_int "TN" m = Some tn /\
    get_int "FP" m = Some fp /\ get_int "FN" m = Some fn /\
    tp + tn + fp + fn = Z.of_nat (List.length y_true).
Proof.
  intros Hlen Hboth.
  destruct (compute_metrics_both _ _ Hlen Hboth) as [mcc [_ Hm]].
  exists (metrics_record y_true y_pred mcc),
    (count_pairs true true y_true y_pred),
    (count_pairs false false y_true y_pred),
    (count_pairs false true y_true y_pred),
    (count_pairs true false y_true y_pred).
  repeat split; try assumption; try reflexivity.
  apply counts_total. exact Hlen.
Qed.

Lemma confusion_counts_sum_to_examples_witness :
  exists m tp tn fp fn,
    compute_metrics [true; false; true] [true; true; false] = Some m /\
    get_int "TP" m = Some tp /\ get_int "TN" m = Some tn /\
    get_int "FP" m = Some fp /\ get_int "FN" m = Some fn /\
    tp + tn + fp + fn = 3.
Proof.
  apply (confusion_counts_sum_to_examples [true; false; true]
                                          [true; true; false]).
  - reflexivity.
  - split; simpl; tauto.
Defined.

(** C5: the accuracy stored in the record is the binary64 quotient of
    TP + TN by TP + TN + FP + FN, the counts being those of the same
    record; the two values coincide bit for bit, hence within every
    tolerance. *)
Theorem accuracy_matches_counts (y_true y_pred : list label) (m : dict) :
  compute_metrics y_true y_pred = Some m ->
  exists tp tn fp fn acc,
    get_int "TP" m = Some tp /\ get_int "TN" m = Some tn /\
    get_int "FP" m = Some fp /\ get_int "FN" m = Some fn /\
    get_float "Accuracy" m = Some acc /\
    acc = (float_of_count (tp + tn)
           / float_of_count (tp + tn + fp + fn))%float.
Proof.
  intros H. apply compute_metrics_inv in H.
  destruct H as [Hlen [_ [mcc ->]]].
  do 5 eexists. repeat split; try reflexivity.
  rewrite (counts_total _ _ Hlen), n_correct_counts. reflexivity.
Qed.

Lemma accuracy_matches_counts_witness :
  exists tp tn fp fn acc,
    get_int "TP" (metrics_record [true; false; true] [true; true; false] 
                                 (-0.5)) = Some tp /\
    get_int "TN" (metrics_record [true; false; true] [true; true; false]
                                 (-0.5)) = Some tn /\
    get_int "FP" (metrics_record [true; false; true] [true; true; false]
                                 (-0.5)) = Some fp /\
    get_int "FN" (metrics_record [true; false; true] [true; true; false]
                                 (-0.5)) = Some fn /\
    get_float "Accuracy" (metrics_record [true; false; true]
                                         [true; true; false] (-0.5))
    = Some acc /\
    acc = (float_of_count (tp + tn)
           / float_of_count (tp + tn + fp + fn))%float.
Proof.
  apply (accuracy_matches_counts [true; false; true] [true; true; false]).
  vm_compute. reflexivity.
Defined.

(** *** The all-positive predictor *)

Lemma count_pairs_all_positive (t p : label) (y_true : list label) :
  count_pairs t p y_true (repeat true (List.length y_true))
  = if p then count_label t y_true else 0.
Proof.
  unfold count_pairs, count_label.
  induction y_true as [|[|] y IH]; destruct t, p; simpl in *;
    try reflexivity; try lia.
Qed.

Lemma count_label_split (y : list label) :
  count_label true y + count_label false y = Z.of_nat (List.length y).
Proof.
  unfold count_label.
  induction y as [|[|] y IH]; cbn [filter Bool.eqb List.length] in *; lia.
Qed.

Lemma count_label_pos_In (l : label) (y : list label) :
  0 < count_label l y -> In l y.
Proof.
  unfold count_label. induction y as [|b y IH]; simpl.
  - lia.
  - destruct (Bool.eqb l b) eqn:E.
    + intros _. left. symmetry. apply Bool.eqb_prop. exact E.
    + intros H. right. apply IH. exact H.
Qed.

Lemma count_label_repeat_true (n : nat) :
  count_label true (repeat true n) = Z.of_nat n.
Proof.
  unfold count_label.
  induction n; cbn [repeat filter Bool.eqb List.length] in *; lia.
Qed.

(** C4: on a validation set of 100 examples, 55 positive and 45 negative,
    and the all-positive prediction, [compute_metrics] returns TP = 55,
    FN = 0, FP = 45, TN = 0, accuracy 0.55, precision 0.55, recall 1.0, an F1
    score of about 0.709 (within 1e-15 of 2 * 0.55 / 1.55) and MCC = 0. *)
Theorem all_positive_scenario (y_true : list label) :
  List.length y_true = 100%nat ->
  count_label true y_true = 55 ->
  exists m f1,
    compute_metrics y_true (repeat true 100) = Some m /\
    get_int "TP" m = Some 55 /\ get_int "FN" m = Some 0 /\
    get_int "FP" m = Some 45 /\ get_int "TN" m = Some 0 /\
    get_float "Accuracy" m = Some 0.55%float /\
    get_float "Precision" m = Some 0.55%float /\
    get_float "Recall" m = Some 1.0%float /\
    get_float "F1 Score" m = Some f1 /\
    (0.709 <=? f1)%float = true /\ (f1 <? 0.710)%float = true /\
    (abs (f1 - 2 * 0.55 / 1.55) <? 1e-15)%float = true /\
    get_float "MCC" m = Some 0%float.
Proof.
  intros Hlen Hpos.
  assert (Hneg : count_label false y_true = 45).
  { pose proof (count_label_split y_true) as H. rewrite Hlen, Hpos in H.
    change (Z.of_nat 100) with 100 in H. lia. }
  assert (Hboth : both_classes y_true (repeat true 100)).
  { split; apply in_or_app.
    - left. apply count_label_pos_In. lia.
    - right. simpl. auto. }
  assert (Hlen' : List.length y_true = List.length (repeat true 100))
    by (rewrite repeat_length; exact Hlen).
  destruct (compute_metrics_both _ _ Hlen' Hboth) as [mcc [Hmcc Hm]].
  assert (Hc : forall t p, count_pairs t p y_true (repeat true 100)
                           = if p then count_label t y_true else 0).
  { intros t p. rewrite <- Hlen. apply count_pairs_all_positive. }
  assert (Emcc : mcc = 0%float).
  { unfold matthews_corrcoef, confusion_matrix in Hmcc.
    rewrite (proj2 (same_length_true _ _) Hlen') in Hmcc.
    rewrite (unique_labels_both _ _ Hboth) in Hmcc.
    cbn [map] in Hmcc. rewrite !Hc, Hpos, Hneg in Hmcc.
    vm_compute in Hmcc. congruence. }
  subst mcc. rewrite Hm.
  unfold metrics_record, tp_sum, pred_sum, true_sum.
  rewrite n_correct_counts, !Hc, Hpos, Hneg, Hlen.
  rewrite (count_label_repeat_true 100).
  eexists. eexists. split; [reflexivity|].
  vm_compute. repeat split; reflexivity.
Qed.

Lemma all_positive_scenario_witness :
  exists m f1,
    compute_metrics (repeat true 55 ++ repeat false 45) (repeat true 100)
    = Some m /\
    get_int "TP" m = Some 55 /\ get_int "FN" m = Some 0 /\
    get_int "FP" m = Some 45 /\ get_int "TN" m = Some 0 /\
    get_float "Accuracy" m = Some 0.55%float /\
    get_float "Precision" m = Some 0.55%float /\
    get_float "Recall" m = Some 1.0%float /\
    get_float "F1 Score" m = Some f1 /\
    (0.709 <=? f1)%float = true /\ (f1 <? 0.710)%float = true /\
    (abs (f1 - 2 * 0.55 / 1.55) <? 1e-15)%float = true /\
    get_float "MCC" m = Some 0%float.
Proof.
  apply (all_positive_scenario (repeat true 55 ++ repeat false 45));
    vm_compute; reflexivity.
Defined.

(** *** Accuracy and error rate *)

Lemma accuracy_plus_complement (c n : Z) :
  0 <= c <= n -> 0 < n < 2 ^ 63 ->
  let acc := (float_of_count c / float_of_count n)%float in
  (acc + (1 - acc))%float = 1%float.
Proof.
  intros Hc Hn acc. subst acc.
  destruct (Z.eq_dec c 0) as [->|Hc0].
  - apply (add_one_minus_zero _ false).
    rewrite div_spec, float_of_count_zero, float_of_count_pos by assumption.
    reflexivity.
  - destruct (quotient_in_unit c n ltac:(lia) ltac:(lia))
      as [m [e [E [_ Hle]]]].
    apply (add_one_minus _ m e E Hle).
Qed.

(** C8: in the record returned by [compute_metrics], accuracy plus error
    rate is exactly 1 in binary64 arithmetic (for sequences whose length is
    a 64-bit count). *)
Theorem accuracy_plus_error_rate_is_one
        (y_true y_pred : list label) (m : dict) :
  compute_metrics y_true y_pred = Some m ->
  Z.of_nat (List.length y_true) < 2 ^ 63 ->
  exists acc err,
    get_float "Accuracy" m = Some acc /\
    get_float "Error Rate" m = Some err /\
    (acc + err)%float = 1%float.
Proof.
  intros H Hsize. apply compute_metrics_inv in H.
  destruct H as [Hlen [Hboth [mcc ->]]].
  do 2 eexists. split; [reflexivity|]. split; [reflexivity|].
  apply accuracy_plus_complement.
  - pose proof (counts_total _ _ Hlen) as Ht.
    rewrite n_correct_counts.
    pose proof (count_pairs_nonneg true true y_true y_pred).
    pose proof (count_pairs_nonneg false false y_true y_pred).
    pose proof (count_pairs_nonneg false true y_true y_pred).
    pose proof (count_pairs_nonneg true false y_true y_pred).
    lia.
  - split; [apply (both_classes_nonempty _ _ Hlen Hboth)|exact Hsize].
Qed.

Lemma accuracy_plus_error_rate_is_one_witness :
  exists acc err,
    get_float "Accuracy"
              (metrics_record [true; false; true] [true; true; false] (-0.5))
    = Some acc /\
    get_float "Error Rate"
              (metrics_record [true; false; true] [true; true; false] (-0.5))
    = Some err /\
    (acc + err)%float = 1%float.
Proof.
  apply (accuracy_plus_error_rate_is_one [true; false; true]
                                         [true; true; false]).
  - vm_compute. reflexivity.
  - vm_compute. reflexivity.
Defined.

(** *** The zero-division guard *)

(** On a single-class pair the call raises although the precision
    denominator is zero: the guard as stated for all sequence pairs fails
    on one negative example predicted negative. *)
Lemma zero_division_guard_fails_single_class :
  ~ zero_division_guarded [false] [false].
Proof.
  intros [Hprec _].
  destruct (Hprec eq_refl) as [m [Hm _]].
  vm_compute in Hm. discriminate Hm.
Qed.

Lemma f1_zero_when_no_true_positive (d : Z) :
  0 <= d < 2 ^ 63 -> prf_divide (2 * 0) d 0 = 0%float.
Proof.
  intros Hd. unfold prf_divide.
  destruct (Z.eqb_spec d 0) as [|Hne]; [reflexivity|].
  apply zero_numerator. lia.
Qed.

Lemma prf_divide_positive (c n : Z) :
  0 < c <= n -> n < 2 ^ 63 ->
  exists m e,
    Prim2SF (prf_divide c n 0) = S754_finite false m e /\
    -116 <= e <= -52.
Proof.
  intros Hc Hn. unfold prf_divide.
  destruct (Z.eqb_spec n 0) as [|_]; [lia|].
  destruct (quotient_in_unit c n Hc Hn) as [m [e [E [Hlo Hle]]]].
  exists m, e. split; [exact E|]. lia.
Qed.

(** C3 (amended): when both classes occur among the true and predicted
    labels of two equal-length sequences (of a length whose double is a
    64-bit count), [compute_metrics] returns, and precision, recall and F1
    are exactly 0 whenever their denominator is 0. *)
Theorem zero_division_guard_two_classes (y_true y_pred : list label) :
  List.length y_true = List.length y_pred ->
  both_classes y_true y_pred ->
  Z.of_nat (List.length y_true) < 2 ^ 62 ->
  zero_division_guarded y_true y_pred.
Proof.
  intros Hlen Hboth Hsize.
  destruct (compute_metrics_both _ _ Hlen Hboth) as [mcc [_ Hm]].
  pose proof (pred_sum_cells _ _ Hlen) as Hps.
  pose proof (true_sum_cells _ _ Hlen) as Hts.
  pose proof (counts_total _ _ Hlen) as Ht.
  pose proof (count_pairs_nonneg true true y_true y_pred) as Htp.
  pose proof (count_pairs_nonneg false false y_true y_pred).
  pose proof (count_pairs_nonneg false true y_true y_pred).
  pose proof (count_pairs_nonneg true false y_true y_pred).
  change (2 ^ 62) with 4611686018427387904 in Hsize.
  assert (H63 : 2 ^ 63 = 9223372036854775808) by reflexivity.
  unfold zero_division_guarded. repeat split.
  - intros Hden. exists (metrics_record y_true y_pred mcc).
    split; [exact Hm|]. unfold metrics_record, get_float. cbn [dict_get].
    simpl String.eqb. cbv iota. rewrite Hps, Hden. reflexivity.
  - intros Hden. exists (metrics_record y_true y_pred mcc).
    split; [exact Hm|]. unfold metrics_record, get_float. cbn [dict_get].
    simpl String.eqb. cbv iota. rewrite Hts, Hden. reflexivity.
  - intros p r Hp Hr Hsum. exists (metrics_record y_true y_pred mcc).
    split; [exact Hm|]. unfold metrics_record, get_float. cbn [dict_get].
    simpl String.eqb. cbv iota. f_equal.
    unfold precision_score in Hp. unfold recall_score in Hr.
    rewrite (proj2 (same_length_true _ _) Hlen) in Hp, Hr.
    injection Hp as <-. injection Hr as <-.
    unfold tp_sum in *.
    destruct (Z.eq_dec (count_pairs true true y_true y_pred) 0) as [E|E].
    + rewrite E. apply f1_zero_when_no_true_positive. lia.
    + exfalso.
      destruct (prf_divide_positive (count_pairs true true y_true y_pred)
                                    (pred_sum y_true y_pred))
        as [mp [ep [Ep Hep]]]; try lia.
      destruct (prf_divide_positive (count_pairs true true y_true y_pred)
                                    (true_sum y_true y_pred))
        as [mr [er [Er Her]]]; try lia.
      rewrite (positive_sum_nonzero _ _ _ _ _ _ Ep Er Hep Her) in Hsum.
      discriminate Hsum.
Qed.

Lemma zero_division_guard_two_classes_witness :
  zero_division_guarded [true; false] [false; false].
Proof.
  apply (zero_division_guard_two_classes [true; false] [false; false]).
  - reflexivity.
  - split; simpl; tauto.
  - vm_compute. reflexivity.
Defined.


(* ================================================================== *)
(** ** [rf.py]: the pipeline builder *)

Lemma create_text_pipeline_stages (vectorizer_type : string) :
  exists vec suffix,
    Rf.create_text_pipeline vectorizer_type
    = ([ ("vectorizer", vec); ("classifier", balanced_random_forest) ]%string,
       suffix) /\
    (vec = TfidfVectorizer Rf.vectorizer_params \/
     vec = CountVectorizer Rf.vectorizer_params).
Proof.
  unfold Rf.create_text_pipeline.
  destruct (String.eqb (lower vectorizer_type) "tfidf");
    do 2 eexists; split; try reflexivity; auto.
Qed.



(** C10: for every vectorizer type the builder returns a two-stage
    pipeline: first a vectorizer with minimum document frequency 5 and
    maximum document frequency 0.8, then a random forest with balanced
    class weights.  The vectorizer type is the builder's only argument. *)
Theorem rf_pipeline_shape (vectorizer_type : string) :
  exists vec clf,
    fst (Rf.create_text_pipeline vectorizer_type)
    = [ ("vectorizer", vec); ("classifier", clf) ]%string /\
    is_vectorizer vec = true /\
    dict_get "min_df" (kwargs_of vec) = Some (VInt 5) /\
    dict_get "max_df" (kwargs_of vec) = Some (VFloat 0.8) /\
    is_random_forest clf = true /\
    kwargs_of clf = [ ("class_weight", VStr "balanced") ]%string.
Proof.
  destruct (create_text_pipeline_stages vectorizer_type)
    as [vec [suffix [E Hvec]]].
  exists vec, balanced_random_forest. rewrite E.
  destruct Hvec as [-> | ->]; repeat split; reflexivity.
Qed.

(* ================================================================== *)
(** ** [main.py]: the experiment driver *)

Section Driver.
Variable FittedModel : Type.
Variable cv_score :
  Pipeline -> dict -> string -> nat -> nat ->
  list string -> list label -> float.
Variable refit :
  Pipeline -> dict -> list string -> list label -> option FittedModel.
Variable predict : FittedModel -> list string -> option (list label).
Variable create_text_pipeline :
  string -> string -> bool -> option (Pipeline * string).
Variable load_data :
  option (list string * list label * list string * list label).
Variable clock : nat -> float.

Let evaluate := evaluate_model FittedModel predict clock.
Let train := train_model FittedModel cv_score refit create_text_pipeline clock.
Let one := run_one FittedModel cv_score refit predict create_text_pipeline
                   clock.
Let loop := run_loop FittedModel cv_score refit predict create_text_pipeline
                     clock.
Let run := run_experiments FittedModel cv_score refit predict
                           create_text_pipeline load_data clock.

(** The metrics dictionary has the ten keys of [compute_metrics] followed
    by the prediction time. *)
Lemma evaluate_model_inv model X_val y_val suffix s metrics s' :
  evaluate model X_val y_val suffix s = Some (metrics, s') ->
  exists y_val_pred mcc t,
    predict model X_val = Some y_val_pred /\
    compute_metrics y_val y_val_pred
    = Some (metrics_record y_val y_val_pred mcc) /\
    metrics = metrics_record y_val y_val_pred mcc
              ++ [ ("Prediction Time"%string, VFloat t) ].
Proof.
  unfold evaluate, evaluate_model, bind, lift, time, ret.
  destruct (predict model X_val) as [y_val_pred|]; [|discriminate].
  destruct (compute_metrics y_val y_val_pred) as [m|] eqn:Hm; [|discriminate].
  destruct (confusion_matrix y_val y_val_pred); [|discriminate].
  intros H. injection H as <- _.
  destruct (compute_metrics_inv _ _ _ Hm) as [_ [_ [mcc ->]]].
  exists y_val_pred, mcc. eexists.
  split; [reflexivity|]. split; [exact Hm|reflexivity].
Qed.

Lemma run_one_labels X_train y_train X_val y_val exp s r s' :
  one X_train y_train X_val y_val exp s = Some (r, s') ->
  record_labels r = config_labels exp.
Proof.
  unfold one, run_one, bind, ret.
  destruct (train_model _ _ _ _ _ _ _ _ _ _ s) as [[[[model suffix] t] s1]|];
    [|discriminate].
  destruct (evaluate_model _ _ _ _ _ _ _ s1) as [[metrics s2]|] eqn:He;
    [|discriminate].
  intros H. injection H as <- _.
  apply evaluate_model_inv in He.
  destruct He as [y_val_pred [mcc [tp [_ [_ ->]]]]].
  unfold record_labels, config_labels, get_str.
  rewrite !dict_get_update_other
    by (simpl; intuition discriminate).
  reflexivity.
Qed.

Lemma run_loop_labels X_train y_train X_val y_val exps :
  forall acc s results s',
    loop X_train y_train X_val y_val exps acc s = Some (results, s') ->
    exists new,
      results = acc ++ new /\
      map record_labels new = map config_labels exps.
Proof.
  induction exps as [|exp exps IH]; intros acc s results s' H.
  - injection H as <- _. exists []. rewrite app_nil_r. auto.
  - unfold loop in H. simpl in H. unfold bind at 1 in H.
    fold one in H.
    destruct (one X_train y_train X_val y_val exp s) as [[r s1]|] eqn:Hr;
      [|discriminate].
    apply IH in H. destruct H as [new [-> Hnew]].
    exists (r :: new). split.
    + rewrite <- app_assoc. reflexivity.
    + simpl. rewrite Hnew, (run_one_labels _ _ _ _ _ _ _ _ Hr). reflexivity.
Qed.

Lemma run_experiments_labels s results s' :
  run s = Some (results, s') ->
  map record_labels results = map config_labels experiments.
Proof.
  unfold run, run_experiments, bind, lift.
  destruct load_data as [[[[X_train y_train] X_val] y_val]|]; [|discriminate].
  intros H. apply run_loop_labels in H.
  destruct H as [new [-> Hnew]]. exact Hnew.
Qed.

Lemma run_one_none X_train y_train X_val y_val exp s :
  one X_train y_train X_val y_val exp s = None ->
  train X_train y_train (classifier exp) (vectorizer exp) (stop_words exp) s
  = None \/
  exists model suffix t s1,
    train X_train y_train (classifier exp) (vectorizer exp) (stop_words exp) s
    = Some ((model, suffix, t), s1) /\
    evaluate model X_val y_val suffix s1 = None.
Proof.
  unfold one, run_one, bind, ret. fold train.
  destruct (train _ _ _ _ _ s) as [[[[model suffix] t] s1]|]; [|auto].
  fold evaluate.
  destruct (evaluate model X_val y_val suffix s1) as [[metrics s2]|] eqn:He;
    [discriminate|].
  intros _. right. exists model, suffix, t, s1. auto.
Qed.

Lemma run_loop_none X_train y_train X_val y_val exps :
  forall acc s,
    loop X_train y_train X_val y_val exps acc s = None ->
    exists exp s0,
      In exp exps /\ one X_train y_train X_val y_val exp s0 = None.
Proof.
  induction exps as [|exp exps IH]; intros acc s H.
  - discriminate H.
  - unfold loop in H. simpl in H. unfold bind at 1 in H. fold one in H.
    destruct (one X_train y_train X_val y_val exp s) as [[r s1]|] eqn:Hr.
    + apply IH in H. destruct H as [exp' [s0 [Hin Hnone]]].
      exists exp', s0. simpl; auto.
    + exists exp, s. simpl; auto.
Qed.

(** C1: an experiment run in which no step raises returns exactly 8
    records, one per configuration of the cross-product
    {svm, rf} x {tfidf, bow} x {True, False}, in iteration order, without
    duplicates or omissions; and the run raises only when loading the
    data, training or evaluating a configuration raises. *)
Theorem run_experiments_one_record_per_configuration s :
  (forall results s',
      run s = Some (results, s') ->
      List.length results = 8%nat /\
      experiments = cross_product /\
      map record_labels results = map config_labels experiments /\
      NoDup experiments /\
      NoDup (map record_labels results)) /\
  (run s = None ->
   load_data = None \/
   exists X_train y_train X_val y_val exp s0,
     load_data = Some (X_train, y_train, X_val, y_val) /\
     In exp experiments /\
     (train X_train y_train (classifier exp) (vectorizer exp) (stop_words exp)
            s0 = None \/
      exists model suffix t s1,
        train X_train y_train (classifier exp) (vectorizer exp)
              (stop_words exp) s0
        = Some ((model, suffix, t), s1) /\
        evaluate model X_val y_val suffix s1 = None)).
Proof.
  split.
  - intros results s' H. apply run_experiments_labels in H.
    assert (Hd : NoDup (map config_labels experiments)).
    { vm_compute. repeat constructor; simpl; intuition discriminate. }
    repeat split.
    + rewrite <- (length_map record_labels), H, length_map. reflexivity.
    + exact H.
    + apply (NoDup_map_inv config_labels). exact Hd.
    + rewrite H. exact Hd.
  - unfold run, run_experiments, bind, lift.
    destruct load_data as [[[[X_train y_train] X_val] y_val]|]; [|auto].
    intros H. right. apply run_loop_none in H.
    destruct H as [exp [s0 [Hin Hnone]]].
    exists X_train, y_train, X_val, y_val, exp, s0.
    split; [reflexivity|]. split; [exact Hin|].
    apply run_one_none. exact Hnone.
Qed.

(** C9: in every record of a run, the 'Stop Words' field is "No" exactly
    when the stop-word flag of its configuration is True and "Yes"
    exactly when the flag is False. *)
Theorem stop_words_field_reports_remaining s results s' :
  run s = Some (results, s') ->
  forall i exp,
    nth_error experiments i = Some exp ->
    exists r,
      nth_error results i = Some r /\
      (get_str "Stop Words" r = Some "No"%string <-> stop_words exp = true) /\
      (get_str "Stop Words" r = Some "Yes"%string <-> stop_words exp = false).
Proof.
  intros H i exp Hexp. apply run_experiments_labels in H.
  assert (Hi : nth_error (map record_labels results) i
               = Some (config_labels exp)).
  { rewrite H. apply map_nth_error. exact Hexp. }
  rewrite nth_error_map in Hi.
  destruct (nth_error results i) as [r|]; [|discriminate].
  exists r. split; [reflexivity|].
  simpl in Hi. unfold record_labels, config_labels in Hi.
  injection Hi as _ _ Hsw. rewrite Hsw.
  destruct (stop_words exp); split; split; intros E;
    try reflexivity; discriminate.
Qed.

End Driver.

Lemma run_experiments_one_record_per_configuration_witness :
  exists results s',
    run_experiments ToyWorld.FittedModel ToyWorld.cv_score ToyWorld.refit
                    ToyWorld.predict ToyWorld.create_text_pipeline
                    ToyWorld.load_data ToyWorld.clock 0%nat
    = Some (results, s') /\
    List.length results = 8%nat /\
    experiments = cross_product /\
    map record_labels results = map config_labels experiments /\
    NoDup experiments /\
    NoDup (map record_labels results).
Proof.
  do 2 eexists. split.
  - vm_compute. reflexivity.
  - apply (proj1 (run_experiments_one_record_per_configuration
                    ToyWorld.FittedModel ToyWorld.cv_score ToyWorld.refit
                    ToyWorld.predict ToyWorld.create_text_pipeline
                    ToyWorld.load_data ToyWorld.clock 0%nat) _ 32%nat).
    vm_compute. reflexivity.
Defined.

Lemma stop_words_field_reports_remaining_witness :
  exists r,
    option_map fst
      (run_experiments ToyWorld.FittedModel ToyWorld.cv_score ToyWorld.refit
                       ToyWorld.predict ToyWorld.create_text_pipeline
                       ToyWorld.load_data ToyWorld.clock 0%nat)
    = Some r /\
    forall i exp,
      nth_error experiments i = Some exp ->
      exists rec,
        nth_error r i = Some rec /\
        (get_str "Stop Words" rec = Some "No"%string
         <-> stop_words exp = true) /\
        (get_str "Stop Words" rec = Some "Yes"%string
         <-> stop_words exp = false).
Proof.
  eexists. split.
  - vm_compute. reflexivity.
  - apply (stop_words_field_reports_remaining
             ToyWorld.FittedModel ToyWorld.cv_score ToyWorld.refit
             ToyWorld.predict ToyWorld.create_text_pipeline
             ToyWorld.load_data ToyWorld.clock 0%nat _ 32%nat).
    vm_compute. reflexivity.
Defined.

(* ================================================================== *)
(** ** [main.py]: training by grid search *)

(** *** Comparing scores *)






(** *** The selected grid point *)

Section Selection.
Variable score : dict -> float.


End Selection.

Section Training.
Variable FittedModel : Type.
Variable cv_score :
  Pipeline -> dict -> string -> nat -> nat ->
  list string -> list label -> float.
Variable refit :
  Pipeline -> dict -> list string -> list label -> option FittedModel.
Variable create_text_pipeline :
  string -> string -> bool -> option (Pipeline * string).
Variable clock : nat -> float.




End Training.


(* ================================================================== *)
(** ** Further properties of [compute_metrics] *)

Lemma both_classes_dec (y_true y_pred : list label) :
  {both_classes y_true y_pred} + {~ both_classes y_true y_pred}.
Proof.
  unfold both_classes.
  destruct (in_dec Bool.bool_dec false (y_true ++ y_pred));
    destruct (in_dec Bool.bool_dec true (y_true ++ y_pred)); tauto.
Qed.

(** [compute_metrics] raises exactly when the two sequences differ in
    length or a single class (or none) occurs among all their labels. *)
Theorem compute_metrics_raises_iff (y_true y_pred : list label) :
  compute_metrics y_true y_pred = None <->
  List.length y_true <> List.length y_pred \/ ~ both_classes y_true y_pred.
Proof.
  split.
  - intros H.
    destruct (Nat.eq_dec (List.length y_true) (List.length y_pred))
      as [Hlen|Hlen]; [|auto].
    destruct (both_classes_dec y_true y_pred) as [Hb|Hb]; [|auto].
    destruct (compute_metrics_both _ _ Hlen Hb) as [mcc [_ E]].
    rewrite E in H. discriminate H.
  - intros [Hlen|Hb].
    + unfold compute_metrics, confusion_matrix.
      replace (same_length y_true y_pred) with false; [reflexivity|].
      symmetry. apply Nat.eqb_neq. exact Hlen.
    + apply compute_metrics_single_class. exact Hb.
Qed.

(** Precision, recall and F1 of the record are the guarded binary64
    quotients of the record's own counts: TP / (TP + FP), TP / (TP + FN)
    and 2 TP / (2 TP + FP + FN), each replaced by 0 when its denominator
    is 0. *)
Theorem scores_match_counts (y_true y_pred : list label) (m : dict) :
  compute_metrics y_true y_pred = Some m ->
  exists tp fp fn,
    get_int "TP" m = Some tp /\ get_int "FP" m = Some fp /\
    get_int "FN" m = Some fn /\
    get_float "Precision" m = Some (prf_divide tp (tp + fp) 0) /\
    get_float "Recall" m = Some (prf_divide tp (tp + fn) 0) /\
    get_float "F1 Score" m = Some (prf_divide (2 * tp) (2 * tp + fp + fn) 0).
Proof.
  intros H. apply compute_metrics_inv in H.
  destruct H as [Hlen [_ [mcc ->]]].
  do 3 eexists. repeat split; try reflexivity.
  - unfold metrics_record, get_float. cbn [dict_get]. simpl String.eqb.
    cbv iota. rewrite (pred_sum_cells _ _ Hlen). reflexivity.
  - unfold metrics_record, get_float. cbn [dict_get]. simpl String.eqb.
    cbv iota. rewrite (true_sum_cells _ _ Hlen). reflexivity.
  - unfold metrics_record, get_float. cbn [dict_get]. simpl String.eqb.
    cbv iota. rewrite (true_sum_cells _ _ Hlen), (pred_sum_cells _ _ Hlen).
    unfold tp_sum. do 2 f_equal. lia.
Qed.

Lemma scores_match_counts_witness :
  exists tp fp fn,
    get_int "TP" (metrics_record [true; false; true] [true; true; false]
                                 (-0.5)) = Some tp /\
    get_int "FP" (metrics_record [true; false; true] [true; true; false]
                                 (-0.5)) = Some fp /\
    get_int "FN" (metrics_record [true; false; true] [true; true; false]
                                 (-0.5)) = Some fn /\
    get_float "Precision"
              (metrics_record [true; false; true] [true; true; false] (-0.5))
    = Some (prf_divide tp (tp + fp) 0) /\
    get_float "Recall"
              (metrics_record [true; false; true] [true; true; false] (-0.5))
    = Some (prf_divide tp (tp + fn) 0) /\
    get_float "F1 Score"
              (metrics_record [true; false; true] [true; true; false] (-0.5))
    = Some (prf_divide (2 * tp) (2 * tp + fp + fn) 0).
Proof.
  apply (scores_match_counts [true; false; true] [true; true; false]).
  vm_compute. reflexivity.
Defined.

(** *** Exchanging the roles of truth and prediction *)

Lemma count_pairs_swap (t p : label) (y_true y_pred : list label) :
  count_pairs t p y_true y_pred = count_pairs p t y_pred y_true.
Proof.
  unfold count_pairs. f_equal. revert y_pred.
  induction y_true as [|a y IH]; intros [|b y']; try reflexivity.
  cbn [combine filter fst snd].
  destruct (Bool.eqb a t), (Bool.eqb b p); cbn [andb List.length];
    rewrite (IH y'); reflexivity.
Qed.

Lemma n_correct_swap (y_true y_pred : list label) :
  n_correct y_true y_pred = n_correct y_pred y_true.
Proof.
  unfold n_correct. f_equal. revert y_pred.
  induction y_true as [|a y IH]; intros [|b y']; try reflexivity.
  cbn [combine filter fst snd].
  destruct a, b; cbn [Bool.eqb List.length]; rewrite (IH y'); reflexivity.
Qed.

Lemma both_classes_swap (y_true y_pred : list label) :
  both_classes y_true y_pred -> both_classes y_pred y_true.
Proof.
  unfold both_classes. rewrite !in_app_iff. tauto.
Qed.

(** Exchanging [y_true] and [y_pred] exchanges FP with FN and precision
    with recall, and leaves TP, TN, accuracy, error rate and F1 unchanged. *)
Theorem compute_metrics_swap (y_true y_pred : list label) (m : dict) :
  compute_metrics y_true y_pred = Some m ->
  exists m',
    compute_metrics y_pred y_true = Some m' /\
    get_int "TP" m' = get_int "TP" m /\
    get_int "TN" m' = get_int "TN" m /\
    get_int "FP" m' = get_int "FN" m /\
    get_int "FN" m' = get_int "FP" m /\
    get_float "Accuracy" m' = get_float "Accuracy" m /\
    get_float "Error Rate" m' = get_float "Error Rate" m /\
    get_float "Precision" m' = get_float "Recall" m /\
    get_float "Recall" m' = get_float "Precision" m /\
    get_float "F1 Score" m' = get_float "F1 Score" m.
Proof.
  intros H. apply compute_metrics_inv in H.
  destruct H as [Hlen [Hboth [mcc ->]]].
  destruct (compute_metrics_both y_pred y_true (eq_sym Hlen)
                                 (both_classes_swap _ _ Hboth))
    as [mcc' [_ E]].
  exists (metrics_record y_pred y_true mcc'). split; [exact E|].
  unfold metrics_record, get_int, get_float. cbn [dict_get].
  simpl String.eqb. cbv iota.
  unfold tp_sum, pred_sum, true_sum.
  rewrite (n_correct_swap y_pred y_true), <- Hlen.
  rewrite (count_pairs_swap true true y_pred y_true).
  rewrite (count_pairs_swap false false y_pred y_true).
  rewrite (count_pairs_swap false true y_pred y_true).
  rewrite (count_pairs_swap true false y_pred y_true).
  rewrite (Z.add_comm (count_label true y_pred) (count_label true y_true)).
  repeat split; reflexivity.
Qed.

Lemma compute_metrics_swap_witness :
  exists m',
    compute_metrics [true; true; false] [true; false; true] = Some m' /\
    get_int "TP" m' = Some 1 /\
    get_int "TN" m' = Some 0 /\
    get_int "FP" m' = Some 1 /\
    get_int "FN" m' = Some 1 /\
    get_float "Accuracy" m'
    = get_float "Accuracy"
                (metrics_record [true; false; true] [true; true; false]
                                (-0.5)) /\
    get_float "Error Rate" m'
    = get_float "Error Rate"
                (metrics_record [true; false; true] [true; true; false]
                                (-0.5)) /\
    get_float "Precision" m' = Some 0.5%float /\
    get_float "Recall" m' = Some 0.5%float /\
    get_float "F1 Score" m' = Some 0.5%float.
Proof.
  apply (compute_metrics_swap
           [true; false; true] [true; true; false]
           (metrics_record [true; false; true] [true; true; false] (-0.5))).
  vm_compute. reflexivity.
Defined.

(** *** Scores lie between 0 and 1 *)

Lemma finite_in_unit_interval (x : float) (m : positive) (e : Z) :
  Prim2SF x = S754_finite false m e ->
  e <= -53 \/ (Z.pos m = 2 ^ 52 /\ e = -52) ->
  in_unit_interval x.
Proof.
  intros Hx Hle. unfold in_unit_interval.
  rewrite !leb_spec, Hx. split; [reflexivity|].
  change (Prim2SF 1) with SF_one. unfold SF_one, SFleb, SFcompare.
  destruct Hle as [He|[Hm ->]].
  - replace (e ?= -52) with Lt; [reflexivity|].
    symmetry. apply Z.compare_lt_iff. lia.
  - assert (m = Z.to_pos (2 ^ 52)) as -> by lia. reflexivity.
Qed.

Lemma quotient_in_unit_interval (c n : Z) :
  0 <= c <= n -> 0 < n < 2 ^ 63 ->
  in_unit_interval (float_of_count c / float_of_count n).
Proof.
  intros Hc Hn. destruct (Z.eq_dec c 0) as [->|Hc0].
  - rewrite zero_numerator by assumption. split; reflexivity.
  - destruct (quotient_in_unit c n ltac:(lia) ltac:(lia))
      as [m [e [E [_ Hle]]]].
    apply (finite_in_unit_interval _ m e E Hle).
Qed.

Lemma prf_divide_in_unit_interval (c n : Z) :
  0 <= c <= n -> n < 2 ^ 63 -> in_unit_interval (prf_divide c n 0).
Proof.
  intros Hc Hn. unfold prf_divide.
  destruct (Z.eqb_spec n 0) as [|Hne]; [split; reflexivity|].
  apply quotient_in_unit_interval; lia.
Qed.

(** Accuracy, precision, recall and F1 of the record lie between 0 and 1
    (for fewer than 2^62 examples, so that the 64-bit counts do not wrap). *)
Theorem scores_in_unit_interval (y_true y_pred : list label) (m : dict) :
  compute_metrics y_true y_pred = Some m ->
  Z.of_nat (List.length y_true) < 2 ^ 62 ->
  exists acc prec rec f1,
    get_float "Accuracy" m = Some acc /\ in_unit_interval acc /\
    get_float "Precision" m = Some prec /\ in_unit_interval prec /\
    get_float "Recall" m = Some rec /\ in_unit_interval rec /\
    get_float "F1 Score" m = Some f1 /\ in_unit_interval f1.
Proof.
  intros H Hsize. apply compute_metrics_inv in H.
  destruct H as [Hlen [Hboth [mcc ->]]].
  pose proof (pred_sum_cells _ _ Hlen) as Hps.
  pose proof (true_sum_cells _ _ Hlen) as Hts.
  pose proof (counts_total _ _ Hlen) as Ht.
  pose proof (n_correct_counts y_true y_pred) as Hnc.
  pose proof (count_pairs_nonneg true true y_true y_pred).
  pose proof (count_pairs_nonneg false false y_true y_pred).
  pose proof (count_pairs_nonneg false true y_true y_pred).
  pose proof (count_pairs_nonneg true false y_true y_pred).
  pose proof (both_classes_nonempty _ _ Hlen Hboth) as Hpos.
  change (2 ^ 62) with 4611686018427387904 in Hsize.
  assert (H63 : 2 ^ 63 = 9223372036854775808) by reflexivity.
  do 4 eexists.
  split; [reflexivity|]. split; [apply quotient_in_unit_interval; lia|].
  split; [reflexivity|].
  split; [apply prf_divide_in_unit_interval; unfold tp_sum; lia|].
  split; [reflexivity|].
  split; [apply prf_divide_in_unit_interval; unfold tp_sum; lia|].
  split; [reflexivity|].
  apply prf_divide_in_unit_interval; unfold tp_sum; lia.
Qed.

Lemma scores_in_unit_interval_witness :
  exists acc prec rec f1,
    get_float "Accuracy"
              (metrics_record [true; false; true] [true; true; false] (-0.5))
    = Some acc /\ in_unit_interval acc /\
    get_float "Precision"
              (metrics_record [true; false; true] [true; true; false] (-0.5))
    = Some prec /\ in_unit_interval prec /\
    get_float "Recall"
              (metrics_record [true; false; true] [true; true; false] (-0.5))
    = Some rec /\ in_unit_interval rec /\
    get_float "F1 Score"
              (metrics_record [true; false; true] [true; true; false] (-0.5))
    = Some f1 /\ in_unit_interval f1.
Proof.
  apply (scores_in_unit_interval [true; false; true] [true; true; false]).
  - vm_compute. reflexivity.
  - vm_compute. reflexivity.
Defined.

(** *** Perfect predictions *)

Lemma quotient_self (n : Z) :
  0 < n < 2 ^ 63 -> (float_of_count n / float_of_count n)%float = 1%float.
Proof.
  intros Hn. apply Prim2SF_inj.
  rewrite div_spec, float_of_count_pos by assumption.
  pose proof (normal_form_bounds n ltac:(lia)) as [Hm _].
  set (mn := fst (normal_form n)) in *. set (en := snd (normal_form n)).
  unfold SF64div, SFdiv.
  rewrite !Z2Pos.id by (change (2 ^ 52) with 4503599627370496 in *; lia).
  rewrite SFdiv_core_normal by (try assumption; lia).
  rewrite (Z.mul_comm mn), Z.mod_mul, Z.div_mul
    by (change (2 ^ 52) with 4503599627370496 in *; lia).
  rewrite new_location_zero.
  replace (en - en - 53) with (-53) by lia. reflexivity.
Qed.

Lemma count_pairs_diag (t p : label) (y : list label) :
  count_pairs t p y y = if Bool.eqb t p then count_label t y else 0.
Proof.
  unfold count_pairs, count_label.
  induction y as [|a y IH]; [destruct (Bool.eqb t p); reflexivity|].
  cbn [combine filter fst snd].
  destruct a, t, p; cbn [Bool.eqb andb List.length] in *;
    rewrite ?Nat2Z.inj_succ, ?IH; reflexivity.
Qed.

Lemma n_correct_diag (y : list label) :
  n_correct y y = Z.of_nat (List.length y).
Proof.
  unfold n_correct. f_equal.
  induction y as [|a y IH]; [reflexivity|].
  cbn [combine filter fst snd]. rewrite Bool.eqb_reflx.
  cbn [List.length]. rewrite IH. reflexivity.
Qed.

Lemma In_count_label_pos (l : label) (y : list label) :
  In l y -> 0 < count_label l y.
Proof.
  unfold count_label. induction y as [|a y IH]; [intros []|].
  intros [->|H]; cbn [filter].
  - rewrite Bool.eqb_reflx. cbn [List.length]. lia.
  - specialize (IH H). destruct (Bool.eqb l a); cbn [List.length]; lia.
Qed.

(** When every prediction is correct (and both classes occur), the record
    has no false positive and no false negative, accuracy 1, error rate 0,
    and precision, recall and F1 equal to 1. *)
Theorem perfect_predictions (y : list label) :
  In false y -> In true y ->
  Z.of_nat (List.length y) < 2 ^ 62 ->
  exists m,
    compute_metrics y y = Some m /\
    get_int "TP" m = Some (count_label true y) /\
    get_int "TN" m = Some (count_label false y) /\
    get_int "FP" m = Some 0 /\ get_int "FN" m = Some 0 /\
    get_float "Accuracy" m = Some 1%float /\
    get_float "Error Rate" m = Some 0%float /\
    get_float "Precision" m = Some 1%float /\
    get_float "Recall" m = Some 1%float /\
    get_float "F1 Score" m = Some 1%float.
Proof.
  intros Hf Ht Hsize.
  assert (Hboth : both_classes y y)
    by (split; apply in_or_app; auto).
  destruct (compute_metrics_both y y eq_refl Hboth) as [mcc [_ E]].
  exists (metrics_record y y mcc). split; [exact E|].
  pose proof (In_count_label_pos true y Ht) as Hpos.
  pose proof (In_count_label_pos false y Hf) as Hneg.
  pose proof (count_label_split y) as Hsplit.
  change (2 ^ 62) with 4611686018427387904 in Hsize.
  assert (H63 : 2 ^ 63 = 9223372036854775808) by reflexivity.
  assert (Hacc : (float_of_count (n_correct y y)
                  / float_of_count (Z.of_nat (List.length y)))%float
                 = 1%float).
  { rewrite n_correct_diag. apply quotient_self. lia. }
  assert (Hq : prf_divide (count_label true y) (count_label true y) 0
               = 1%float).
  { unfold prf_divide. destruct (Z.eqb_spec (count_label true y) 0); [lia|].
    apply quotient_self. lia. }
  assert (Hf1 : prf_divide (2 * count_label true y)
                           (count_label true y + count_label true y) 0
                = 1%float).
  { replace (count_label true y + count_label true y)
      with (2 * count_label true y) by lia.
    unfold prf_divide.
    destruct (Z.eqb_spec (2 * count_label true y) 0); [lia|].
    apply quotient_self. lia. }
  unfold metrics_record, get_int, get_float. cbn [dict_get].
  simpl String.eqb. cbv iota.
  unfold tp_sum, pred_sum, true_sum.
  rewrite !count_pairs_diag. cbn [Bool.eqb]. rewrite Hacc, Hq, Hf1.
  repeat split; reflexivity.
Qed.

Lemma perfect_predictions_witness :
  exists m,
    compute_metrics [true; false; true] [true; false; true] = Some m /\
    get_int "TP" m = Some 2 /\
    get_int "TN" m = Some 1 /\
    get_int "FP" m = Some 0 /\ get_int "FN" m = Some 0 /\
    get_float "Accuracy" m = Some 1%float /\
    get_float "Error Rate" m = Some 0%float /\
    get_float "Precision" m = Some 1%float /\
    get_float "Recall" m = Some 1%float /\
    get_float "F1 Score" m = Some 1%float.
Proof.
  apply (perfect_predictions [true; false; true]).
  - simpl; tauto.
  - simpl; tauto.
  - vm_compute. reflexivity.
Defined.

(* ================================================================== *)
(** ** Further properties of training and evaluation in [main.py] *)

(** *** Names are matched without regard to case *)






Section Steps.
Variable FittedModel : Type.
Variable cv_score :
  Pipeline -> dict -> string -> nat -> nat ->
  list string -> list label -> float.
Variable refit :
  Pipeline -> dict -> list string -> list label -> option FittedModel.
Variable predict : FittedModel -> list string -> option (list label).
Variable create_text_pipeline :
  string -> string -> bool -> option (Pipeline * string).
Variable clock : nat -> float.

Lemma evaluate_model_result model X_val y_val suffix s metrics s' :
  evaluate_model FittedModel predict clock model X_val y_val suffix s
  = Some (metrics, s') ->
  exists y_val_pred m,
    predict model X_val = Some y_val_pred /\
    compute_metrics y_val y_val_pred = Some m /\
    metrics = m ++ [ ("Prediction Time"%string,
                      VFloat (clock (S s) - clock s)) ] /\
    s' = S (S s).
Proof.
  unfold evaluate_model, bind, lift, time, ret.
  destruct (predict model X_val) as [y_val_pred|]; [|discriminate].
  destruct (compute_metrics y_val y_val_pred) as [m|] eqn:Hm;
    [|discriminate].
  destruct (confusion_matrix y_val y_val_pred); [|discriminate].
  intros H. injection H as <- <-.
  exists y_val_pred, m. split; [reflexivity|]. split; [exact Hm|].
  destruct (compute_metrics_inv _ _ _ Hm) as [_ [_ [mcc ->]]].
  split; reflexivity.
Qed.




End Steps.

(* ================================================================== *)
(** ** Further properties of the driver and its report *)

Section Records.
Variable FittedModel : Type.
Variable cv_score :
  Pipeline -> dict -> string -> nat -> nat ->
  list string -> list label -> float.
Variable refit :
  Pipeline -> dict -> list string -> list label -> option FittedModel.
Variable predict : FittedModel -> list string -> option (list label).
Variable create_text_pipeline :
  string -> string -> bool -> option (Pipeline * string).
Variable load_data :
  option (list string * list label * list string * list label).
Variable clock : nat -> float.

Lemma run_one_record X_train y_train X_val y_val exp s r s' :
  run_one FittedModel cv_score refit predict create_text_pipeline clock
          X_train y_train X_val y_val exp s = Some (r, s') ->
  is_result_record y_val exp r.
Proof.
  unfold run_one, bind, ret.
  destruct (train_model _ _ _ _ _ _ _ _ _ _ s) as [[[[model suffix] t] s1]|];
    [|discriminate].
  destruct (evaluate_model _ _ _ _ _ _ _ s1) as [[metrics s2]|] eqn:He;
    [|discriminate].
  intros H. injection H as <- _.
  apply evaluate_model_result in He.
  destruct He as [y_val_pred [m [_ [Hm [-> _]]]]].
  destruct (compute_metrics_inv _ _ _ Hm) as [_ [_ [mcc ->]]].
  exists t, y_val_pred, mcc, (clock (S s1) - clock s1)%float.
  split; [exact Hm|reflexivity].
Qed.

Lemma run_loop_records X_train y_train X_val y_val exps :
  forall acc s results s',
    run_loop FittedModel cv_score refit predict create_text_pipeline clock
             X_train y_train X_val y_val exps acc s = Some (results, s') ->
    exists new,
      results = acc ++ new /\ Forall2 (is_result_record y_val) exps new.
Proof.
  induction exps as [|exp exps IH]; intros acc s results s' H.
  - injection H as <- _. exists []. rewrite app_nil_r. auto.
  - simpl in H. unfold bind at 1 in H.
    destruct (run_one _ _ _ _ _ _ _ _ _ _ exp s) as [[r s1]|] eqn:Hr;
      [|discriminate].
    apply IH in H. destruct H as [new [-> Hnew]].
    exists (r :: new). split.
    + rewrite <- app_assoc. reflexivity.
    + constructor; [|exact Hnew]. apply (run_one_record _ _ _ _ _ _ _ _ Hr).
Qed.

Lemma run_experiments_records X_train y_train X_val y_val s results s' :
  load_data = Some (X_train, y_train, X_val, y_val) ->
  run_experiments FittedModel cv_score refit predict create_text_pipeline
                  load_data clock s = Some (results, s') ->
  Forall2 (is_result_record y_val) experiments results.
Proof.
  unfold run_experiments, bind, lift. intros ->.
  intros H. apply run_loop_records in H.
  destruct H as [new [-> Hnew]]. exact Hnew.
Qed.

(** Every record of a run has the same fifteen keys in the same order,
    and its four confusion-matrix counts add up to the number of
    validation examples loaded by [load_data]. *)
Theorem run_experiments_records_complete
        X_train y_train X_val y_val s results s' :
  load_data = Some (X_train, y_train, X_val, y_val) ->
  run_experiments FittedModel cv_score refit predict create_text_pipeline
                  load_data clock s = Some (results, s') ->
  Forall
    (fun r =>
       keys r = result_keys /\
       exists tp tn fp fn,
         get_int "TP" r = Some tp /\ get_int "TN" r = Some tn /\
         get_int "FP" r = Some fp /\ get_int "FN" r = Some fn /\
         tp + tn + fp + fn = Z.of_nat (List.length y_val))
    results.
Proof.
  intros Hload H.
  pose proof (run_experiments_records _ _ _ _ _ _ _ Hload H) as HF.
  clear H Hload. induction HF as [|exp r exps rs Hr _ IH]; constructor.
  - destruct Hr as [tt [y_val_pred [mcc [pt [Hm ->]]]]].
    split; [reflexivity|].
    destruct (compute_metrics_inv _ _ _ Hm) as [Hlen _].
    do 4 eexists. repeat split; try reflexivity.
    apply counts_total. exact Hlen.
  - exact IH.
Qed.

End Records.

Lemma run_experiments_records_complete_witness :
  exists results,
    option_map fst
      (run_experiments ToyWorld.FittedModel ToyWorld.cv_score ToyWorld.refit
                       ToyWorld.predict ToyWorld.create_text_pipeline
                       ToyWorld.load_data ToyWorld.clock 0%nat)
    = Some results /\
    Forall
      (fun r =>
         keys r = result_keys /\
         exists tp tn fp fn,
           get_int "TP" r = Some tp /\ get_int "TN" r = Some tn /\
           get_int "FP" r = Some fp /\ get_int "FN" r = Some fn /\
           tp + tn + fp + fn = 3)
      results.
Proof.
  eexists. split.
  - vm_compute. reflexivity.
  - apply (run_experiments_records_complete
             ToyWorld.FittedModel ToyWorld.cv_score ToyWorld.refit
             ToyWorld.predict ToyWorld.create_text_pipeline
             ToyWorld.load_data ToyWorld.clock
             ["good"; "bad"]%string [true; false]
             ["good"; "bad"; "fine"]%string [true; false; true]
             0%nat _ 32%nat).
    + reflexivity.
    + vm_compute. reflexivity.
Defined.

(** *** The tables of [display_results] *)

Lemma mapM_inv {A B : Type} (f : A -> option B) (l : list A) :
  forall zs, Report.mapM f l = Some zs ->
             Forall2 (fun x z => f x = Some z) l zs.
Proof.
  induction l as [|x l IH]; intros zs H; simpl in H.
  - injection H as <-. constructor.
  - destruct (f x) as [y|] eqn:Hy; [|discriminate]. simpl in H.
    destruct (Report.mapM f l) as [ys|]; [|discriminate]. simpl in H.
    injection H as <-. constructor; [exact Hy|]. apply IH. reflexivity.
Qed.

Lemma mapM_Forall2 {A B C : Type} (f : B -> option C)
      (R : A -> B -> Prop) (Q : A -> C -> Prop) :
  (forall x y, R x y -> exists z, f y = Some z /\ Q x z) ->
  forall xs ys, Forall2 R xs ys ->
                exists zs, Report.mapM f ys = Some zs /\ Forall2 Q xs zs.
Proof.
  intros Hf xs ys HF. induction HF as [|x y xs ys Hxy _ IH].
  - exists []. split; [reflexivity|constructor].
  - destruct (Hf _ _ Hxy) as [z [Hz Hq]]. destruct IH as [zs [Hzs HQ]].
    exists (z :: zs). simpl. rewrite Hz, Hzs. split; [reflexivity|].
    constructor; assumption.
Qed.

Lemma mapM_none {A B : Type} (f : A -> option B) (l : list A) (x : A) :
  In x l -> f x = None -> Report.mapM f l = None.
Proof.
  intros Hin Hx. induction l as [|a l IH]; [destruct Hin|].
  simpl. destruct Hin as [->|Hin].
  - rewrite Hx. reflexivity.
  - rewrite (IH Hin). destruct (f a); reflexivity.
Qed.

Lemma Forall2_map_eq {A B C : Type} (g : A -> C) (h : B -> C)
      (xs : list A) (ys : list B) :
  Forall2 (fun x y => h y = g x) xs ys -> map h ys = map g xs.
Proof.
  intros HF. induction HF as [|x y xs ys E _ IH]; [reflexivity|].
  simpl. rewrite E, IH. reflexivity.
Qed.

Section Reporting.
Variable str_float : float -> string.
Variable fixed : nat -> float -> string.

Let display := Report.display_results str_float fixed.

Lemma conf_matrix_row_inv (r row : dict) :
  Report.conf_matrix_row str_float r = Some row ->
  keys row = [ "Model"; "TP"; "FN"; "FP"; "TN" ]%string /\
  (exists label, Report.model_label str_float r = Some label /\
                 dict_get "Model" row = Some (VStr label)) /\
  dict_get "TP" row = dict_get "TP" r /\
  dict_get "FN" row = dict_get "FN" r /\
  dict_get "FP" row = dict_get "FP" r /\
  dict_get "TN" row = dict_get "TN" r.
Proof.
  unfold Report.conf_matrix_row, Report.getitem.
  destruct (Report.model_label str_float r) as [label|]; [|discriminate].
  destruct (dict_get "TP" r) as [tp|]; [|discriminate].
  destruct (dict_get "FN" r) as [fn|]; [|discriminate].
  destruct (dict_get "FP" r) as [fp|]; [|discriminate].
  destruct (dict_get "TN" r) as [tn|]; [|discriminate].
  intros H. injection H as <-.
  split; [reflexivity|]. split; [exists label; split; reflexivity|].
  repeat split; reflexivity.
Qed.

Lemma formatted_inv (r : dict) (k : string) (n : nat) (unit : string)
      (cell : value) :
  Report.formatted fixed r k n unit = Some cell ->
  exists v str,
    dict_get k r = Some v /\ Report.format_fixed fixed n v = Some str /\
    cell = VStr (str ++ unit).
Proof.
  unfold Report.formatted, Report.getitem.
  destruct (dict_get k r) as [v|]; [|discriminate]. simpl.
  destruct (Report.format_fixed fixed n v) as [str|] eqn:Hs; [|discriminate].
  intros H. injection H as <-. exists v, str.
  split; [reflexivity|]. split; [exact Hs|reflexivity].
Qed.

(** The columns of the metrics table with their number of decimals and
    their unit. *)
Let metric_columns : list (string * nat * string) :=
  [ ("Accuracy", 4%nat, ""); ("Error Rate", 4%nat, "");
    ("Precision", 4%nat, ""); ("Recall", 4%nat, "");
    ("F1 Score", 4%nat, ""); ("MCC", 4%nat, "");
    ("Training Time", 2%nat, "s"); ("Prediction Time", 4%nat, "s") ]%string.

Lemma metrics_row_inv (r row : dict) :
  Report.metrics_row str_float fixed r = Some row ->
  keys row = [ "Model"; "Accuracy"; "Error Rate"; "Precision"; "Recall";
               "F1 Score"; "MCC"; "Training Time";
               "Prediction Time" ]%string /\
  (exists label, Report.model_label str_float r = Some label /\
                 dict_get "Model" row = Some (VStr label)) /\
  forall k n unit,
    In (k, n, unit) metric_columns ->
    exists v str,
      dict_get k r = Some v /\ Report.format_fixed fixed n v = Some str /\
      dict_get k row = Some (VStr (str ++ unit)).
Proof.
  unfold Report.metrics_row.
  destruct (Report.model_label str_float r) as [label|]; [|discriminate].
  simpl obind.
  repeat match goal with
         | |- context [Report.formatted fixed r ?k ?n ?u] =>
             let H := fresh "Hc" in
             destruct (Report.formatted fixed r k n u) eqn:H;
             [apply formatted_inv in H; simpl obind|discriminate]
         end.
  intros H. injection H as <-.
  split; [reflexivity|]. split; [exists label; split; reflexivity|].
  intros k n unit Hin. simpl in Hin.
  repeat match goal with
         | H : exists _, _ |- _ => destruct H as [? [? [? [? ->]]]]
         end.
  repeat match goal with
         | H : _ \/ _ |- _ => destruct H as [H|H]
         | H : (_, _, _) = (_, _, _) |- _ => injection H as <- <- <-
         | H : False |- _ => destruct H
         end;
    (do 2 eexists; split; [eassumption|]; split; [eassumption|reflexivity]).
Qed.

(** When [display_results] returns, each of its two tables has one row
    per result record, in order: the confusion-matrix row carries the
    record's label and its four counts unchanged, and the metrics row its
    label and each metric formatted with 4 decimals (2 for the training
    time, the two times followed by "s"). *)
Theorem display_results_rows (results : list dict) (rep : Report.report) :
  display results = Some rep ->
  Forall2
    (fun r row =>
       keys row = [ "Model"; "TP"; "FN"; "FP"; "TN" ]%string /\
       (exists label, Report.model_label str_float r = Some label /\
                      dict_get "Model" row = Some (VStr label)) /\
       dict_get "TP" row = dict_get "TP" r /\
       dict_get "FN" row = dict_get "FN" r /\
       dict_get "FP" row = dict_get "FP" r /\
       dict_get "TN" row = dict_get "TN" r)
    results (Report.df_conf rep) /\
  Forall2
    (fun r row =>
       keys row = [ "Model"; "Accuracy"; "Error Rate"; "Precision";
                    "Recall"; "F1 Score"; "MCC"; "Training Time";
                    "Prediction Time" ]%string /\
       (exists label, Report.model_label str_float r = Some label /\
                      dict_get "Model" row = Some (VStr label)) /\
       forall k n unit,
         In (k, n, unit) metric_columns ->
         exists v str,
           dict_get k r = Some v /\
           Report.format_fixed fixed n v = Some str /\
           dict_get k row = Some (VStr (str ++ unit)))
    results (Report.df_metrics rep).
Proof.
  unfold display, Report.display_results.
  destruct (Report.mapM (Report.conf_matrix_row str_float) results)
    as [conf|] eqn:Hc; [|discriminate].
  destruct (Report.mapM (Report.metrics_row str_float fixed) results)
    as [met|] eqn:Hm; [|discriminate].
  simpl obind.
  destruct (Report.mapM (Report.chart_point str_float "Accuracy") results);
    [|discriminate].
  destruct (Report.mapM (Report.chart_point str_float "MCC") results);
    [|discriminate].
  destruct (Report.mapM (Report.chart_point str_float "F1 Score") results);
    [|discriminate].
  destruct (Report.mapM (Report.chart_point str_float "Training Time")
                        results); [|discriminate].
  simpl obind. intros H. injection H as <-. cbn [Report.df_conf Report.df_metrics].
  split.
  - apply mapM_inv in Hc.
    eapply Forall2_impl; [|exact Hc]. intros r row. apply conf_matrix_row_inv.
  - apply mapM_inv in Hm.
    eapply Forall2_impl; [|exact Hm]. intros r row. apply metrics_row_inv.
Qed.


Ltac reduce_to_none :=
  unfold obind;
  repeat match goal with
         | |- context [match dict_get ?k ?r with Some _ => _ | None => _ end] =>
             destruct (dict_get k r)
         | |- context [match Report.format_fixed ?f ?n ?v with
                       | Some _ => _ | None => _ end] =>
             destruct (Report.format_fixed f n v)
         | |- context [match ?x with Some _ => _ | None => _ end] =>
             destruct x
         end;
  reflexivity.

Lemma conf_matrix_row_missing (r : dict) (k : string) :
  In k [ "Classifier"; "Vectorizer"; "Stop Words";
         "TP"; "TN"; "FP"; "FN" ]%string ->
  dict_get k r = None ->
  Report.conf_matrix_row str_float r = None.
Proof.
  intros Hin Hk. unfold Report.conf_matrix_row, Report.model_label,
    Report.getitem.
  simpl in Hin.
  repeat match goal with
         | H : _ \/ _ |- _ => destruct H as [H|H]
         | H : False |- _ => destruct H
         end; subst k; rewrite Hk; reduce_to_none.
Qed.

Lemma metrics_row_missing (r : dict) (k : string) :
  In k [ "Training Time"; "Accuracy"; "Error Rate"; "Precision"; "Recall";
         "F1 Score"; "MCC"; "Prediction Time" ]%string ->
  dict_get k r = None ->
  Report.metrics_row str_float fixed r = None.
Proof.
  intros Hin Hk. unfold Report.metrics_row, Report.formatted,
    Report.getitem.
  simpl in Hin.
  repeat match goal with
         | H : _ \/ _ |- _ => destruct H as [H|H]
         | H : False |- _ => destruct H
         end; subst k; rewrite Hk; reduce_to_none.
Qed.

(** [display_results] raises as soon as one record lacks one of the
    fifteen keys of a result record. *)
Theorem display_results_missing_key (results : list dict) (r : dict)
        (k : string) :
  In r results -> In k result_keys -> dict_get k r = None ->
  display results = None.
Proof.
  intros Hr Hk Hnone. unfold display, Report.display_results.
  assert (Hcase : In k [ "Classifier"; "Vectorizer"; "Stop Words";
                         "TP"; "TN"; "FP"; "FN" ]%string \/
                  In k [ "Training Time"; "Accuracy"; "Error Rate";
                         "Precision"; "Recall"; "F1 Score"; "MCC";
                         "Prediction Time" ]%string).
  { unfold result_keys in Hk. simpl in Hk |- *. tauto. }
  destruct Hcase as [Hc|Hm].
  - rewrite (mapM_none _ _ r Hr (conf_matrix_row_missing r k Hc Hnone)).
    reflexivity.
  - rewrite (mapM_none (Report.metrics_row str_float fixed) _ r Hr
                       (metrics_row_missing r k Hm Hnone)).
    destruct (Report.mapM (Report.conf_matrix_row str_float) results);
      reflexivity.
Qed.

End Reporting.

Lemma display_results_rows_witness :
  exists rep,
    Report.display_results ToyFormat.str_float ToyFormat.fixed
                           ToyFormat.results = Some rep /\
    (Forall2
       (fun r row =>
          keys row = [ "Model"; "TP"; "FN"; "FP"; "TN" ]%string /\
          (exists label,
              Report.model_label ToyFormat.str_float r = Some label /\
              dict_get "Model" row = Some (VStr label)) /\
          dict_get "TP" row = dict_get "TP" r /\
          dict_get "FN" row = dict_get "FN" r /\
          dict_get "FP" row = dict_get "FP" r /\
          dict_get "TN" row = dict_get "TN" r)
       ToyFormat.results (Report.df_conf rep) /\
     Forall2
       (fun r row =>
          keys row = [ "Model"; "Accuracy"; "Error Rate"; "Precision";
                       "Recall"; "F1 Score"; "MCC"; "Training Time";
                       "Prediction Time" ]%string /\
          (exists label,
              Report.model_label ToyFormat.str_float r = Some label /\
              dict_get "Model" row = Some (VStr label)) /\
          forall k n unit,
            In (k, n, unit)
               [ ("Accuracy", 4%nat, ""); ("Error Rate", 4%nat, "");
                 ("Precision", 4%nat, ""); ("Recall", 4%nat, "");
                 ("F1 Score", 4%nat, ""); ("MCC", 4%nat, "");
                 ("Training Time", 2%nat, "s");
                 ("Prediction Time", 4%nat, "s") ]%string ->
            exists v str,
              dict_get k r = Some v /\
              Report.format_fixed ToyFormat.fixed n v = Some str /\
              dict_get k row = Some (VStr (str ++ unit)))
       ToyFormat.results (Report.df_metrics rep)).
Proof.
  eexists. split.
  - vm_compute. reflexivity.
  - apply (display_results_rows ToyFormat.str_float ToyFormat.fixed
                                ToyFormat.results).
    vm_compute. reflexivity.
Defined.

Lemma display_results_missing_key_witness :
  Report.display_results ToyFormat.str_float ToyFormat.fixed
                         [ [ ("Classifier", VStr "SVM") ] ]%string = None.
Proof.
  apply (display_results_missing_key
           ToyFormat.str_float ToyFormat.fixed
           [ [ ("Classifier", VStr "SVM") ] ]%string
           [ ("Classifier", VStr "SVM") ]%string "TP"%string).
  - simpl; auto.
  - unfold result_keys; simpl; tauto.
  - reflexivity.
Defined.

(** *** Reporting the records of a run *)

Section RunReport.
Variable FittedModel : Type.
Variable cv_score :
  Pipeline -> dict -> string -> nat -> nat ->
  list string -> list label -> float.
Variable refit :
  Pipeline -> dict -> list string -> list label -> option FittedModel.
Variable predict : FittedModel -> list string -> option (list label).
Variable create_text_pipeline :
  string -> string -> bool -> option (Pipeline * string).
Variable load_data :
  option (list string * list label * list string * list label).
Variable clock : nat -> float.
Variable str_float : float -> string.
Variable fixed : nat -> float -> string.

Lemma conf_matrix_row_of_record y_val exp r :
  is_result_record y_val exp r ->
  exists row,
    Report.conf_matrix_row str_float r = Some row /\
    dict_get "Model" row = Some (VStr (table_label exp)).
Proof.
  intros [tt [y_val_pred [mcc [pt [_ ->]]]]].
  eexists. split; reflexivity.
Qed.

Lemma metrics_row_of_record y_val exp r :
  is_result_record y_val exp r ->
  exists row,
    Report.metrics_row str_float fixed r = Some row /\
    dict_get "Model" row = Some (VStr (table_label exp)).
Proof.
  intros [tt [y_val_pred [mcc [pt [_ ->]]]]].
  eexists. split; reflexivity.
Qed.

Lemma chart_point_of_record y_val exp r k :
  In k [ "Accuracy"; "MCC"; "F1 Score"; "Training Time" ]%string ->
  is_result_record y_val exp r ->
  exists point,
    Report.chart_point str_float k r = Some point /\
    fst point = bar_label exp.
Proof.
  intros Hk [tt [y_val_pred [mcc [pt [_ ->]]]]]. simpl in Hk.
  repeat match goal with
         | H : _ \/ _ |- _ => destruct H as [H|H]
         | H : False |- _ => destruct H
         end; subst k; eexists; split; reflexivity.
Qed.

(** After a run that returns, [display_results] builds its tables and
    chart series without raising; the rows and bars follow the
    configurations in order, and the eight labels of the tables, like the
    eight labels of the charts, are pairwise distinct. *)
Theorem report_of_a_run s results s' :
  run_experiments FittedModel cv_score refit predict create_text_pipeline
                  load_data clock s = Some (results, s') ->
  exists rep,
    Report.display_results str_float fixed results = Some rep /\
    map (dict_get "Model") (Report.df_conf rep)
    = map (fun exp => Some (VStr (table_label exp))) experiments /\
    map (dict_get "Model") (Report.df_metrics rep)
    = map (fun exp => Some (VStr (table_label exp))) experiments /\
    map fst (Report.acc_df rep) = map bar_label experiments /\
    map fst (Report.mcc_df rep) = map bar_label experiments /\
    map fst (Report.f1_df rep) = map bar_label experiments /\
    map fst (Report.time_df rep) = map bar_label experiments /\
    NoDup (map table_label experiments) /\
    NoDup (map bar_label experiments).
Proof.
  intros H.
  assert (HF : exists y_val,
             Forall2 (is_result_record y_val) experiments results).
  { destruct load_data as [[[[X_train y_train] X_val] y_val]|].
    - exists y_val.
      apply (run_experiments_records
               FittedModel cv_score refit predict create_text_pipeline _
               clock X_train y_train X_val y_val s results s' eq_refl H).
    - discriminate H. }
  destruct HF as [y_val HF].
  destruct (mapM_Forall2 (Report.conf_matrix_row str_float) _
              (fun exp row => dict_get "Model" row
                              = Some (VStr (table_label exp)))
              (conf_matrix_row_of_record y_val) _ _ HF)
    as [conf [Hconf Qconf]].
  destruct (mapM_Forall2 (Report.metrics_row str_float fixed) _
              (fun exp row => dict_get "Model" row
                              = Some (VStr (table_label exp)))
              (metrics_row_of_record y_val) _ _ HF)
    as [met [Hmet Qmet]].
  assert (Hchart : forall k,
             In k [ "Accuracy"; "MCC"; "F1 Score"; "Training Time" ]%string ->
             exists pts,
               Report.mapM (Report.chart_point str_float k) results
               = Some pts /\
               map fst pts = map bar_label experiments).
  { intros k Hk.
    destruct (mapM_Forall2 (Report.chart_point str_float k) _
                (fun exp point => fst point = bar_label exp)
                (fun exp r => chart_point_of_record y_val exp r k Hk)
                _ _ HF) as [pts [Hpts Qpts]].
    exists pts. split; [exact Hpts|].
    apply Forall2_map_eq. exact Qpts. }
  destruct (Hchart "Accuracy"%string) as [acc [Hacc Qacc]]; [simpl; auto|].
  destruct (Hchart "MCC"%string) as [mcc [Hmcc Qmcc]]; [simpl; auto|].
  destruct (Hchart "F1 Score"%string) as [f1 [Hf1 Qf1]]; [simpl; auto|].
  destruct (Hchart "Training Time"%string) as [tm [Htm Qtm]];
    [simpl; tauto|].
  eexists. split.
  - unfold Report.display_results.
    rewrite Hconf, Hmet, Hacc, Hmcc, Hf1, Htm. reflexivity.
  - cbn [Report.df_conf Report.df_metrics Report.acc_df Report.mcc_df
         Report.f1_df Report.time_df].
    split; [apply Forall2_map_eq; exact Qconf|].
    split; [apply Forall2_map_eq; exact Qmet|].
    repeat (split; [assumption|]).
    split; vm_compute; repeat constructor; simpl; intuition discriminate.
Qed.

End RunReport.

Lemma report_of_a_run_witness :
  exists results,
    option_map fst
      (run_experiments ToyWorld.FittedModel ToyWorld.cv_score ToyWorld.refit
                       ToyWorld.predict ToyWorld.create_text_pipeline
                       ToyWorld.load_data ToyWorld.clock 0%nat)
    = Some results /\
    exists rep,
      Report.display_results ToyFormat.str_float ToyFormat.fixed results
      = Some rep /\
      map (dict_get "Model") (Report.df_conf rep)
      = map (fun exp => Some (VStr (table_label exp))) experiments /\
      map (dict_get "Model") (Report.df_metrics rep)
      = map (fun exp => Some (VStr (table_label exp))) experiments /\
      map fst (Report.acc_df rep) = map bar_label experiments /\
      map fst (Report.mcc_df rep) = map bar_label experiments /\
      map fst (Report.f1_df rep) = map bar_label experiments /\
      map fst (Report.time_df rep) = map bar_label experiments /\
      NoDup (map table_label experiments) /\
      NoDup (map bar_label experiments).
Proof.
  eexists. split.
  - vm_compute. reflexivity.
  - apply (report_of_a_run
             ToyWorld.FittedModel ToyWorld.cv_score ToyWorld.refit
             ToyWorld.predict ToyWorld.create_text_pipeline
             ToyWorld.load_data ToyWorld.clock
             ToyFormat.str_float ToyFormat.fixed 0%nat _ 32%nat).
    vm_compute. reflexivity.
Defined.

(* ================================================================== *)
(** ** [rf.py]: training and evaluation *)

Section RfSteps.
Variable FittedModel : Type.
Variable cv_score :
  Pipeline -> dict -> string -> nat -> nat ->
  list string -> list label -> float.
Variable refit :
  Pipeline -> dict -> list string -> list label -> option FittedModel.
Variable predict : FittedModel -> list string -> option (list label).
Variable clock : nat -> float.
Variable plot_confusion_matrix : list (list Z) -> option unit.

(** [evaluate_model] of [rf.py] returns for every prediction of the right
    length whose heatmap can be drawn, also when a single class occurs:
    it does not unpack the confusion matrix.  The accuracy it returns lies
    between 0 and 1 and adds up to exactly 1 with the error rate. *)
Theorem rf_evaluate_model_returns model X_val y_val y_val_pred s :
  predict model X_val = Some y_val_pred ->
  List.length y_val = List.length y_val_pred ->
  y_val <> [] ->
  Z.of_nat (List.length y_val) < 2 ^ 63 ->
  (forall c, confusion_matrix y_val y_val_pred = Some c ->
             plot_confusion_matrix c = Some tt) ->
  exists val_accuracy error_rate mcc,
    RfScript.evaluate_model FittedModel predict clock plot_confusion_matrix
                            model X_val y_val s
    = Some ((val_accuracy, error_rate, mcc), S (S s)) /\
    val_accuracy
    = (float_of_count (n_correct y_val y_val_pred)
       / float_of_count (Z.of_nat (List.length y_val)))%float /\
    in_unit_interval val_accuracy /\
    (val_accuracy + error_rate)%float = 1%float.
Proof.
  intros Hp Hlen Hne Hsize Hplot.
  pose proof (proj2 (same_length_true _ _) Hlen) as Hsame.
  destruct (matthews_corrcoef_some _ _ Hsame) as [mcc Hmcc].
  assert (Hn : 0 < Z.of_nat (List.length y_val))
    by (destruct y_val; [contradiction|simpl; lia]).
  assert (Hc : 0 <= n_correct y_val y_val_pred
               <= Z.of_nat (List.length y_val)).
  { pose proof (counts_total _ _ Hlen) as Ht.
    rewrite n_correct_counts.
    pose proof (count_pairs_nonneg true true y_val y_val_pred).
    pose proof (count_pairs_nonneg false false y_val y_val_pred).
    pose proof (count_pairs_nonneg false true y_val y_val_pred).
    pose proof (count_pairs_nonneg true false y_val y_val_pred).
    lia. }
  do 3 eexists. split; [|split; [reflexivity|split]].
  - unfold RfScript.evaluate_model, bind, lift, time, ret.
    rewrite Hp. unfold accuracy_score. rewrite Hsame, Hmcc.
    destruct (confusion_matrix y_val y_val_pred) as [c|] eqn:Ec.
    + rewrite (Hplot c eq_refl). reflexivity.
    + unfold confusion_matrix in Ec. rewrite Hsame in Ec. discriminate Ec.
  - apply quotient_in_unit_interval; lia.
  - apply accuracy_plus_complement; lia.
Qed.


End RfSteps.

Lemma rf_evaluate_model_returns_witness :
  exists val_accuracy error_rate mcc,
    RfScript.evaluate_model ToyWorld.FittedModel ToyWorld.predict
                            ToyWorld.clock (fun _ => Some tt)
                            tt ["good"; "good"]%string [true; true] 0%nat
    = Some ((val_accuracy, error_rate, mcc), 2%nat) /\
    val_accuracy
    = (float_of_count (n_correct [true; true] [true; true])
       / float_of_count 2)%float /\
    in_unit_interval val_accuracy /\
    (val_accuracy + error_rate)%float = 1%float.
Proof.
  apply (rf_evaluate_model_returns
           ToyWorld.FittedModel ToyWorld.predict ToyWorld.clock
           (fun _ => Some tt) tt ["good"; "good"]%string [true; true]
           [true; true] 0%nat).
  - reflexivity.
  - reflexivity.
  - discriminate.
  - vm_compute. reflexivity.
  - intros c _. reflexivity.
Defined.


(** *** The features listed as most important *)

Lemma StronglySorted_app_le {A : Type} (R : A -> A -> Prop) (l1 l2 : list A) :
  StronglySorted R (l1 ++ l2) ->
  forall x y, In x l1 -> In y l2 -> R x y.
Proof.
  induction l1 as [|a l1 IH]; simpl; intros HS x y Hx Hy; [destruct Hx|].
  apply StronglySorted_inv in HS. destruct HS as [HS HF].
  destruct Hx as [->|Hx].
  - rewrite Forall_forall in HF. apply HF. apply in_or_app. auto.
  - apply (IH HS x y Hx Hy).
Qed.

(** Given that [argsort] returns the indices of the importances in
    ascending order, the indices selected by [train_model] of [rf.py] are
    the last 15 of them (all when there are fewer): they are distinct and
    valid, and no feature left out is more important than a selected one. *)
Theorem top_indices_are_most_important
        (argsort : list float -> list nat) (importances : list float) :
  Permutation (argsort importances) (seq 0 (List.length importances)) ->
  StronglySorted
    (fun i j => (nth i importances nan <=? nth j importances nan)%float
                = true)
    (argsort importances) ->
  List.length (RfScript.top_indices argsort importances)
  = Nat.min 15 (List.length importances) /\
  NoDup (RfScript.top_indices argsort importances) /\
  (forall i, In i (RfScript.top_indices argsort importances) ->
             (i < List.length importances)%nat) /\
  (forall i j,
      In i (RfScript.top_indices argsort importances) ->
      (j < List.length importances)%nat ->
      ~ In j (RfScript.top_indices argsort importances) ->
      (nth j importances nan <=? nth i importances nan)%float = true).
Proof.
  intros Hperm Hsorted.
  unfold RfScript.top_indices, RfScript.last_items.
  set (order := argsort importances) in *.
  set (k := (List.length order - 15)%nat).
  assert (Hlen : List.length order = List.length importances).
  { rewrite (Permutation_length Hperm). apply length_seq. }
  assert (Hsplit : order = firstn k order ++ skipn k order)
    by (symmetry; apply firstn_skipn).
  assert (Hnodup : NoDup order).
  { apply (Permutation_NoDup (Permutation_sym Hperm)). apply seq_NoDup. }
  split; [rewrite length_skipn; unfold k; lia|].
  split.
  { rewrite Hsplit in Hnodup. apply NoDup_app_remove_l in Hnodup.
    exact Hnodup. }
  split.
  { intros i Hi.
    assert (Hin : In i order)
      by (rewrite Hsplit; apply in_or_app; auto).
    apply (Permutation_in _ Hperm) in Hin. apply in_seq in Hin. lia. }
  intros i j Hi Hj Hnot.
  assert (Hin : In j order).
  { apply (Permutation_in _ (Permutation_sym Hperm)). apply in_seq. lia. }
  rewrite Hsplit in Hin. apply in_app_or in Hin.
  destruct Hin as [Hin|Hin]; [|contradiction].
  rewrite Hsplit in Hsorted.
  apply (StronglySorted_app_le _ _ _ Hsorted j i Hin Hi).
Qed.

Lemma top_indices_are_most_important_witness :
  List.length (RfScript.top_indices (fun _ => seq 0 16) ToyFormat.importances)
  = Nat.min 15 (List.length ToyFormat.importances) /\
  NoDup (RfScript.top_indices (fun _ => seq 0 16) ToyFormat.importances) /\
  (forall i, In i (RfScript.top_indices (fun _ => seq 0 16)
                                        ToyFormat.importances) ->
             (i < List.length ToyFormat.importances)%nat) /\
  (forall i j,
      In i (RfScript.top_indices (fun _ => seq 0 16)
                                 ToyFormat.importances) ->
      (j < List.length ToyFormat.importances)%nat ->
      ~ In j (RfScript.top_indices (fun _ => seq 0 16)
                                   ToyFormat.importances) ->
      (nth j ToyFormat.importances nan
       <=? nth i ToyFormat.importances nan)%float = true).
Proof.
  apply (top_indices_are_most_important (fun _ => seq 0 16)
                                        ToyFormat.importances).
  - apply Permutation_refl.
  - repeat constructor.
Defined.

(* ================================================================== *)
(** ** The Matthews coefficient of a constant predictor *)

(** *** Sums, products and differences stay finite *)

Lemma nonneg_upto_weaken (lo hi lo' hi' : Z) (x : float) :
  lo' <= lo -> hi <= hi' -> nonneg_upto lo hi x -> nonneg_upto lo' hi' x.
Proof.
  intros Hlo Hhi [H|[m [e [H [H1 H2]]]]]; [left; exact H|right].
  exists m, e. split; [exact H|lia].
Qed.

Lemma normal_mantissa (x : float) (s : bool) (m : positive) (e : Z) :
  Prim2SF x = S754_finite s m e -> -1074 < e ->
  2 ^ 52 <= Z.pos m < 2 ^ 53 /\ e <= 971.
Proof.
  intros Hx He. pose proof (Prim2SF_valid x) as Hv. rewrite Hx in Hv.
  cbn [SpecFloat.valid_binary] in Hv. unfold bounded, canonical_mantissa in Hv.
  apply andb_true_iff in Hv. destruct Hv as [H1 H2].
  apply Z.eqb_eq in H1. apply Z.leb_le in H2.
  unfold fexp, SpecFloat.emin, prec, emax in *.
  assert (Hd : Z.pos (digits2_pos m) = 53) by lia.
  pose proof (digits2_pos_bounds m) as Hb. rewrite Hd in Hb.
  change (53 - 1) with 52 in Hb. split; [exact Hb|lia].
Qed.

Lemma float_of_count_nonneg (n : Z) :
  0 <= n < 2 ^ 63 -> nonneg_upto (-52) 64 (float_of_count n).
Proof.
  intros Hn. destruct (Z.eq_dec n 0) as [->|Hne].
  - left. reflexivity.
  - right. rewrite float_of_count_pos by lia.
    pose proof (normal_form_bounds n ltac:(lia)) as [_ He].
    pose proof (Zdigits2_pos n ltac:(lia)).
    pose proof (digits_lt_pow2 n 63 ltac:(lia) ltac:(lia)).
    do 2 eexists. split; [reflexivity|lia].
Qed.

Lemma binary_normalize_pos_bounds (M e : Z) :
  0 < M ->
  -1074 <= e + Zdigits2 M - 53 -> e + Zdigits2 M - 52 <= 971 ->
  exists m' e',
    binary_normalize prec emax M e false = S754_finite false m' e' /\
    e + Zdigits2 M - 53 <= e' <= e + Zdigits2 M - 52.
Proof.
  intros HM Hlo Hhi.
  destruct (Z_le_gt_dec (Zdigits2 M) 53) as [Hd|Hd].
  - rewrite (binary_normalize_exact M e (Zdigits2 M))
      by (try reflexivity; lia).
    do 2 eexists. split; [reflexivity|lia].
  - rewrite (binary_normalize_round M e (Zdigits2 M))
      by (try reflexivity; lia).
    destruct (round_shift M (Zdigits2 M - 53) =? 2 ^ 53);
      do 2 eexists; (split; [reflexivity|lia]).
Qed.

Lemma digits_ge_pow2 (n k : Z) : 0 <= k -> 2 ^ k <= n -> k < Zdigits2 n.
Proof.
  intros Hk Hn.
  assert (Hpos : 0 < n) by (pose proof (Z.pow_pos_nonneg 2 k); lia).
  pose proof (Zdigits2_bounds n Hpos) as Hb.
  apply pow2_lt_mono; lia.
Qed.

Lemma add_nonneg (lo hi : Z) (x y : float) :
  -1000 <= lo -> hi <= 900 ->
  nonneg_upto lo hi x -> nonneg_upto lo hi y ->
  nonneg_upto lo (hi + 2) (x + y) /\
  (Prim2SF x = S754_zero false -> (x + y)%float = y) /\
  (Prim2SF y = S754_zero false -> (x + y)%float = x).
Proof.
  intros Hlo Hhi Hx Hy.
  destruct Hx as [Hx|[mx [ex [Hx [Hex1 Hex2]]]]];
    destruct Hy as [Hy|[my [ey [Hy [Hey1 Hey2]]]]].
  - assert (E : (x + y)%float = y).
    { apply Prim2SF_inj. rewrite add_spec, Hx, Hy. reflexivity. }
    assert (E' : (x + y)%float = x).
    { apply Prim2SF_inj. rewrite add_spec, Hx, Hy. reflexivity. }
    split; [rewrite E; left; exact Hy|]. split; intros _; assumption.
  - assert (E : (x + y)%float = y).
    { apply Prim2SF_inj. rewrite add_spec, Hx, Hy. reflexivity. }
    split; [rewrite E; right; exists my, ey; split; [exact Hy|lia]|].
    split; [intros _; exact E|]. rewrite Hy. discriminate.
  - assert (E : (x + y)%float = x).
    { apply Prim2SF_inj. rewrite add_spec, Hx, Hy. reflexivity. }
    split; [rewrite E; right; exists mx, ex; split; [exact Hx|lia]|].
    split; [rewrite Hx; discriminate|intros _; exact E].
  - split; [|split; [rewrite Hx|rewrite Hy]; discriminate].
    right.
    pose proof (normal_mantissa x _ _ _ Hx ltac:(lia)) as [Hmx _].
    pose proof (normal_mantissa y _ _ _ Hy ltac:(lia)) as [Hmy _].
    rewrite add_spec, Hx, Hy. unfold SF64add, SFadd. cbn [cond_Zopp].
    rewrite !shl_align_spec by lia.
    set (ez := Z.min ex ey).
    set (S := Z.pos mx * 2 ^ (ex - ez) + Z.pos my * 2 ^ (ey - ez)).
    set (k := Z.max ex ey - ez).
    assert (Hk : 0 <= k) by (unfold k, ez; lia).
    assert (Hpx : 0 < 2 ^ (ex - ez) <= 2 ^ k).
    { split; [apply Z.pow_pos_nonneg|apply Z.pow_le_mono_r];
        unfold k, ez; lia. }
    assert (Hpy : 0 < 2 ^ (ey - ez) <= 2 ^ k).
    { split; [apply Z.pow_pos_nonneg|apply Z.pow_le_mono_r];
        unfold k, ez; lia. }
    assert (Hone : 2 ^ (ex - ez) = 1 \/ 2 ^ (ey - ez) = 1).
    { destruct (Z_le_gt_dec ex ey); [left|right];
        match goal with |- 2 ^ ?a = 1 => replace a with 0 by (unfold ez; lia) end;
        reflexivity. }
    assert (Hmax : 2 ^ (ex - ez) = 2 ^ k \/ 2 ^ (ey - ez) = 2 ^ k).
    { destruct (Z_le_gt_dec ex ey); [right|left]; f_equal; unfold k, ez; lia. }
    assert (HS : 2 ^ (52 + k) <= S < 2 ^ (54 + k)).
    { rewrite !pow2_split by lia.
      change (2 ^ 54) with (2 * 2 ^ 53).
      change (2 ^ 53) with (2 * 2 ^ 52) in *.
      change (2 ^ 52) with 4503599627370496 in *.
      unfold S. split; destruct Hmax as [Em|Em]; rewrite ?Em in *; nia. }
    assert (Hd1 : 52 + k < Zdigits2 S) by (apply digits_ge_pow2; lia).
    assert (Hd2 : Zdigits2 S <= 54 + k).
    { apply digits_lt_pow2; [|lia].
      pose proof (Z.pow_pos_nonneg 2 (52 + k) ltac:(lia) ltac:(lia)). lia. }
    destruct (binary_normalize_pos_bounds S ez) as [m' [e' [E He']]].
    + pose proof (Z.pow_pos_nonneg 2 (52 + k) ltac:(lia) ltac:(lia)). lia.
    + unfold k, ez in *. lia.
    + unfold k, ez in *. lia.
    + exists m', e'. split; [exact E|]. unfold k, ez in *. lia.
Qed.

Lemma mul_nonneg (lo hi : Z) (x y : float) :
  -500 <= lo -> hi <= 450 ->
  nonneg_upto lo hi x -> nonneg_upto lo hi y ->
  nonneg_upto (2 * lo + 52) (2 * hi + 1) (x * y) /\
  (Prim2SF x = S754_zero false \/ Prim2SF y = S754_zero false ->
   Prim2SF (x * y) = S754_zero false).
Proof.
  intros Hlo Hhi Hx Hy.
  destruct Hx as [Hx|[mx [ex [Hx [Hex1 Hex2]]]]];
    destruct Hy as [Hy|[my [ey [Hy [Hey1 Hey2]]]]].
  - assert (E : Prim2SF (x * y) = S754_zero false)
      by (rewrite mul_spec, Hx, Hy; reflexivity).
    split; [left; exact E|intros _; exact E].
  - assert (E : Prim2SF (x * y) = S754_zero false)
      by (rewrite mul_spec, Hx, Hy; reflexivity).
    split; [left; exact E|intros _; exact E].
  - assert (E : Prim2SF (x * y) = S754_zero false)
      by (rewrite mul_spec, Hx, Hy; reflexivity).
    split; [left; exact E|intros _; exact E].
  - split; [|intros [H|H]; [rewrite Hx in H|rewrite Hy in H]; discriminate].
    right.
    pose proof (normal_mantissa x _ _ _ Hx ltac:(lia)) as [Hmx _].
    pose proof (normal_mantissa y _ _ _ Hy ltac:(lia)) as [Hmy _].
    rewrite mul_spec, Hx, Hy. unfold SF64mul, SFmul. cbn [xorb].
    change (Z.pos (mx * my)) with (Z.pos mx * Z.pos my).
    set (P := Z.pos mx * Z.pos my).
    assert (HP : 2 ^ 104 <= P < 2 ^ 106).
    { change (2 ^ 104) with (2 ^ 52 * 2 ^ 52).
      change (2 ^ 106) with (2 ^ 53 * 2 ^ 53).
      change (2 ^ 53) with (2 * 2 ^ 52) in *.
      change (2 ^ 52) with 4503599627370496 in *. unfold P. nia. }
    assert (Hd1 : 104 < Zdigits2 P) by (apply digits_ge_pow2; lia).
    assert (Hd2 : Zdigits2 P <= 106) by (apply digits_lt_pow2; lia).
    rewrite (binary_round_aux_shift P (ex + ey) (Zdigits2 P))
      by (try reflexivity; lia).
    destruct (round_shift P (Zdigits2 P - 53) =? 2 ^ 53);
      do 2 eexists; (split; [reflexivity|lia]).
Qed.

Lemma binary_round_sign (m : positive) (e : Z) :
  binary_round prec emax true m e
  = SFopp (binary_round prec emax false m e).
Proof.
  unfold binary_round.
  destruct (shl_align m e (fexp prec emax (Z.pos (digits2_pos m) + e)))
    as [mz ez].
  unfold binary_round_aux.
  destruct (shr_fexp prec emax (Z.pos mz) ez loc_Exact) as [mrs' e'].
  destruct (shr_fexp prec emax
              (round_nearest_even (shr_m mrs') (loc_of_shr_record mrs'))
              e' loc_Exact) as [mrs'' e''].
  destruct (shr_m mrs''); try reflexivity.
  destruct (e'' <=? emax - prec); reflexivity.
Qed.

Lemma sub_finite (lo hi : Z) (x y : float) :
  -1000 <= lo -> hi <= 900 ->
  nonneg_upto lo hi x -> nonneg_upto lo hi y ->
  finite_or_zero (x - y) /\
  (x = y -> Prim2SF (x - y) = S754_zero false).
Proof.
  intros Hlo Hhi Hx Hy.
  destruct Hx as [Hx|[mx [ex [Hx [Hex1 Hex2]]]]];
    destruct Hy as [Hy|[my [ey [Hy [Hey1 Hey2]]]]].
  - assert (E : Prim2SF (x - y) = S754_zero false)
      by (rewrite sub_spec, Hx, Hy; reflexivity).
    split; [left; eexists; exact E|intros _; exact E].
  - split; [|intros ->; rewrite Hy in Hx; discriminate].
    right. rewrite sub_spec, Hx, Hy. do 3 eexists. reflexivity.
  - split; [|intros ->; rewrite Hy in Hx; discriminate].
    right. rewrite sub_spec, Hx, Hy. do 3 eexists. reflexivity.
  - pose proof (normal_mantissa x _ _ _ Hx ltac:(lia)) as [Hmx _].
    pose proof (normal_mantissa y _ _ _ Hy ltac:(lia)) as [Hmy _].
    assert (Hsub : Prim2SF (x - y)
                   = binary_normalize prec emax
                       (Z.pos mx * 2 ^ (ex - Z.min ex ey)
                        - Z.pos my * 2 ^ (ey - Z.min ex ey))
                       (Z.min ex ey) false).
    { rewrite sub_spec, Hx, Hy. unfold SF64sub, SFsub. cbn [cond_Zopp].
      rewrite !shl_align_spec by lia. reflexivity. }
    split.
    + unfold finite_or_zero. rewrite Hsub.
      set (ez := Z.min ex ey).
      set (k := Z.max ex ey - ez).
      assert (Hk : 0 <= k) by (unfold k, ez; lia).
      assert (Hpx : 0 < 2 ^ (ex - ez) <= 2 ^ k).
      { split; [apply Z.pow_pos_nonneg|apply Z.pow_le_mono_r];
          unfold k, ez; lia. }
      assert (Hpy : 0 < 2 ^ (ey - ez) <= 2 ^ k).
      { split; [apply Z.pow_pos_nonneg|apply Z.pow_le_mono_r];
          unfold k, ez; lia. }
      assert (Hbx : 0 < Z.pos mx * 2 ^ (ex - ez) < 2 ^ (53 + k)).
      { rewrite pow2_split by lia. nia. }
      assert (Hby : 0 < Z.pos my * 2 ^ (ey - ez) < 2 ^ (53 + k)).
      { rewrite pow2_split by lia. nia. }
      set (A := Z.pos mx * 2 ^ (ex - ez)) in *.
      set (B := Z.pos my * 2 ^ (ey - ez)) in *.
      destruct (Z.lt_trichotomy (A - B) 0) as [Hneg|[Hz|Hpos]].
      * right. destruct (A - B) as [|p|p] eqn:Ep; try lia.
        assert (Hp : 0 < Z.pos p < 2 ^ (53 + k)) by lia.
        pose proof (digits_lt_pow2 _ _ Hp ltac:(lia)) as Hd.
        pose proof (Zdigits2_pos (Z.pos p) ltac:(lia)) as Hd0.
        destruct (binary_normalize_pos (Z.pos p) ez) as [m' [e' E]];
          [lia|unfold k, ez in *; lia|unfold k, ez in *; lia|].
        unfold binary_normalize in *. rewrite binary_round_sign, E.
        do 3 eexists. reflexivity.
      * left. rewrite Hz. eexists. reflexivity.
      * right.
        assert (Hp : 0 < A - B < 2 ^ (53 + k)) by lia.
        pose proof (digits_lt_pow2 _ _ Hp ltac:(lia)) as Hd.
        pose proof (Zdigits2_pos (A - B) ltac:(lia)) as Hd0.
        destruct (binary_normalize_pos (A - B) ez) as [m' [e' E]];
          [lia|unfold k, ez in *; lia|unfold k, ez in *; lia|].
        rewrite E. do 3 eexists. reflexivity.
    + intros ->. rewrite Hx in Hy. injection Hy as -> ->.
      rewrite Hsub, Z.sub_diag. reflexivity.
Qed.

Lemma zero_times_finite (a w : float) :
  Prim2SF a = S754_zero false -> finite_or_zero w ->
  (a * w =? 0)%float = true /\ (w * a =? 0)%float = true.
Proof.
  intros Ha Hw. rewrite !eqb_spec, !mul_spec, Ha.
  destruct Hw as [[s ->]|[s [m [e ->]]]]; destruct s; split; reflexivity.
Qed.

Lemma add_zero_l (k : Z) (x : float) :
  k <= 900 -> nonneg_upto (-52) k x -> (0 + x)%float = x.
Proof.
  intros Hk Hx.
  apply (add_nonneg (-52) k 0 x); [lia|lia|left; reflexivity|exact Hx|].
  reflexivity.
Qed.

Lemma add_zero_r (k : Z) (x : float) :
  k <= 900 -> nonneg_upto (-52) k x -> (x + 0)%float = x.
Proof.
  intros Hk Hx.
  apply (add_nonneg (-52) k x 0); [lia|lia|exact Hx|left; reflexivity|].
  reflexivity.
Qed.

(** *** The guard of [matthews_corrcoef] *)

(** With an empty column, the variance term of the predictions is +0; with
    an empty row, that of the true labels is; the other one is finite, so
    their product compares equal to 0. *)
Lemma variance_product_zero (fa fb fc fd : float) :
  nonneg_upto (-52) 64 fa -> nonneg_upto (-52) 64 fb ->
  nonneg_upto (-52) 64 fc -> nonneg_upto (-52) 64 fd ->
  (fa = 0 /\ fc = 0)%float \/ (fb = 0 /\ fd = 0)%float \/
  (fa = 0 /\ fb = 0)%float \/ (fc = 0 /\ fd = 0)%float ->
  let t0 := (fa + fb)%float in
  let t1 := (fc + fd)%float in
  let p0 := (fa + fc)%float in
  let p1 := (fb + fd)%float in
  let n := (p0 + p1)%float in
  ((n * n - (p0 * p0 + p1 * p1)) * (n * n - (t0 * t0 + t1 * t1)) =? 0)%float
  = true.
Proof.
  intros Ha Hb Hc Hd Hz t0 t1 p0 p1 n.
  assert (Ht0 : nonneg_upto (-52) 68 t0).
  { apply (nonneg_upto_weaken (-52) 66); [lia|lia|].
    apply (add_nonneg (-52) 64); solve [assumption|lia]. }
  assert (Ht1 : nonneg_upto (-52) 68 t1).
  { apply (nonneg_upto_weaken (-52) 66); [lia|lia|].
    apply (add_nonneg (-52) 64); solve [assumption|lia]. }
  assert (Hp0 : nonneg_upto (-52) 66 p0)
    by (apply (add_nonneg (-52) 64); solve [assumption|lia]).
  assert (Hp1 : nonneg_upto (-52) 66 p1)
    by (apply (add_nonneg (-52) 64); solve [assumption|lia]).
  assert (Hn : nonneg_upto (-52) 68 n)
    by (apply (add_nonneg (-52) 66); solve [assumption|lia]).
  assert (Hsq : forall x y, nonneg_upto (-52) 68 x -> nonneg_upto (-52) 68 y ->
                            nonneg_upto (-52) 139 (x * y)).
  { intros x y Hx Hy. apply (nonneg_upto_weaken (-52) 137); [lia|lia|].
    apply (mul_nonneg (-52) 68 x y); solve [assumption|lia]. }
  assert (Hdot : forall x y, nonneg_upto (-52) 68 x -> nonneg_upto (-52) 68 y ->
                             nonneg_upto (-52) 141 (x * x + y * y)).
  { intros x y Hx Hy. apply (add_nonneg (-52) 139); try lia; apply Hsq;
      assumption. }
  assert (Hp0' : nonneg_upto (-52) 68 p0)
    by (apply (nonneg_upto_weaken (-52) 66); solve [assumption|lia]).
  assert (Hp1' : nonneg_upto (-52) 68 p1)
    by (apply (nonneg_upto_weaken (-52) 66); solve [assumption|lia]).
  assert (Hnn : nonneg_upto (-52) 141 (n * n)).
  { apply (nonneg_upto_weaken (-52) 139); [lia|lia|]. apply Hsq; assumption. }
  assert (Hfp : finite_or_zero (n * n - (p0 * p0 + p1 * p1))).
  { apply (sub_finite (-52) 141); try lia; [exact Hnn|apply Hdot; assumption]. }
  assert (Hft : finite_or_zero (n * n - (t0 * t0 + t1 * t1))).
  { apply (sub_finite (-52) 141); try lia; [exact Hnn|apply Hdot; assumption]. }
  assert (Hzero : forall x, nonneg_upto (-52) 68 x ->
                            (0 * 0 + x * x = x * x)%float /\
                            (x * x + 0 * 0 = x * x)%float).
  { intros x Hx. change (0 * 0)%float with 0%float.
    split; [apply (add_zero_l 139)|apply (add_zero_r 139)]; try lia;
      apply Hsq; assumption. }
  assert (Hself : forall x, nonneg_upto (-52) 68 x ->
                            Prim2SF (x * x - x * x) = S754_zero false).
  { intros x Hx. apply (sub_finite (-52) 139 (x * x) (x * x)); try lia;
      try (apply Hsq; assumption). reflexivity. }
  destruct Hz as [[Ea Ec]|[[Eb Ed]|[[Ea Eb]|[Ec Ed]]]].
  - (* no sample predicted as the first class *)
    assert (E0 : p0 = 0%float) by (unfold p0; rewrite Ea, Ec; reflexivity).
    assert (En : n = p1) by (unfold n; rewrite E0; apply (add_zero_l 66);
                             [lia|assumption]).
    rewrite En, E0 in *. rewrite (proj1 (Hzero p1 Hp1')).
    exact (proj1 (zero_times_finite _ _ (Hself _ Hp1') Hft)).
  - (* no sample predicted as the second class *)
    assert (E1 : p1 = 0%float) by (unfold p1; rewrite Eb, Ed; reflexivity).
    assert (En : n = p0) by (unfold n; rewrite E1; apply (add_zero_r 66);
                             [lia|assumption]).
    rewrite En, E1 in *. rewrite (proj2 (Hzero p0 Hp0')).
    exact (proj1 (zero_times_finite _ _ (Hself _ Hp0') Hft)).
  - (* no sample of the first class *)
    assert (E0 : t0 = 0%float) by (unfold t0; rewrite Ea, Eb; reflexivity).
    assert (En : n = t1).
    { unfold n, p0, p1, t1. rewrite Ea, Eb.
      rewrite (add_zero_l 64 fc), (add_zero_l 64 fd) by solve [assumption|lia].
      reflexivity. }
    rewrite E0 in *. rewrite (proj1 (Hzero t1 Ht1)).
    rewrite En in *.
    exact (proj2 (zero_times_finite _ _ (Hself _ Ht1) Hfp)).
  - (* no sample of the second class *)
    assert (E1 : t1 = 0%float) by (unfold t1; rewrite Ec, Ed; reflexivity).
    assert (En : n = t0).
    { unfold n, p0, p1, t0. rewrite Ec, Ed.
      rewrite (add_zero_r 64 fa), (add_zero_r 64 fb) by solve [assumption|lia].
      reflexivity. }
    rewrite E1 in *. rewrite (proj2 (Hzero t0 Ht0)).
    rewrite En in *.
    exact (proj2 (zero_times_finite _ _ (Hself _ Ht0) Hfp)).
Qed.

(** *** Classes that never occur *)

Lemma count_pairs_absent_pred (t p : label) (y_true y_pred : list label) :
  ~ In p y_pred -> count_pairs t p y_true y_pred = 0.
Proof.
  unfold count_pairs. revert y_pred.
  induction y_true as [|a y IH]; intros [|b y'] Hp; try reflexivity.
  cbn [combine filter fst snd].
  assert (Hb : Bool.eqb b p = false).
  { apply Bool.eqb_false_iff. intros ->. apply Hp. left. reflexivity. }
  rewrite Hb, andb_false_r. apply IH. intros H. apply Hp. right. exact H.
Qed.

Lemma count_pairs_absent_true (t p : label) (y_true y_pred : list label) :
  ~ In t y_true -> count_pairs t p y_true y_pred = 0.
Proof.
  intros H. rewrite count_pairs_swap. apply count_pairs_absent_pred. exact H.
Qed.

Lemma count_label_absent (l : label) (y : list label) :
  ~ In l y -> count_label l y = 0.
Proof.
  intros H. pose proof (In_count_label_pos l y) as Hp.
  assert (0 <= count_label l y) by (unfold count_label; lia).
  destruct (Z.eq_dec (count_label l y) 0) as [E|E]; [exact E|].
  exfalso. apply H. apply count_label_pos_In. lia.
Qed.

Lemma matthews_corrcoef_degenerate (y_true y_pred : list label) :
  List.length y_true = List.length y_pred ->
  both_classes y_true y_pred ->
  Z.of_nat (List.length y_true) < 2 ^ 62 ->
  (exists l, ~ In l y_pred) \/ (exists l, ~ In l y_true) ->
  matthews_corrcoef y_true y_pred = Some 0%float.
Proof.
  intros Hlen Hboth Hsize Hmiss.
  pose proof (counts_total _ _ Hlen) as Ht.
  pose proof (count_pairs_nonneg true true y_true y_pred).
  pose proof (count_pairs_nonneg false false y_true y_pred).
  pose proof (count_pairs_nonneg false true y_true y_pred).
  pose proof (count_pairs_nonneg true false y_true y_pred).
  change (2 ^ 62) with 4611686018427387904 in Hsize.
  assert (H63 : 2 ^ 63 = 9223372036854775808) by reflexivity.
  unfold matthews_corrcoef, confusion_matrix.
  rewrite (proj2 (same_length_true _ _) Hlen).
  rewrite (unique_labels_both _ _ Hboth).
  cbn [map row_sums col_sums trace fsum dot seq List.length nth combine
       fold_left fst snd].
  rewrite variance_product_zero; [reflexivity| | | | |];
    try (apply float_of_count_nonneg; lia).
  destruct Hmiss as [[[|] Hl]|[[|] Hl]].
  - right; left.
    rewrite !(count_pairs_absent_pred _ true _ _ Hl). split; reflexivity.
  - left.
    rewrite !(count_pairs_absent_pred _ false _ _ Hl). split; reflexivity.
  - right; right; right.
    rewrite !(count_pairs_absent_true true _ _ _ Hl). split; reflexivity.
  - right; right; left.
    rewrite !(count_pairs_absent_true false _ _ _ Hl). split; reflexivity.
Qed.

(** *** Degenerate classifiers *)

(** When one of the two classes is never predicted, or never occurs among
    the true labels (and both occur overall, on fewer than 2^62 examples),
    [compute_metrics] returns a record whose MCC is 0: the guard on the
    variance product, not a division by zero. *)
Theorem missing_class_gives_zero_mcc (y_true y_pred : list label) :
  List.length y_true = List.length y_pred ->
  both_classes y_true y_pred ->
  Z.of_nat (List.length y_true) < 2 ^ 62 ->
  (exists l, ~ In l y_pred) \/ (exists l, ~ In l y_true) ->
  exists m, compute_metrics y_true y_pred = Some m /\
            get_float "MCC" m = Some 0%float.
Proof.
  intros Hlen Hboth Hsize Hmiss.
  destruct (compute_metrics_both _ _ Hlen Hboth) as [mcc [Hmcc Hm]].
  rewrite (matthews_corrcoef_degenerate _ _ Hlen Hboth Hsize Hmiss) in Hmcc.
  injection Hmcc as <-.
  exists (metrics_record y_true y_pred 0). split; [exact Hm|reflexivity].
Qed.

Lemma missing_class_gives_zero_mcc_witness :
  exists m, compute_metrics [true; true; true] [true; false; true] = Some m /\
            get_float "MCC" m = Some 0%float.
Proof.
  apply (missing_class_gives_zero_mcc [true; true; true] [true; false; true]).
  - reflexivity.
  - split; simpl; tauto.
  - reflexivity.
  - right. exists false. simpl. intuition discriminate.
Defined.

Lemma absent_class_other_present (l : label) (y : list label) :
  y <> [] -> ~ In l y -> In (negb l) y.
Proof.
  intros Hne Hl. destruct y as [|b y]; [congruence|].
  left. destruct b, l; try reflexivity; exfalso; apply Hl; left; reflexivity.
Qed.

Lemma count_label_all (l : label) (y : list label) :
  ~ In (negb l) y -> count_label l y = Z.of_nat (List.length y).
Proof.
  intros H. pose proof (count_label_split y) as Hs.
  pose proof (count_label_absent _ _ H) as Hz.
  destruct l; cbn [negb] in Hz; lia.
Qed.

(** A classifier that never predicts the positive class, on a validation
    set that has positives: the record has TP = 0 and FP = 0, and precision
    (through [zero_division=0], its denominator being 0), recall, F1 and MCC
    are all 0. *)
Theorem never_positive_predictor (y_true y_pred : list label) :
  List.length y_true = List.length y_pred ->
  ~ In true y_pred -> In true y_true ->
  Z.of_nat (List.length y_true) < 2 ^ 62 ->
  exists m, compute_metrics y_true y_pred = Some m /\
            get_int "TP" m = Some 0 /\ get_int "FP" m = Some 0 /\
            get_float "Precision" m = Some 0%float /\
            get_float "Recall" m = Some 0%float /\
            get_float "F1 Score" m = Some 0%float /\
            get_float "MCC" m = Some 0%float.
Proof.
  intros Hlen Hnp Hpos Hsize.
  assert (Hne : y_pred <> []).
  { intros ->. destruct y_true; [exact Hpos|discriminate]. }
  assert (Hboth : both_classes y_true y_pred).
  { split; apply in_or_app; [right|left; exact Hpos].
    exact (absent_class_other_present true y_pred Hne Hnp). }
  destruct (compute_metrics_both _ _ Hlen Hboth) as [mcc [Hmcc Hm]].
  rewrite (matthews_corrcoef_degenerate _ _ Hlen Hboth Hsize) in Hmcc
    by (left; exists true; exact Hnp).
  injection Hmcc as <-.
  exists (metrics_record y_true y_pred 0). split; [exact Hm|].
  pose proof (In_count_label_pos _ _ Hpos) as Hts.
  pose proof (count_label_split y_true) as Hsplit.
  assert (0 <= count_label false y_true) by (unfold count_label; lia).
  change (2 ^ 62) with 4611686018427387904 in Hsize.
  assert (H63 : 2 ^ 63 = 9223372036854775808) by reflexivity.
  unfold metrics_record, get_int, get_float, tp_sum, pred_sum, true_sum.
  cbn [dict_get String.eqb Ascii.eqb Bool.eqb].
  rewrite !(count_pairs_absent_pred _ true _ _ Hnp).
  rewrite (count_label_absent true y_pred Hnp).
  unfold prf_divide. cbn [Z.mul Z.eqb].
  rewrite Z.add_0_r.
  destruct (Z.eqb_spec (count_label true y_true) 0) as [E|_]; [lia|].
  rewrite zero_numerator by lia.
  repeat split; reflexivity.
Qed.

Lemma never_positive_predictor_witness :
  exists m,
    compute_metrics [true; false; true] [false; false; false] = Some m /\
    get_int "TP" m = Some 0 /\ get_int "FP" m = Some 0 /\
    get_float "Precision" m = Some 0%float /\
    get_float "Recall" m = Some 0%float /\
    get_float "F1 Score" m = Some 0%float /\
    get_float "MCC" m = Some 0%float.
Proof.
  apply (never_positive_predictor [true; false; true] [false; false; false]).
  - reflexivity.
  - simpl. intuition discriminate.
  - simpl. tauto.
  - reflexivity.
Defined.

(** A classifier that always predicts the positive class, on a validation
    set that has negatives: TN = 0 and FN = 0, precision is the same number
    as accuracy, recall is 1 as soon as the set has a positive, and MCC
    is 0. *)
Theorem always_positive_predictor (y_true y_pred : list label) :
  List.length y_true = List.length y_pred ->
  ~ In false y_pred -> In false y_true ->
  Z.of_nat (List.length y_true) < 2 ^ 62 ->
  exists m acc,
    compute_metrics y_true y_pred = Some m /\
    get_int "TN" m = Some 0 /\ get_int "FN" m = Some 0 /\
    get_float "Accuracy" m = Some acc /\
    get_float "Precision" m = Some acc /\
    (In true y_true -> get_float "Recall" m = Some 1%float) /\
    get_float "MCC" m = Some 0%float.
Proof.
  intros Hlen Hnn Hneg Hsize.
  assert (Hne : y_pred <> []).
  { intros ->. destruct y_true; [exact Hneg|discriminate]. }
  assert (Hboth : both_classes y_true y_pred).
  { split; apply in_or_app; [left; exact Hneg|right].
    exact (absent_class_other_present false y_pred Hne Hnn). }
  destruct (compute_metrics_both _ _ Hlen Hboth) as [mcc [Hmcc Hm]].
  rewrite (matthews_corrcoef_degenerate _ _ Hlen Hboth Hsize) in Hmcc
    by (left; exists false; exact Hnn).
  injection Hmcc as <-.
  exists (metrics_record y_true y_pred 0). eexists. split; [exact Hm|].
  pose proof (true_sum_cells _ _ Hlen) as Hts.
  pose proof (n_correct_counts y_true y_pred) as Hnc.
  pose proof (count_label_all true y_pred Hnn) as Hps.
  pose proof (both_classes_nonempty _ _ Hlen Hboth) as Hn.
  pose proof (count_label_split y_true) as Hsplit.
  assert (0 <= count_label false y_true) by (unfold count_label; lia).
  change (2 ^ 62) with 4611686018427387904 in Hsize.
  assert (H63 : 2 ^ 63 = 9223372036854775808) by reflexivity.
  unfold true_sum in Hts.
  rewrite !(count_pairs_absent_pred _ false _ _ Hnn) in *.
  rewrite Z.add_0_r in Hts, Hnc.
  unfold metrics_record, get_int, get_float, tp_sum, pred_sum, true_sum.
  cbn [dict_get String.eqb Ascii.eqb Bool.eqb].
  rewrite !(count_pairs_absent_pred _ false _ _ Hnn).
  rewrite Hnc, Hps, <- Hlen, <- Hts.
  unfold prf_divide.
  destruct (Z.eqb_spec (Z.of_nat (List.length y_true)) 0) as [E|_]; [lia|].
  split; [reflexivity|]. split; [reflexivity|]. split; [reflexivity|].
  split; [reflexivity|]. split; [|reflexivity].
  intros Hpos. pose proof (In_count_label_pos _ _ Hpos) as Hp.
  destruct (Z.eqb_spec (count_label true y_true) 0) as [E|_]; [lia|].
  rewrite quotient_self by lia. reflexivity.
Qed.

Lemma always_positive_predictor_witness :
  exists m acc,
    compute_metrics [true; false; true] [true; true; true] = Some m /\
    get_int "TN" m = Some 0 /\ get_int "FN" m = Some 0 /\
    get_float "Accuracy" m = Some acc /\
    get_float "Precision" m = Some acc /\
    (In true [true; false; true] -> get_float "Recall" m = Some 1%float) /\
    get_float "MCC" m = Some 0%float.
Proof.
  apply (always_positive_predictor [true; false; true] [true; true; true]).
  - reflexivity.
  - simpl. intuition discriminate.
  - simpl. tauto.
  - reflexivity.
Defined.
